(** * Document-analysis core: normalizers, consistency engine, decision
      combinator and job orchestration

    A shallow embedding of

    - [src/agents/cross_document_analyzer.py]: the normalizers
      ([_normalize_cnpj], [_normalize_cpf], [_normalize_text],
      [_normalize_name]), [deterministic_checks_node],
      [make_decision_node], [build_result_node], [analyze_documents];
    - [src/usecases/analysis.py]: [AnalyzeDocuments.handle] and its helpers,
      [CreateDocumentAnalysisJob] and [GetDocumentAnalysisJob];
    - [src/services/pdf.py]: [extract_text_from_pdf];
    - [src/core/base/agents.py]: [truncate_text];
    - [src/schemas.py]: [AnalysisCreateInput] and its validator;

    followed by the properties of these definitions. *)

From Stdlib Require Import ZArith NArith List Bool Lia String Ascii Floats Uint63.
From Stdlib Require Import DecimalString.
From stdpp Require Import base option list gmap.
Import ListNotations.

Local Open Scope N_scope.

(** ** Python strings *)

(** A Python [str] is a sequence of Unicode code points. *)
Definition str := list N.

(** String literals of this file are written in UTF-8 and decoded to code
    points: [py "ação"] is the four code points [97; 231; 227; 111]. *)
Fixpoint utf8_go (need : nat) (acc : N) (bs : list N) : str :=
  match bs with
  | [] => []
  | b :: bs' =>
      match need with
      | O =>
          if b <? 128 then b :: utf8_go 0 0 bs'
          else if b <? 224 then utf8_go 1 (b - 192) bs'
          else if b <? 240 then utf8_go 2 (b - 224) bs'
          else utf8_go 3 (b - 240) bs'
      | S O => (acc * 64 + (b - 128)) :: utf8_go 0 0 bs'
      | S k => utf8_go k (acc * 64 + (b - 128)) bs'
      end
  end.

Definition py (s : string) : str :=
  utf8_go 0 0 (map N_of_ascii (list_ascii_of_string s)).

(** [sep.join(words)] *)
Fixpoint join (sep : str) (words : list str) : str :=
  match words with
  | [] => []
  | [w] => w
  | w :: ws => w ++ sep ++ join sep ws
  end.

(** [s.replace(old, new)] for one-character [old] and [new], the only way
    the analyzer calls it. *)
Definition str_replace (old new : N) (s : str) : str :=
  map (fun c => if c =? old then new else c) s.

(** Truth value of a [str | None]: [None] and the empty string are falsy. *)
Definition truthy (o : option str) : bool :=
  match o with
  | Some (_ :: _) => true
  | _ => false
  end.

(** The part of the CPython string runtime the analyzer calls:
    [c.isdigit()], the white space test behind [s.split()], and
    [s.lower()].  Their Unicode tables are not part of the repository, so
    they are an interface here; [latin1] below instantiates it. *)
Class PyStrRuntime := {
  isdigit : N -> bool;
  isspace : N -> bool;
  lower : str -> str;
}.

(** What the proofs below use of the Unicode tables: U+0020 is white space
    and not cased, the ASCII letters [a]..[z] are lower case and not white
    space, every character [lower] produces is itself unchanged by [lower],
    and [lower] leaves a string of such characters as it is. *)
Class PyStrLaws (R : PyStrRuntime) : Prop := {
  isspace_space : isspace 32 = true;
  lower_space : lower [32] = [32];
  lower_az : forall c, 97 <= c <= 122 -> lower [c] = [c];
  isspace_az : forall c, 97 <= c <= 122 -> isspace c = false;
  lower_out_stable : forall s c, In c (lower s) -> lower [c] = [c];
  lower_stable_id : forall t, (forall c, In c t -> lower [c] = [c]) -> lower t = t;
}.

Section Normalizer.
Context {R : PyStrRuntime}.

(** [s.split()]: the maximal runs of characters that are not white
    space; [cur] is the run being read. *)
Fixpoint split_go (cur : str) (s : str) : list str :=
  match s with
  | [] => match cur with [] => [] | _ => [cur] end
  | c :: s' =>
      if isspace c
      then match cur with
           | [] => split_go [] s'
           | _ => cur :: split_go [] s'
           end
      else split_go (cur ++ [c]) s'
  end.

Definition split (s : str) : list str := split_go [] s.

Definition _normalize_cnpj (cnpj : option str) : str :=
  match cnpj with
  | None | Some [] => []
  | Some s => List.filter isdigit s
  end.

Definition _normalize_cpf (cpf : option str) : str :=
  match cpf with
  | None | Some [] => []
  | Some s => List.filter isdigit s
  end.

Definition _normalize_text (text : option str) : str :=
  match text with
  | None | Some [] => []
  | Some s => join [32] (split (lower s))
  end.

(** The [replacements] dict of [_normalize_name], in insertion order:
    á à ã â é ê í ó ô õ ú ü ç. *)
Definition replacements : list (N * N) :=
  [ (225, 97); (224, 97); (227, 97); (226, 97);
    (233, 101); (234, 101);
    (237, 105);
    (243, 111); (244, 111); (245, 111);
    (250, 117); (252, 117);
    (231, 99) ].

Definition _normalize_name (name : option str) : str :=
  match name with
  | None | Some [] => []
  | Some s =>
      let normalized := join [32] (split (lower s)) in
      fold_left (fun normalized '(old, new) => str_replace old new normalized)
                replacements normalized
  end.
End Normalizer.

(** The Basic Latin and Latin-1 rows of the CPython tables (code points up
    to U+00FF); characters above are taken as caseless, not white space and
    not digits.  Used to run the definitions on concrete inputs. *)
Definition latin1_isdigit (c : N) : bool :=
  ((48 <=? c) && (c <=? 57)) || (c =? 178) || (c =? 179) || (c =? 185).

Definition latin1_isspace (c : N) : bool :=
  ((9 <=? c) && (c <=? 13)) || ((28 <=? c) && (c <=? 32)) || (c =? 133) || (c =? 160).

Definition latin1_lower_char (c : N) : N :=
  if ((65 <=? c) && (c <=? 90)) || ((192 <=? c) && (c <=? 222) && negb (c =? 215))
  then c + 32 else c.

#[export] Instance latin1 : PyStrRuntime := {
  isdigit := latin1_isdigit;
  isspace := latin1_isspace;
  lower := map latin1_lower_char;
}.

(** ** Exceptions and results *)

(** JSON values held by the [details] of an exception and by the
    [error_details] column. *)
Inductive json :=
| JNull
| JStr (s : str)
| JList (l : list str).

(** A raised [Exception].  [ApplicationError] stands for an instance of
    [src.core.base.exceptions.ApplicationError] or of one of its subclasses;
    [cls] is [type(e).__name__], [message] is [str(e)]. *)
Inductive PyExc :=
| ApplicationError (cls code message : str) (details : gmap str json)
| OtherError (cls message : str).

Definition exc_cls (e : PyExc) : str :=
  match e with ApplicationError cls _ _ _ | OtherError cls _ => cls end.

Definition exc_str (e : PyExc) : str :=
  match e with ApplicationError _ _ m _ | OtherError _ m => m end.

Inductive PyResult (A : Type) :=
| Return (a : A)
| Raise (e : PyExc).
Arguments Return {A} a.
Arguments Raise {A} e.

#[export] Instance PyResult_ret : MRet PyResult := @Return.

#[export] Instance PyResult_bind : MBind PyResult :=
  fun A B k m =>
    match m with
    | Return a => k a
    | Raise e => Raise e
    end.

(** ** Dates *)

Record date := mkdate { year : Z; month : Z; day : Z }.

#[export] Instance date_eq_dec : EqDecision date.
Proof. solve_decision. Defined.

Local Open Scope Z_scope.

Definition isleap (y : Z) : bool :=
  (y mod 4 =? 0) && (negb (y mod 100 =? 0) || (y mod 400 =? 0)).

(** [calendar.monthrange(y, m)[1]] *)
Definition days_in_month (y m : Z) : Z :=
  if m =? 2 then (if isleap y then 29 else 28)
  else if (m =? 4) || (m =? 6) || (m =? 9) || (m =? 11) then 30
  else 31.

(** The dates [datetime.date] can hold: [date(MINYEAR=1, 1, 1)] to
    [date(MAXYEAR=9999, 12, 31)]. *)
Definition valid_date (d : date) : bool :=
  (1 <=? year d) && (year d <=? 9999) &&
  (1 <=? month d) && (month d <=? 12) &&
  (1 <=? day d) && (day d <=? days_in_month (year d) (month d)).

(** [a < b] on dates *)
Definition date_ltb (a b : date) : bool :=
  (year a <? year b) ||
  ((year a =? year b) &&
   ((month a <? month b) || ((month a =? month b) && (day a <? day b)))).

Definition ValueError (m : str) : PyExc := OtherError (py "ValueError") m.

(** [str(n)] of an [int] *)
Definition int_str (n : Z) : str := py (NilZero.string_of_int (Z.to_int n)).

(** [dt - relativedelta(months=months)] for [1 <= months <= 12], as
    dateutil computes it: the month moves back with a carry into the year,
    the day is cut to the length of the month reached, and building the
    date fails outside [MINYEAR..MAXYEAR]. *)
Definition minus_relativedelta_months (dt : date) (months : Z) : PyResult date :=
  let year' := year dt in
  let month' := month dt + - months in
  let '(year', month') :=
    if 12 <? month' then (year' + 1, month' - 12)
    else if month' <? 1 then (year' - 1, month' + 12)
    else (year', month') in
  let day' := Z.min (days_in_month year' month') (day dt) in
  if (1 <=? year') && (year' <=? 9999)
  then Return (mkdate year' month' day')
  else Raise (ValueError (py "year " ++ int_str year' ++ py " is out of range")).

(** [d - timedelta(days=1)]; [date.min] has no predecessor. *)
Definition previous_day (d : date) : option date :=
  if 1 <? day d then Some (mkdate (year d) (month d) (day d - 1))
  else if 1 <? month d
       then Some (mkdate (year d) (month d - 1) (days_in_month (year d) (month d - 1)))
       else if 1 <? year d then Some (mkdate (year d - 1) 12 31)
            else None.

(** [str(n).zfill(w)] for [0 <= n < 10^w] *)
Fixpoint zfill (w : nat) (n : Z) : str :=
  match w with
  | O => []
  | S w' => zfill w' (n / 10) ++ [Z.to_N (48 + n mod 10)]
  end.

(** [str(d)], the ISO format [YYYY-MM-DD] *)
Definition date_str (d : date) : str :=
  zfill 4 (year d) ++ py "-" ++ zfill 2 (month d) ++ py "-" ++ zfill 2 (day d).

(** ** Enumerations ([src/enums.py]) *)

Inductive AnalysisStatus := PENDING | RUNNING | SUCCEEDED | FAILED.
Inductive AnalysisDecision := APROVADO | REPROVADO.
Inductive DocumentType := CONTRATO_SOCIAL | CARTAO_CNPJ | CERTIDAO_NEGATIVA.
Inductive InconsistencySeverity := BLOCKER | WARN.

#[export] Instance AnalysisStatus_eq_dec : EqDecision AnalysisStatus.
Proof. solve_decision. Defined.
#[export] Instance AnalysisDecision_eq_dec : EqDecision AnalysisDecision.
Proof. solve_decision. Defined.
#[export] Instance DocumentType_eq_dec : EqDecision DocumentType.
Proof. solve_decision. Defined.
#[export] Instance InconsistencySeverity_eq_dec : EqDecision InconsistencySeverity.
Proof. solve_decision. Defined.

(** The [.value] of each member *)
Definition AnalysisStatus_value (s : AnalysisStatus) : str :=
  match s with
  | PENDING => py "PENDING"
  | RUNNING => py "RUNNING"
  | SUCCEEDED => py "SUCCEEDED"
  | FAILED => py "FAILED"
  end.

Definition AnalysisDecision_value (d : AnalysisDecision) : str :=
  match d with
  | APROVADO => py "APROVADO"
  | REPROVADO => py "REPROVADO"
  end.

Definition DocumentType_value (t : DocumentType) : str :=
  match t with
  | CONTRATO_SOCIAL => py "CONTRATO_SOCIAL"
  | CARTAO_CNPJ => py "CARTAO_CNPJ"
  | CERTIDAO_NEGATIVA => py "CERTIDAO_NEGATIVA"
  end.

(** ** Extracted document data

    The fields the analyzer reads; the remaining fields of each model
    (NIRE, CNAE, certificate number, ...) are read nowhere in the core. *)

Module Contrato.
Record Endereco := { cidade : option str; uf : option str }.
Record Socio := { nome : str; cpf : option str }.
Record ContratoSocialData := {
  razao_social : option str;
  cnpj : option str;
  sede : option Endereco;
  socios : list Socio;
}.
End Contrato.

Module Cartao.
Record EnderecoEstabelecimento := { municipio : option str; uf : option str }.
Record SocioQSA := { nome : str; cpf_cnpj : option str }.
Record CartaoCNPJData := {
  cnpj : option str;
  razao_social : option str;
  data_situacao_cadastral : option date;
  endereco_estabelecimento : option EnderecoEstabelecimento;
  qsa : list SocioQSA;
}.
End Cartao.

Module Certidao.
Record CertidaoNegativaFederalData := {
  cnpj : option str;
  razao_social : option str;
  data_emissao : option date;
  data_validade : option date;
}.
End Certidao.

(** ** The analyzer's results and state *)

Record Inconsistency := {
  code : str;
  severity : InconsistencySeverity;
  message : str;
  field : option str;
  documents : list str;
  values : list str;
}.

Record CrossDocumentAnalysisResult := {
  res_decision : AnalysisDecision;
  res_inconsistencies : list Inconsistency;
  res_summary : str;
  res_confidence : float;
}.

Record CrossDocumentAnalyzerState := {
  contrato_social : option Contrato.ContratoSocialData;
  cartao_cnpj : option Cartao.CartaoCNPJData;
  certidao_negativa : option Certidao.CertidaoNegativaFederalData;
  reference_date : option date;
  inconsistencies : option (list Inconsistency);
  decision : option AnalysisDecision;
  confidence : option float;
  summary : option str;
  result : option CrossDocumentAnalysisResult;
}.

(** ** Python dicts with string keys, in insertion order *)

(** [d[k] = v]: a present key keeps its place and takes the new value, a
    new key goes last. *)
Fixpoint dict_set (k v : str) (d : list (str * str)) : list (str * str) :=
  match d with
  | [] => [(k, v)]
  | (k', v') :: d' =>
      if decide (k' = k) then (k', v) :: d' else (k', v') :: dict_set k v d'
  end.

Fixpoint dict_get (k : str) (d : list (str * str)) : option str :=
  match d with
  | [] => None
  | (k', v') :: d' => if decide (k' = k) then Some v' else dict_get k d'
  end.

(** ** [deterministic_checks_node] *)

Section ConsistencyEngine.
Context {R : PyStrRuntime}.

(** The [cnpjs] list: one entry per document that has a CNPJ, in the order
    the three [if]s run. *)
Definition cnpjs_of (contrato : option Contrato.ContratoSocialData)
    (cartao : option Cartao.CartaoCNPJData)
    (certidao : option Certidao.CertidaoNegativaFederalData) : list (str * str) :=
  (match contrato with
   | Some c => if truthy (Contrato.cnpj c)
               then [(py "CONTRATO_SOCIAL", _normalize_cnpj (Contrato.cnpj c))] else []
   | None => []
   end) ++
  (match cartao with
   | Some c => if truthy (Cartao.cnpj c)
               then [(py "CARTAO_CNPJ", _normalize_cnpj (Cartao.cnpj c))] else []
   | None => []
   end) ++
  (match certidao with
   | Some c => if truthy (Certidao.cnpj c)
               then [(py "CERTIDAO_NEGATIVA", _normalize_cnpj (Certidao.cnpj c))] else []
   | None => []
   end).

Definition cnpj_mismatch (ref_doc doc ref_cnpj cnpj : str) : Inconsistency :=
  {| code := py "cnpj_mismatch";
     severity := BLOCKER;
     message := py "CNPJ divergente entre " ++ ref_doc ++ py " e " ++ doc ++ py ".";
     field := Some (py "cnpj");
     documents := [ref_doc; doc];
     values := [ref_cnpj; cnpj] |}.

(** [if len(entries) >= 2: ref = entries[0]; for doc, v in entries[1:]: ...] *)
Definition compare_to_first (mk : str -> str -> str -> str -> Inconsistency)
    (entries : list (str * str)) : list Inconsistency :=
  if (2 <=? length entries)%nat
  then match entries with
       | (ref_doc, ref_v) :: rest =>
           flat_map (fun '(doc, v) =>
                       if decide (v <> ref_v) then [mk ref_doc doc ref_v v] else [])
                    rest
       | [] => []
       end
  else [].

Definition check_cnpj contrato cartao certidao : list Inconsistency :=
  compare_to_first cnpj_mismatch (cnpjs_of contrato cartao certidao).

Definition razoes_of (contrato : option Contrato.ContratoSocialData)
    (cartao : option Cartao.CartaoCNPJData)
    (certidao : option Certidao.CertidaoNegativaFederalData) : list (str * str) :=
  (match contrato with
   | Some c => if truthy (Contrato.razao_social c)
               then [(py "CONTRATO_SOCIAL", _normalize_text (Contrato.razao_social c))] else []
   | None => []
   end) ++
  (match cartao with
   | Some c => if truthy (Cartao.razao_social c)
               then [(py "CARTAO_CNPJ", _normalize_text (Cartao.razao_social c))] else []
   | None => []
   end) ++
  (match certidao with
   | Some c => if truthy (Certidao.razao_social c)
               then [(py "CERTIDAO_NEGATIVA", _normalize_text (Certidao.razao_social c))] else []
   | None => []
   end).

Definition razao_social_mismatch (ref_doc doc ref_razao razao : str) : Inconsistency :=
  {| code := py "razao_social_mismatch";
     severity := BLOCKER;
     message := py "Razão social divergente entre " ++ ref_doc ++ py " e " ++ doc ++ py ".";
     field := Some (py "razao_social");
     documents := [ref_doc; doc];
     values := [ref_razao; razao] |}.

Definition check_razao_social contrato cartao certidao : list Inconsistency :=
  compare_to_first razao_social_mismatch (razoes_of contrato cartao certidao).

Definition check_certificate_expired
    (certidao : option Certidao.CertidaoNegativaFederalData)
    (reference_date : date) : list Inconsistency :=
  match certidao with
  | Some c =>
      match Certidao.data_validade c with
      | Some data_validade =>
          if date_ltb data_validade reference_date
          then [ {| code := py "certificate_expired";
                    severity := BLOCKER;
                    message := py "Certidão negativa vencida (validade: "
                               ++ date_str data_validade ++ py ").";
                    field := Some (py "data_validade");
                    documents := [py "CERTIDAO_NEGATIVA"];
                    values := [date_str data_validade] |} ]
          else []
      | None => []
      end
  | None => []
  end.

Definition check_certidao_6_months
    (certidao : option Certidao.CertidaoNegativaFederalData)
    (six_months_ago : date) : list Inconsistency :=
  match certidao with
  | Some c =>
      match Certidao.data_emissao c with
      | Some data_emissao =>
          if date_ltb data_emissao six_months_ago
          then [ {| code := py "document_older_than_6_months";
                    severity := BLOCKER;
                    message := py "Certidão negativa emitida há mais de 6 meses (emissão: "
                               ++ date_str data_emissao ++ py ").";
                    field := Some (py "data_emissao");
                    documents := [py "CERTIDAO_NEGATIVA"];
                    values := [date_str data_emissao] |} ]
          else []
      | None => []
      end
  | None => []
  end.

Definition check_cartao_6_months
    (cartao : option Cartao.CartaoCNPJData)
    (six_months_ago : date) : list Inconsistency :=
  match cartao with
  | Some c =>
      match Cartao.data_situacao_cadastral c with
      | Some data_situacao_cadastral =>
          if date_ltb data_situacao_cadastral six_months_ago
          then [ {| code := py "document_older_than_6_months";
                    severity := WARN;
                    message := py "Cartão CNPJ com situação cadastral desatualizada (data: "
                               ++ date_str data_situacao_cadastral ++ py ").";
                    field := Some (py "data_situacao_cadastral");
                    documents := [py "CARTAO_CNPJ"];
                    values := [date_str data_situacao_cadastral] |} ]
          else []
      | None => []
      end
  | None => []
  end.

Definition nonempty (s : str) : bool :=
  match s with [] => false | _ => true end.

Definition check_endereco
    (contrato : option Contrato.ContratoSocialData)
    (cartao : option Cartao.CartaoCNPJData) : list Inconsistency :=
  match contrato, cartao with
  | Some contrato, Some cartao =>
      match Contrato.sede contrato, Cartao.endereco_estabelecimento cartao with
      | Some sede, Some endereco =>
          let cidade_contrato := _normalize_text (Contrato.cidade sede) in
          let uf_contrato := _normalize_text (Contrato.uf sede) in
          let cidade_cartao := _normalize_text (Cartao.municipio endereco) in
          let uf_cartao := _normalize_text (Cartao.uf endereco) in
          if nonempty cidade_contrato && nonempty cidade_cartao
          then if bool_decide (cidade_contrato <> cidade_cartao)
                  || bool_decide (uf_contrato <> uf_cartao)
               then [ {| code := py "endereco_mismatch";
                         severity := WARN;
                         message := py "Endereço divergente entre Contrato Social ("
                                    ++ cidade_contrato ++ py "/" ++ uf_contrato
                                    ++ py ") e Cartão CNPJ ("
                                    ++ cidade_cartao ++ py "/" ++ uf_cartao ++ py ").";
                         field := Some (py "endereco");
                         documents := [py "CONTRATO_SOCIAL"; py "CARTAO_CNPJ"];
                         values := [cidade_contrato ++ py "/" ++ uf_contrato;
                                    cidade_cartao ++ py "/" ++ uf_cartao] |} ]
               else []
          else []
      | _, _ => []
      end
  | _, _ => []
  end.

(** The [contrato_socios] dict: normalized name -> normalized CPF *)
Definition contrato_socios_of (socios : list Contrato.Socio) : list (str * str) :=
  fold_left
    (fun contrato_socios socio =>
       if nonempty (Contrato.nome socio) && truthy (Contrato.cpf socio)
       then dict_set (_normalize_name (Some (Contrato.nome socio)))
                     (_normalize_cpf (Contrato.cpf socio)) contrato_socios
       else contrato_socios)
    socios [].

(** The [qsa_socios] dict *)
Definition qsa_socios_of (qsa : list Cartao.SocioQSA) : list (str * str) :=
  fold_left
    (fun qsa_socios socio =>
       if nonempty (Cartao.nome socio) && truthy (Cartao.cpf_cnpj socio)
       then dict_set (_normalize_name (Some (Cartao.nome socio)))
                     (_normalize_cpf (Cartao.cpf_cnpj socio)) qsa_socios
       else qsa_socios)
    qsa [].

(** [next((s.nome for s in contrato.socios
           if _normalize_name(s.nome) == nome_contrato), nome_contrato)] *)
Definition nome_original_of (socios : list Contrato.Socio) (nome_contrato : str) : str :=
  match List.find
          (fun s => bool_decide (_normalize_name (Some (Contrato.nome s)) = nome_contrato))
          socios with
  | Some s => Contrato.nome s
  | None => nome_contrato
  end.

Definition socio_cpf_mismatch (nome_original cpf_contrato cpf_qsa : str) : Inconsistency :=
  {| code := py "socio_cpf_mismatch";
     severity := BLOCKER;
     message := py "CPF divergente para o sócio '" ++ nome_original
                ++ py "' entre Contrato Social e Cartão CNPJ.";
     field := Some (py "socio_cpf");
     documents := [py "CONTRATO_SOCIAL"; py "CARTAO_CNPJ"];
     values := [cpf_contrato; cpf_qsa] |}.

Definition check_socios
    (contrato : option Contrato.ContratoSocialData)
    (cartao : option Cartao.CartaoCNPJData) : list Inconsistency :=
  match contrato, cartao with
  | Some contrato, Some cartao =>
      match Contrato.socios contrato, Cartao.qsa cartao with
      | _ :: _, _ :: _ =>
          let contrato_socios := contrato_socios_of (Contrato.socios contrato) in
          let qsa_socios := qsa_socios_of (Cartao.qsa cartao) in
          flat_map
            (fun '(nome_contrato, cpf_contrato) =>
               flat_map
                 (fun '(nome_qsa, cpf_qsa) =>
                    if decide (nome_contrato = nome_qsa)
                    then if decide (cpf_contrato <> cpf_qsa)
                         then let nome_original :=
                                nome_original_of (Contrato.socios contrato) nome_contrato in
                              [socio_cpf_mismatch nome_original cpf_contrato cpf_qsa]
                         else []
                    else [])
                 qsa_socios)
            contrato_socios
      | _, _ => []
      end
  | _, _ => []
  end.

Definition set_inconsistencies (state : CrossDocumentAnalyzerState)
    (l : list Inconsistency) : CrossDocumentAnalyzerState :=
  {| contrato_social := contrato_social state;
     cartao_cnpj := cartao_cnpj state;
     certidao_negativa := certidao_negativa state;
     reference_date := reference_date state;
     inconsistencies := Some l;
     decision := decision state;
     confidence := confidence state;
     summary := summary state;
     result := result state |}.

(** [today] is what [date.today()] returns. *)
Definition deterministic_checks_node (today : date)
    (state : CrossDocumentAnalyzerState) : PyResult CrossDocumentAnalyzerState :=
  let contrato := contrato_social state in
  let cartao := cartao_cnpj state in
  let certidao := certidao_negativa state in
  let reference_date := default today (reference_date state) in
  let inconsistencies := [] in
  let inconsistencies := inconsistencies ++ check_cnpj contrato cartao certidao in
  let inconsistencies := inconsistencies ++ check_razao_social contrato cartao certidao in
  let inconsistencies := inconsistencies ++ check_certificate_expired certidao reference_date in
  six_months_ago ← minus_relativedelta_months reference_date 6;
  let inconsistencies := inconsistencies ++ check_certidao_6_months certidao six_months_ago in
  let inconsistencies := inconsistencies ++ check_cartao_6_months cartao six_months_ago in
  let inconsistencies := inconsistencies ++ check_endereco contrato cartao in
  let inconsistencies := inconsistencies ++ check_socios contrato cartao in
  mret (set_inconsistencies state inconsistencies).

End ConsistencyEngine.

(** ** [make_decision_node] *)

(** Python floats are IEEE 754 binary64 numbers, the kernel's [float]. *)

(** [float(n)] for an [int] in the range of [len()] and of small counts *)
Definition float_of_int (n : Z) : float := PrimFloat.of_uint63 (Uint63.of_Z n).

(** [min(a, b)] and [max(a, b)] of two floats: the first argument stays
    unless the second is strictly smaller (greater). *)
Definition py_min (a b : float) : float := if PrimFloat.ltb b a then b else a.
Definition py_max (a b : float) : float := if PrimFloat.ltb a b then b else a.

Definition is_some {A} (o : option A) : bool :=
  match o with Some _ => true | None => false end.

Definition set_decision (state : CrossDocumentAnalyzerState)
    (d : AnalysisDecision) (c : float) : CrossDocumentAnalyzerState :=
  {| contrato_social := contrato_social state;
     cartao_cnpj := cartao_cnpj state;
     certidao_negativa := certidao_negativa state;
     reference_date := reference_date state;
     inconsistencies := inconsistencies state;
     decision := Some d;
     confidence := Some c;
     summary := summary state;
     result := result state |}.

Definition has_blocker (l : list Inconsistency) : bool :=
  existsb (fun inc => bool_decide (severity inc = BLOCKER)) l.

Definition docs_available_of (state : CrossDocumentAnalyzerState) : nat :=
  length (List.filter (fun b : bool => b)
            [is_some (contrato_social state);
             is_some (cartao_cnpj state);
             is_some (certidao_negativa state)]).

Definition make_decision_node (state : CrossDocumentAnalyzerState)
    : CrossDocumentAnalyzerState :=
  let inconsistencies := default [] (inconsistencies state) in
  let decision := if has_blocker inconsistencies then REPROVADO else APROVADO in
  let docs_available := docs_available_of state in
  let base_confidence := (float_of_int (Z.of_nat docs_available) / 3)%float in
  let penalty := (float_of_int (Z.of_nat (length inconsistencies)) * 0x1.999999999999ap-4)%float in
  let confidence := py_max 0 (py_min 1 (base_confidence - penalty)%float) in
  set_decision state decision confidence.

(** ** Application exceptions
    ([src/core/base/exceptions.py], [src/exceptions.py]) *)

(** [message or default_message] *)
Definition or_default (message : option str) (default_message : str) : str :=
  match message with
  | Some (c :: m) => c :: m
  | _ => default_message
  end.

(** [if value: details[key] = value] *)
Definition set_if (key : str) (value : option str) (details : gmap str json)
    : gmap str json :=
  match value with
  | Some (c :: v) => <[key := JStr (c :: v)]> details
  | _ => details
  end.

(** [if original_error: details["original_error"] = str(original_error);
     details["original_error_type"] = type(original_error).__name__] *)
Definition set_original_error (original_error : option PyExc)
    (details : gmap str json) : gmap str json :=
  match original_error with
  | Some e =>
      <[py "original_error_type" := JStr (exc_cls e)]>
        (<[py "original_error" := JStr (exc_str e)]> details)
  | None => details
  end.

Definition AnalysisJobNotFoundError (job_id : option str) (message : option str)
    (details : option (gmap str json)) : PyExc :=
  let details := default ∅ details in
  let details := set_if (py "resource_type") (Some (py "AnalysisJob")) details in
  let details := set_if (py "resource_id") job_id details in
  ApplicationError (py "AnalysisJobNotFoundError") (py "analysis_job_not_found")
    (or_default message (py "Analysis job not found")) details.

Definition LLMServiceError (message : option str) (original_error : option PyExc)
    (details : option (gmap str json)) : PyExc :=
  let details := default ∅ details in
  let details := set_if (py "service_name") (Some (py "LLM")) details in
  let details := set_original_error original_error details in
  ApplicationError (py "LLMServiceError") (py "llm_service_error")
    (or_default message (py "LLM service error")) details.

Definition LLMExtractionError (message : option str)
    (extractor_name document_type : option str)
    (details : option (gmap str json)) : PyExc :=
  let details := default ∅ details in
  let details := set_if (py "extractor_name") extractor_name details in
  let details := set_if (py "document_type") document_type details in
  ApplicationError (py "LLMExtractionError") (py "llm_extraction_error")
    (or_default message (py "LLM extraction failed to produce a result")) details.

Definition PDFExtractionError (message : option str) (file_path : option str)
    (original_error : option PyExc) (details : option (gmap str json)) : PyExc :=
  let details := default ∅ details in
  let details := set_if (py "file_path") file_path details in
  let details := set_original_error original_error details in
  ApplicationError (py "PDFExtractionError") (py "pdf_extraction_error")
    (or_default message (py "PDF text extraction failed")) details.

(** ** Persistent models ([src/models.py]) *)

Definition uuid := str.
Definition timestamp := N.

(** The three kinds of [extracted_data] a document can hold *)
Inductive ExtractedData :=
| ContratoSocialJSON (d : Contrato.ContratoSocialData)
| CartaoCNPJJSON (d : Cartao.CartaoCNPJData)
| CertidaoNegativaJSON (d : Certidao.CertidaoNegativaFederalData).

Module Doc.
Record Document := {
  id : uuid;
  job_id : uuid;
  document_type : DocumentType;
  filename : str;
  content_type : str;
  object_key : str;
  extracted_text : option str;
  extracted_data : option ExtractedData;
  updated_at : timestamp;
}.
End Doc.

Module Job.
Record AnalysisJob := {
  id : uuid;
  company_name : option str;
  status : AnalysisStatus;
  decision : option AnalysisDecision;
  error_message : option str;
  error_details : option (gmap str json);
  finished_at : option timestamp;
  updated_at : timestamp;
  documents : list Doc.Document;
}.
End Job.

Module Inc.
Record Pointers := {
  field : option str;
  documents : list str;
  values : list str;
}.
Record AnalysisInconsistency := {
  job_id : uuid;
  document_id : option uuid;
  code : str;
  severity : InconsistencySeverity;
  message : str;
  pointers : Pointers;
}.
End Inc.

(** The committed rows *)
Record Database := {
  jobs : gmap uuid Job.AnalysisJob;
  inconsistency_rows : list Inc.AnalysisInconsistency;
}.

(** ** External collaborators *)

(** What a call into a library outside the repository (PyMuPDF, the LLM
    graph runtime, the database driver) does: it returns, or raises an
    exception of a class of its own, given by its class name and message. *)
Inductive Foreign (A : Type) :=
| Returns (a : A)
| Fails (cls message : str).
Arguments Returns {A} a.
Arguments Fails {A} cls message.

(** An extraction result: [data] and [confidence] (the evidence and notes
    are not read by the core). *)
Record ExtractionResult (D : Type) := {
  data : D;
  extraction_confidence : float;
}.
Arguments data {D} _.
Arguments extraction_confidence {D} _.

Record Env := {
  (** what [now()] returns at its n-th call *)
  clock : N -> timestamp;
  (** [date.today()] *)
  today : date;
  (** all pages' text of the PDF at a path, read with PyMuPDF *)
  pymupdf_text : str -> Foreign str;
  (** where reading the PDF at a path raises: whether the exception is an
      instance of the builtin [FileNotFoundError], the class the [except]
      clause names (an exception of another class with the same name,
      such as PyMuPDF's own, is not) *)
  pymupdf_file_not_found : str -> bool;
  (** [final_state.get("result")] of each extractor graph run on a text *)
  contrato_graph : str -> Foreign (option (ExtractionResult Contrato.ContratoSocialData));
  cartao_graph : str -> Foreign (option (ExtractionResult Cartao.CartaoCNPJData));
  certidao_graph : str -> Foreign (option (ExtractionResult Certidao.CertidaoNegativaFederalData));
  (** [response.content] of the summary LLM call on a state *)
  llm_content : CrossDocumentAnalyzerState -> Foreign (option str);
  (** the absolute path of an object key in the local storage, or the
      exception [get_storage()] raises for another backend *)
  local_path : str -> Foreign str;
  (** [session.commit()] writing a job: the exception the database raises,
      if it does *)
  commit_error : Job.AnalysisJob -> option (str * str);
}.

Definition of_foreign {A} (r : Foreign A) : PyResult A :=
  match r with
  | Returns a => Return a
  | Fails cls message => Raise (OtherError cls message)
  end.

(** An argument of [analyze_documents]: bare data or an extraction result
    (told apart by the [data] and [confidence] attributes). *)
Inductive DataOrResult (D : Type) :=
| BareData (d : D)
| Extracted (r : ExtractionResult D).
Arguments BareData {D} d.
Arguments Extracted {D} r.

Section Agents.
Context {R : PyStrRuntime} (env : Env).

Fixpoint lstrip (s : str) : str :=
  match s with
  | c :: s' => if isspace c then lstrip s' else s
  | [] => []
  end.

(** [s.strip()] *)
Definition strip (s : str) : str := rev (lstrip (rev (lstrip s))).

(** *** [src/services/pdf.py] *)

Definition MIN_TEXT_LENGTH_THRESHOLD : nat := 50.

Definition _extract_text_with_ocr_fallback (pdf_path : str) : str := [].

Definition extract_text_from_pdf (pdf_path : str) (use_ocr_fallback : bool)
    : PyResult str :=
  match pymupdf_text env pdf_path with
  | Returns extracted_text =>
      if (length (strip extracted_text) <? MIN_TEXT_LENGTH_THRESHOLD)%nat
         && use_ocr_fallback
         && nonempty (strip (_extract_text_with_ocr_fallback pdf_path))
      then Return (_extract_text_with_ocr_fallback pdf_path)
      else Return extracted_text
  | Fails cls message =>
      if pymupdf_file_not_found env pdf_path
      then Raise (PDFExtractionError (Some (py "PDF file not found: " ++ pdf_path))
                    (Some pdf_path) (Some (OtherError cls message)) None)
      else Raise (PDFExtractionError
                    (Some (py "Failed to extract text from PDF: " ++ pdf_path))
                    (Some pdf_path) (Some (OtherError cls message)) None)
  end.

(** *** The extraction agents *)

(** The shape shared by [extract_contrato_social], [extract_cartao_cnpj]
    and [extract_certidao_negativa_federal]. *)
Definition run_extractor {D} (graph : Foreign (option (ExtractionResult D)))
    (service_message extraction_message extractor_name document_type : str)
    : PyResult (ExtractionResult D) :=
  match graph with
  | Fails cls message =>
      Raise (LLMServiceError (Some service_message) (Some (OtherError cls message)) None)
  | Returns None =>
      Raise (LLMExtractionError (Some extraction_message)
               (Some extractor_name) (Some document_type) None)
  | Returns (Some result) => Return result
  end.

Definition extract_contrato_social (extracted_text : str) :=
  run_extractor (contrato_graph env extracted_text)
    (py "Failed to invoke LLM for Contrato Social extraction")
    (py "Contrato Social extraction did not produce a result")
    (py "ContratoSocialExtractor") (py "CONTRATO_SOCIAL").

Definition extract_cartao_cnpj (extracted_text : str) :=
  run_extractor (cartao_graph env extracted_text)
    (py "Failed to invoke LLM for Cartão CNPJ extraction")
    (py "Cartão CNPJ extraction did not produce a result")
    (py "CartaoCNPJExtractor") (py "CARTAO_CNPJ").

Definition extract_certidao_negativa_federal (extracted_text : str) :=
  run_extractor (certidao_graph env extracted_text)
    (py "Failed to invoke LLM for Certidão Negativa Federal extraction")
    (py "Certidão Negativa Federal extraction did not produce a result")
    (py "CertidaoNegativaFederalExtractor") (py "CERTIDAO_NEGATIVA").

(** *** The remaining nodes of the cross-document graph *)

Definition set_summary (state : CrossDocumentAnalyzerState) (s : str)
    : CrossDocumentAnalyzerState :=
  {| contrato_social := contrato_social state;
     cartao_cnpj := cartao_cnpj state;
     certidao_negativa := certidao_negativa state;
     reference_date := reference_date state;
     inconsistencies := inconsistencies state;
     decision := decision state;
     confidence := confidence state;
     summary := Some s;
     result := result state |}.

Definition set_result (state : CrossDocumentAnalyzerState)
    (r : CrossDocumentAnalysisResult) : CrossDocumentAnalyzerState :=
  {| contrato_social := contrato_social state;
     cartao_cnpj := cartao_cnpj state;
     certidao_negativa := certidao_negativa state;
     reference_date := reference_date state;
     inconsistencies := inconsistencies state;
     decision := decision state;
     confidence := confidence state;
     summary := summary state;
     result := Some r |}.

Definition generate_summary_node (state : CrossDocumentAnalyzerState)
    : PyResult CrossDocumentAnalyzerState :=
  content ← of_foreign (llm_content env state);
  let summary := if truthy content then strip (default [] content) else [] in
  mret (set_summary state summary).

(** Building the result validates [confidence] against [ge=0.0, le=1.0]. *)
Definition build_result_node (state : CrossDocumentAnalyzerState)
    : PyResult CrossDocumentAnalyzerState :=
  let confidence :=
    match confidence state with
    | Some c => if PrimFloat.eqb c 0 then 0%float else c
    | None => 0%float
    end in
  if PrimFloat.leb 0 confidence && PrimFloat.leb confidence 1
  then mret (set_result state
               {| res_decision := default REPROVADO (decision state);
                  res_inconsistencies := default [] (inconsistencies state);
                  res_summary := default [] (summary state);
                  res_confidence := confidence |})
  else Raise (OtherError (py "ValidationError")
                (py "1 validation error for CrossDocumentAnalysisResult")).

Definition unwrap {D} (x : option (DataOrResult D)) : option D :=
  match x with
  | Some (BareData d) => Some d
  | Some (Extracted r) => Some (data r)
  | None => None
  end.

Definition analyze_documents
    (contrato_social : option (DataOrResult Contrato.ContratoSocialData))
    (cartao_cnpj : option (DataOrResult Cartao.CartaoCNPJData))
    (certidao_negativa : option (DataOrResult Certidao.CertidaoNegativaFederalData))
    (reference_date : option date) : PyResult CrossDocumentAnalysisResult :=
  let initial_state :=
    {| contrato_social := unwrap contrato_social;
       cartao_cnpj := unwrap cartao_cnpj;
       certidao_negativa := unwrap certidao_negativa;
       reference_date := Some (default (today env) reference_date);
       inconsistencies := None;
       decision := None;
       confidence := None;
       summary := None;
       result := None |} in
  let final_state :=
    state ← deterministic_checks_node (today env) initial_state;
    state ← generate_summary_node (make_decision_node state);
    build_result_node state in
  match final_state with
  | Raise e =>
      Raise (LLMServiceError (Some (py "Failed to invoke LLM for cross-document analysis"))
               (Some e) None)
  | Return final_state =>
      match result final_state with
      | None =>
          Raise (LLMExtractionError
                   (Some (py "Cross-document analysis did not produce a result"))
                   (Some (py "CrossDocumentAnalyzer")) None None)
      | Some result => Return result
      end
  end.

End Agents.

(** ** [AnalyzeDocuments] ([src/usecases/analysis.py]) *)

(** What a run works on: the database, the job object loaded into the
    session (the documents are its [documents]), the rows added to the
    session and not yet committed, and the number of [now()] calls so far.
    [observed] is not program state: it records the job object at each
    [session.commit()], the moments at which the rest of the system can
    observe it. *)
Record Session := {
  database : Database;
  analysis_job : Job.AnalysisJob;
  added : list Inc.AnalysisInconsistency;
  now_calls : N;
  observed : list Job.AnalysisJob;
}.

Definition M (A : Type) : Type := Session -> Session * PyResult A.

#[export] Instance M_ret : MRet M := fun A a s => (s, Return a).

#[export] Instance M_bind : MBind M :=
  fun A B k m s =>
    match m s with
    | (s', Return a) => k a s'
    | (s', Raise e) => (s', Raise e)
    end.

Definition lift {A} (r : PyResult A) : M A := fun s => (s, r).

(** [try: body except Exception as e: handler(e)] *)
Definition try_except {A} (body : M A) (handler : PyExc -> M A) : M A :=
  fun s =>
    match body s with
    | (s', Return a) => (s', Return a)
    | (s', Raise e) => handler e s'
    end.

Definition get_job : M Job.AnalysisJob := fun s => (s, Return (analysis_job s)).

Definition update_job (f : Job.AnalysisJob -> Job.AnalysisJob) : M unit :=
  fun s =>
    ({| database := database s;
        analysis_job := f (analysis_job s);
        added := added s;
        now_calls := now_calls s;
        observed := observed s |}, Return tt).

Definition session_add (row : Inc.AnalysisInconsistency) : M unit :=
  fun s =>
    ({| database := database s;
        analysis_job := analysis_job s;
        added := added s ++ [row];
        now_calls := now_calls s;
        observed := observed s |}, Return tt).

(** Field assignments on the job and on one of its documents *)
Definition set_status (v : AnalysisStatus) (j : Job.AnalysisJob) : Job.AnalysisJob :=
  {| Job.id := Job.id j; Job.company_name := Job.company_name j;
     Job.status := v; Job.decision := Job.decision j;
     Job.error_message := Job.error_message j;
     Job.error_details := Job.error_details j;
     Job.finished_at := Job.finished_at j; Job.updated_at := Job.updated_at j;
     Job.documents := Job.documents j |}.

Definition set_job_decision (v : option AnalysisDecision) (j : Job.AnalysisJob)
    : Job.AnalysisJob :=
  {| Job.id := Job.id j; Job.company_name := Job.company_name j;
     Job.status := Job.status j; Job.decision := v;
     Job.error_message := Job.error_message j;
     Job.error_details := Job.error_details j;
     Job.finished_at := Job.finished_at j; Job.updated_at := Job.updated_at j;
     Job.documents := Job.documents j |}.

Definition set_error_message (v : option str) (j : Job.AnalysisJob) : Job.AnalysisJob :=
  {| Job.id := Job.id j; Job.company_name := Job.company_name j;
     Job.status := Job.status j; Job.decision := Job.decision j;
     Job.error_message := v;
     Job.error_details := Job.error_details j;
     Job.finished_at := Job.finished_at j; Job.updated_at := Job.updated_at j;
     Job.documents := Job.documents j |}.

Definition set_error_details (v : option (gmap str json)) (j : Job.AnalysisJob)
    : Job.AnalysisJob :=
  {| Job.id := Job.id j; Job.company_name := Job.company_name j;
     Job.status := Job.status j; Job.decision := Job.decision j;
     Job.error_message := Job.error_message j;
     Job.error_details := v;
     Job.finished_at := Job.finished_at j; Job.updated_at := Job.updated_at j;
     Job.documents := Job.documents j |}.

Definition set_finished_at (v : option timestamp) (j : Job.AnalysisJob) : Job.AnalysisJob :=
  {| Job.id := Job.id j; Job.company_name := Job.company_name j;
     Job.status := Job.status j; Job.decision := Job.decision j;
     Job.error_message := Job.error_message j;
     Job.error_details := Job.error_details j;
     Job.finished_at := v; Job.updated_at := Job.updated_at j;
     Job.documents := Job.documents j |}.

Definition set_updated_at (v : timestamp) (j : Job.AnalysisJob) : Job.AnalysisJob :=
  {| Job.id := Job.id j; Job.company_name := Job.company_name j;
     Job.status := Job.status j; Job.decision := Job.decision j;
     Job.error_message := Job.error_message j;
     Job.error_details := Job.error_details j;
     Job.finished_at := Job.finished_at j; Job.updated_at := v;
     Job.documents := Job.documents j |}.

Definition set_documents (v : list Doc.Document) (j : Job.AnalysisJob) : Job.AnalysisJob :=
  {| Job.id := Job.id j; Job.company_name := Job.company_name j;
     Job.status := Job.status j; Job.decision := Job.decision j;
     Job.error_message := Job.error_message j;
     Job.error_details := Job.error_details j;
     Job.finished_at := Job.finished_at j; Job.updated_at := Job.updated_at j;
     Job.documents := v |}.

Definition set_extracted_text (v : option str) (d : Doc.Document) : Doc.Document :=
  {| Doc.id := Doc.id d; Doc.job_id := Doc.job_id d;
     Doc.document_type := Doc.document_type d; Doc.filename := Doc.filename d;
     Doc.content_type := Doc.content_type d; Doc.object_key := Doc.object_key d;
     Doc.extracted_text := v; Doc.extracted_data := Doc.extracted_data d;
     Doc.updated_at := Doc.updated_at d |}.

Definition set_extracted_data (v : option ExtractedData) (d : Doc.Document) : Doc.Document :=
  {| Doc.id := Doc.id d; Doc.job_id := Doc.job_id d;
     Doc.document_type := Doc.document_type d; Doc.filename := Doc.filename d;
     Doc.content_type := Doc.content_type d; Doc.object_key := Doc.object_key d;
     Doc.extracted_text := Doc.extracted_text d; Doc.extracted_data := v;
     Doc.updated_at := Doc.updated_at d |}.

Definition set_doc_updated_at (v : timestamp) (d : Doc.Document) : Doc.Document :=
  {| Doc.id := Doc.id d; Doc.job_id := Doc.job_id d;
     Doc.document_type := Doc.document_type d; Doc.filename := Doc.filename d;
     Doc.content_type := Doc.content_type d; Doc.object_key := Doc.object_key d;
     Doc.extracted_text := Doc.extracted_text d;
     Doc.extracted_data := Doc.extracted_data d;
     Doc.updated_at := v |}.

(** Assignment to the [i]-th document of the job *)
Definition update_document (i : nat) (f : Doc.Document -> Doc.Document) : M unit :=
  update_job (fun j => set_documents (alter f i (Job.documents j)) j).

(** The [extraction_results] dict: one entry per document type, each
    with the extraction result and the document it came from. *)
Record ExtractionResults := {
  contrato_entry :
    option (ExtractionResult Contrato.ContratoSocialData * Doc.Document);
  cartao_entry :
    option (ExtractionResult Cartao.CartaoCNPJData * Doc.Document);
  certidao_entry :
    option (ExtractionResult Certidao.CertidaoNegativaFederalData * Doc.Document);
}.

Inductive AnyExtraction :=
| ContratoExtraction (r : ExtractionResult Contrato.ContratoSocialData)
| CartaoExtraction (r : ExtractionResult Cartao.CartaoCNPJData)
| CertidaoExtraction (r : ExtractionResult Certidao.CertidaoNegativaFederalData).

(** [extraction_results[document.document_type] =
      {"result": extraction_result, "document": document}] *)
Definition store_result (r : AnyExtraction) (document : Doc.Document)
    (e : ExtractionResults) : ExtractionResults :=
  match r with
  | ContratoExtraction r =>
      {| contrato_entry := Some (r, document);
         cartao_entry := cartao_entry e; certidao_entry := certidao_entry e |}
  | CartaoExtraction r =>
      {| contrato_entry := contrato_entry e;
         cartao_entry := Some (r, document); certidao_entry := certidao_entry e |}
  | CertidaoExtraction r =>
      {| contrato_entry := contrato_entry e; cartao_entry := cartao_entry e;
         certidao_entry := Some (r, document) |}
  end.

Section AnalyzeDocuments.
Context {R : PyStrRuntime} (env : Env).

Definition now : M timestamp :=
  fun s =>
    ({| database := database s;
        analysis_job := analysis_job s;
        added := added s;
        now_calls := N.succ (now_calls s);
        observed := observed s |}, Return (clock env (now_calls s))).

(** [await self.session.commit()]: the job object and the added rows are
    written, unless the database raises. *)
Definition commit : M unit :=
  fun s =>
    let seen := observed s ++ [analysis_job s] in
    match commit_error env (analysis_job s) with
    | Some (cls, message) =>
        ({| database := database s;
            analysis_job := analysis_job s;
            added := added s;
            now_calls := now_calls s;
            observed := seen |}, Raise (OtherError cls message))
    | None =>
        ({| database :=
              {| jobs := <[Job.id (analysis_job s) := analysis_job s]>
                           (jobs (database s));
                 inconsistency_rows := inconsistency_rows (database s) ++ added s |};
            analysis_job := analysis_job s;
            added := [];
            now_calls := now_calls s;
            observed := seen |}, Return tt)
    end.

Definition _load_analysis_job (db : Database) (job_id : uuid)
    : PyResult Job.AnalysisJob :=
  match jobs db !! job_id with
  | Some analysis_job => Return analysis_job
  | None => Raise (AnalysisJobNotFoundError (Some job_id) None None)
  end.

Definition _mark_job_running : M unit :=
  update_job (set_status RUNNING);;
  t ← now;
  update_job (set_updated_at t);;
  commit.

Definition _get_file_path (document : Doc.Document) : PyResult str :=
  of_foreign (local_path env (Doc.object_key document)).

(** [i] is the position of [document] in the job's documents. *)
Definition _extract_document_data (i : nat) (document : Doc.Document)
    (extracted_text : str) : M AnyExtraction :=
  match Doc.document_type document with
  | CONTRATO_SOCIAL =>
      r ← lift (extract_contrato_social env extracted_text);
      update_document i (set_extracted_data (Some (ContratoSocialJSON (data r))));;
      mret (ContratoExtraction r)
  | CARTAO_CNPJ =>
      r ← lift (extract_cartao_cnpj env extracted_text);
      update_document i (set_extracted_data (Some (CartaoCNPJJSON (data r))));;
      mret (CartaoExtraction r)
  | CERTIDAO_NEGATIVA =>
      r ← lift (extract_certidao_negativa_federal env extracted_text);
      update_document i (set_extracted_data (Some (CertidaoNegativaJSON (data r))));;
      mret (CertidaoExtraction r)
  end.

Definition _process_document (i : nat) (document : Doc.Document) : M AnyExtraction :=
  file_path ← lift (_get_file_path document);
  extracted_text ← lift (extract_text_from_pdf env file_path true);
  update_document i (set_extracted_text (Some extracted_text));;
  extraction_result ← _extract_document_data i document extracted_text;
  t ← now;
  update_document i (set_doc_updated_at t);;
  mret extraction_result.

(** The loop [for document in analysis_job.documents], from position [i] *)
Fixpoint process_documents_from (i : nat) (documents : list Doc.Document)
    (extraction_results : ExtractionResults) : M ExtractionResults :=
  match documents with
  | [] => mret extraction_results
  | document :: rest =>
      extraction_result ← _process_document i document;
      process_documents_from (S i) rest
        (store_result extraction_result document extraction_results)
  end.

Definition _process_all_documents : M ExtractionResults :=
  analysis_job ← get_job;
  process_documents_from 0 (Job.documents analysis_job)
    {| contrato_entry := None; cartao_entry := None; certidao_entry := None |}.

Definition _run_cross_document_analysis (extraction_results : ExtractionResults)
    : M CrossDocumentAnalysisResult :=
  let contrato_result := contrato_entry extraction_results in
  let cartao_result := cartao_entry extraction_results in
  let certidao_result := certidao_entry extraction_results in
  lift (analyze_documents env
          (option_map (fun e => Extracted (fst e)) contrato_result)
          (option_map (fun e => Extracted (fst e)) cartao_result)
          (option_map (fun e => Extracted (fst e)) certidao_result)
          None).

(** The document whose type's value is [doc_type_str], if it was extracted *)
Definition document_id_of (extraction_results : ExtractionResults)
    (doc_type_str : str) : option uuid :=
  if decide (DocumentType_value CONTRATO_SOCIAL = doc_type_str)
  then option_map (fun e => Doc.id (snd e)) (contrato_entry extraction_results)
  else if decide (DocumentType_value CARTAO_CNPJ = doc_type_str)
  then option_map (fun e => Doc.id (snd e)) (cartao_entry extraction_results)
  else if decide (DocumentType_value CERTIDAO_NEGATIVA = doc_type_str)
  then option_map (fun e => Doc.id (snd e)) (certidao_entry extraction_results)
  else None.

Fixpoint persist_each (job_id : uuid) (l : list Inconsistency)
    (extraction_results : ExtractionResults) : M unit :=
  match l with
  | [] => mret tt
  | inc :: rest =>
      let document_id :=
        match documents inc with
        | doc_type_str :: _ => document_id_of extraction_results doc_type_str
        | [] => None
        end in
      session_add {| Inc.job_id := job_id;
                     Inc.document_id := document_id;
                     Inc.code := code inc;
                     Inc.severity := severity inc;
                     Inc.message := message inc;
                     Inc.pointers := {| Inc.field := field inc;
                                        Inc.documents := documents inc;
                                        Inc.values := values inc |} |};;
      persist_each job_id rest extraction_results
  end.

Definition _persist_inconsistencies (analysis_result : CrossDocumentAnalysisResult)
    (extraction_results : ExtractionResults) : M unit :=
  analysis_job ← get_job;
  persist_each (Job.id analysis_job) (res_inconsistencies analysis_result)
    extraction_results.

Definition _mark_job_succeeded (analysis_result : CrossDocumentAnalysisResult)
    : M (gmap str json) :=
  update_job (set_job_decision (Some (res_decision analysis_result)));;
  update_job (set_status SUCCEEDED);;
  t ← now;
  update_job (set_finished_at (Some t));;
  t ← now;
  update_job (set_updated_at t);;
  commit;;
  analysis_job ← get_job;
  mret (<[py "job_id" := JStr (Job.id analysis_job)]>
        (<[py "status" := JStr (AnalysisStatus_value (Job.status analysis_job))]>
         (<[py "decision" :=
              match Job.decision analysis_job with
              | Some d => JStr (AnalysisDecision_value d)
              | None => JNull
              end]> ∅))).

Definition _mark_job_failed (error : PyExc) : M (gmap str json) :=
  let error_code :=
    match error with
    | ApplicationError _ code _ _ => code
    | OtherError cls _ => cls
    end in
  let error_details :=
    match error with
    | ApplicationError _ _ _ details => details
    | OtherError _ _ => ∅
    end in
  update_job (set_status FAILED);;
  update_job (set_error_message (Some (exc_str error)));;
  update_job (set_error_details
                (Some (error_details ∪
                       <[py "error_type" := JStr (exc_cls error)]>
                         (<[py "error_code" := JStr error_code]> ∅))));;
  t ← now;
  update_job (set_finished_at (Some t));;
  t ← now;
  update_job (set_updated_at t);;
  commit;;
  analysis_job ← get_job;
  mret (<[py "job_id" := JStr (Job.id analysis_job)]>
        (<[py "status" := JStr (AnalysisStatus_value (Job.status analysis_job))]>
         (<[py "error" := JStr (exc_str error)]> ∅))).

(** The body of the [try] of [handle] *)
Definition handle_try : M (gmap str json) :=
  _mark_job_running;;
  extraction_results ← _process_all_documents;
  analysis_result ← _run_cross_document_analysis extraction_results;
  _persist_inconsistencies analysis_result extraction_results;;
  _mark_job_succeeded analysis_result.

(** [AnalyzeDocuments(job_id=job_id).handle()] on a database: the database
    afterwards, the job object as it was at the load and at each commit, and
    what the call returns or raises. *)
Definition handle (db : Database) (job_id : uuid)
    : Database * list Job.AnalysisJob * PyResult (gmap str json) :=
  match _load_analysis_job db job_id with
  | Raise e => (db, [], Raise e)
  | Return analysis_job =>
      let '(s, r) :=
        try_except handle_try _mark_job_failed
          {| database := db;
             analysis_job := analysis_job;
             added := [];
             now_calls := 0;
             observed := [analysis_job] |} in
      (database s, observed s, r)
  end.

End AnalyzeDocuments.

(** ** Job creation ([src/schemas.py], [src/api/v1/routes.py],
       [CreateDocumentAnalysisJob]) *)

Module Schemas.
Record UploadFile := {
  filename : option str;
  content_type : option str;
  content : list N;
}.

Record AnalysisCreateInput := {
  company_name : str;
  contrato_social : option UploadFile;
  cartao_cnpj : option UploadFile;
  certidao_negativa : option UploadFile;
}.
End Schemas.




(** The service as the routes see it: the committed rows and the queue of
    scheduled [analyze_documents_job] tasks (their [job_id]s). *)
Record Service := {
  service_db : Database;
  task_queue : list uuid;
}.

Record CreateEnv := {
  (** the [uuid4()] of the new job and of the document of each type *)
  new_job_id : uuid;
  new_document_id : DocumentType -> uuid;
  created_at : timestamp;
  (** [storage.save(content, object_key)]: the exception it raises, if any *)
  storage_save : list N -> str -> option (str * str);
}.

Section CreateDocumentAnalysisJob.
Context (cenv : CreateEnv).

Definition _create_analysis_job (data : Schemas.AnalysisCreateInput) : Job.AnalysisJob :=
  {| Job.id := new_job_id cenv;
     Job.company_name := Some (Schemas.company_name data);
     Job.status := PENDING;
     Job.decision := None;
     Job.error_message := None;
     Job.error_details := None;
     Job.finished_at := None;
     Job.updated_at := created_at cenv;
     Job.documents := [] |}.

Definition _get_document_mapping (data : Schemas.AnalysisCreateInput)
    : list (DocumentType * option Schemas.UploadFile) :=
  [ (CONTRATO_SOCIAL, Schemas.contrato_social data);
    (CARTAO_CNPJ, Schemas.cartao_cnpj data);
    (CERTIDAO_NEGATIVA, Schemas.certidao_negativa data) ].

Definition _store_and_create_document (analysis_job : Job.AnalysisJob)
    (document_type : DocumentType) (upload_file : Schemas.UploadFile)
    : PyResult Doc.Document :=
  let object_key :=
    Job.id analysis_job ++ py "/" ++ DocumentType_value document_type ++ py "/"
    ++ default (py "None") (Schemas.filename upload_file) in
  match storage_save cenv (Schemas.content upload_file) object_key with
  | Some (cls, message) => Raise (OtherError cls message)
  | None =>
      Return {| Doc.id := new_document_id cenv document_type;
                Doc.job_id := Job.id analysis_job;
                Doc.document_type := document_type;
                Doc.filename := or_default (Schemas.filename upload_file)
                                           (py "unknown.pdf");
                Doc.content_type := or_default (Schemas.content_type upload_file)
                                               (py "application/pdf");
                Doc.object_key := object_key;
                Doc.extracted_text := None;
                Doc.extracted_data := None;
                Doc.updated_at := created_at cenv |}
  end.

Fixpoint _process_documents (analysis_job : Job.AnalysisJob)
    (mapping : list (DocumentType * option Schemas.UploadFile))
    : PyResult (list Doc.Document) :=
  match mapping with
  | [] => Return []
  | (document_type, None) :: rest => _process_documents analysis_job rest
  | (document_type, Some upload_file) :: rest =>
      document ← _store_and_create_document analysis_job document_type upload_file;
      documents ← _process_documents analysis_job rest;
      mret (document :: documents)
  end.

(** [CreateDocumentAnalysisJob(data=data).handle()]: the job and its
    documents are committed together, then the task is enqueued; an
    exception before the commit leaves the rows as they were. *)
Definition create_handle (svc : Service) (data : Schemas.AnalysisCreateInput)
    : Service * PyResult (uuid * AnalysisStatus) :=
  let analysis_job := _create_analysis_job data in
  match _process_documents analysis_job (_get_document_mapping data) with
  | Raise e => (svc, Raise e)
  | Return documents =>
      let analysis_job := set_documents documents analysis_job in
      ({| service_db :=
            {| jobs := <[Job.id analysis_job := analysis_job]> (jobs (service_db svc));
               inconsistency_rows := inconsistency_rows (service_db svc) |};
          task_queue := task_queue svc ++ [Job.id analysis_job] |},
       Return (Job.id analysis_job, Job.status analysis_job))
  end.



End CreateDocumentAnalysisJob.

(** ** Reading a job back ([GetDocumentAnalysisJob], [src/usecases/analysis.py]) *)

(** The dictionaries [GetDocumentAnalysisJob.handle] returns, with the
    keys of the columns modelled. *)
Module DocOut.
Record Document := {
  id : uuid;
  document_type : DocumentType;
  filename : str;
  content_type : str;
  object_key : str;
  extracted_text : option str;
  extracted_data : option ExtractedData;
  updated_at : timestamp;
}.
End DocOut.

Module IncOut.
Record Inconsistency := {
  code : str;
  severity : InconsistencySeverity;
  message : str;
  pointers : Inc.Pointers;
  document_id : option uuid;
}.
End IncOut.

Module JobOut.
Record AnalysisJob := {
  id : uuid;
  company_name : option str;
  status : AnalysisStatus;
  decision : option AnalysisDecision;
  error_message : option str;
  error_details : option (gmap str json);
  finished_at : option timestamp;
  updated_at : timestamp;
  documents : list DocOut.Document;
  inconsistencies : list IncOut.Inconsistency;
}.
End JobOut.

Definition document_out (doc : Doc.Document) : DocOut.Document :=
  {| DocOut.id := Doc.id doc;
     DocOut.document_type := Doc.document_type doc;
     DocOut.filename := Doc.filename doc;
     DocOut.content_type := Doc.content_type doc;
     DocOut.object_key := Doc.object_key doc;
     DocOut.extracted_text := Doc.extracted_text doc;
     DocOut.extracted_data := Doc.extracted_data doc;
     DocOut.updated_at := Doc.updated_at doc |}.

Definition inconsistency_out (inc : Inc.AnalysisInconsistency) : IncOut.Inconsistency :=
  {| IncOut.code := Inc.code inc;
     IncOut.severity := Inc.severity inc;
     IncOut.message := Inc.message inc;
     IncOut.pointers := Inc.pointers inc;
     IncOut.document_id := Inc.document_id inc |}.

(** [analysis_job.inconsistencies]: the rows whose [job_id] is the job's,
    in the order of the rows *)
Definition inconsistencies_of (db : Database) (analysis_job : Job.AnalysisJob)
    : list Inc.AnalysisInconsistency :=
  filter (fun inc => Inc.job_id inc = Job.id analysis_job) (inconsistency_rows db).

(** [GetDocumentAnalysisJob(job_id=job_id).handle()] *)
Definition get_handle (db : Database) (job_id : uuid) : PyResult JobOut.AnalysisJob :=
  match jobs db !! job_id with
  | None => Raise (AnalysisJobNotFoundError (Some job_id) None None)
  | Some analysis_job =>
      Return
        {| JobOut.id := Job.id analysis_job;
           JobOut.company_name := Job.company_name analysis_job;
           JobOut.status := Job.status analysis_job;
           JobOut.decision := Job.decision analysis_job;
           JobOut.error_message := Job.error_message analysis_job;
           JobOut.error_details := Job.error_details analysis_job;
           JobOut.finished_at := Job.finished_at analysis_job;
           JobOut.updated_at := Job.updated_at analysis_job;
           JobOut.documents := map document_out (Job.documents analysis_job);
           JobOut.inconsistencies :=
             map inconsistency_out (inconsistencies_of db analysis_job) |}
  end.

(** ** Text limits ([src/core/base/agents.py]) *)

(** [xs[:n]]: the first [n] items, or all but the last [-n] when [n] is
    negative *)
Definition slice_to {A} (n : Z) (xs : list A) : list A :=
  if n <? 0
  then take (length xs - Z.to_nat (- n)) xs
  else take (Z.to_nat n) xs.

Section TextLimits.
Context {R : PyStrRuntime}.

Definition truncate_text (text : option str) (max_chars : Z) : str :=
  let text := strip (default [] text) in
  if Z.of_nat (length text) <=? max_chars
  then text
  else slice_to max_chars text.

End TextLimits.

(** * Properties *)

(** ** Sanity checks of the string model *)

Example py_literal : py "João ç" = [74; 111; 227; 111; 32; 231]%N.
Proof. reflexivity. Qed.

Example replacements_literal :
  replacements =
  map (fun '(a, b) => (hd 0%N (py a), hd 0%N (py b)))
      [("á", "a"); ("à", "a"); ("ã", "a"); ("â", "a"); ("é", "e"); ("ê", "e");
       ("í", "i"); ("ó", "o"); ("ô", "o"); ("õ", "o"); ("ú", "u"); ("ü", "u");
       ("ç", "c")]%string.
Proof. reflexivity. Qed.

Example normalize_cnpj_ex :
  _normalize_cnpj (Some (py "12.345.678/0001-99")) = py "12345678000199".
Proof. reflexivity. Qed.

Example normalize_text_ex :
  _normalize_text (Some (py "  Empresa   ABC  LTDA ")) = py "empresa abc ltda".
Proof. reflexivity. Qed.

Example normalize_name_ex :
  _normalize_name (Some (py "JOÃO  Carlos da SILVA")) = py "joao carlos da silva".
Proof. reflexivity. Qed.

(** ** The string runtime instance *)

Lemma latin1_lower_char_fixed (c : N) :
  latin1_lower_char (latin1_lower_char c) = latin1_lower_char c.
Proof.
  unfold latin1_lower_char.
  destruct (((65 <=? c) && (c <=? 90)
             || (192 <=? c) && (c <=? 222) && negb (c =? 215))%N) eqn:E; [|by rewrite E].
  assert (H : ((65 <= c <= 90) \/ (192 <= c <= 222))%N).
  { apply orb_true_iff in E as [E|E].
    - apply andb_true_iff in E as [?%N.leb_le ?%N.leb_le]. lia.
    - apply andb_true_iff in E as [E _].
      apply andb_true_iff in E as [?%N.leb_le ?%N.leb_le]. lia. }
  destruct (((65 <=? c + 32) && (c + 32 <=? 90)
             || (192 <=? c + 32) && (c + 32 <=? 222) && negb (c + 32 =? 215))%N) eqn:E'; [|done].
  exfalso. apply orb_true_iff in E' as [E'|E'].
  - apply andb_true_iff in E' as [?%N.leb_le ?%N.leb_le]. lia.
  - apply andb_true_iff in E' as [E' _].
    apply andb_true_iff in E' as [?%N.leb_le ?%N.leb_le]. lia.
Qed.

#[export] Instance latin1_laws : PyStrLaws latin1.
Proof.
  split; simpl.
  - reflexivity.
  - reflexivity.
  - intros c Hc. unfold latin1_lower_char.
    destruct (((65 <=? c) && (c <=? 90)
               || (192 <=? c) && (c <=? 222) && negb (c =? 215))%N) eqn:E; [|done].
    exfalso. apply orb_true_iff in E as [E|E].
    + apply andb_true_iff in E as [?%N.leb_le ?%N.leb_le]. lia.
    + apply andb_true_iff in E as [E _].
      apply andb_true_iff in E as [?%N.leb_le ?%N.leb_le]. lia.
  - intros c Hc. unfold latin1_isspace.
    repeat (apply orb_false_iff; split).
    + apply andb_false_iff. right. apply N.leb_gt. lia.
    + apply andb_false_iff. right. apply N.leb_gt. lia.
    + apply N.eqb_neq. lia.
    + apply N.eqb_neq. lia.
  - intros s c [c0 [<- _]]%in_map_iff. by rewrite latin1_lower_char_fixed.
  - intros t Ht. induction t as [|c t IH]; [done|]. simpl. f_equal.
    + specialize (Ht c (or_introl eq_refl)). by injection Ht.
    + apply IH. intros c' Hc'. apply Ht. by right.
Qed.

(** ** Splitting and joining *)

Section SplitJoin.
Context {R : PyStrRuntime}.

(** A word as [split] produces it: not empty, no white space inside. *)
Definition word (w : str) : Prop :=
  w <> [] /\ Forall (fun c => isspace c = false) w.

Lemma split_go_words (s cur : str) :
  Forall (fun c => isspace c = false) cur ->
  Forall word (split_go cur s).
Proof.
  revert cur. induction s as [|c s IH]; intros cur Hcur; simpl.
  - destruct cur; constructor; [|constructor]. by split.
  - destruct (isspace c) eqn:Ec.
    + destruct cur as [|c0 cur]; [by apply IH|].
      constructor; [by split|]. by apply IH.
    + apply IH. apply Forall_app. split; [done|]. by constructor.
Qed.

Lemma split_words (s : str) : Forall word (split s).
Proof. apply split_go_words. constructor. Qed.

Lemma split_go_word_prefix (w s cur : str) :
  Forall (fun c => isspace c = false) w ->
  split_go cur (w ++ s) = split_go (cur ++ w) s.
Proof.
  revert cur. induction w as [|c w IH]; intros cur Hw; simpl.
  - by rewrite app_nil_r.
  - inversion Hw as [|? ? Hc Hw']; subst. rewrite Hc, IH by done.
    by rewrite <- app_assoc.
Qed.

Lemma split_join (ws : list str) :
  isspace 32%N = true ->
  Forall word ws ->
  split (join [32%N] ws) = ws.
Proof.
  intros Hsp. unfold split. induction ws as [|w ws IH]; intros Hws; [done|].
  inversion Hws as [|? ? [Hne Hw] Hws']; subst.
  destruct ws as [|w' ws].
  - simpl. rewrite <- (app_nil_r w) at 1.
    rewrite split_go_word_prefix by done. simpl. by destruct w.
  - change (join [32%N] (w :: w' :: ws))
      with (w ++ [32%N] ++ join [32%N] (w' :: ws)).
    rewrite split_go_word_prefix by done. simpl. rewrite Hsp.
    destruct w; [done|]. f_equal. by apply IH.
Qed.

Lemma in_split_go (s cur w : str) (c : N) :
  In w (split_go cur s) -> In c w -> In c cur \/ In c s.
Proof.
  revert cur. induction s as [|c0 s IH]; intros cur Hw Hc; simpl in Hw.
  - destruct cur; [done|]. destruct Hw as [<-|[]]. by left.
  - destruct (isspace c0).
    + destruct cur as [|c1 cur].
      * destruct (IH _ Hw Hc) as [[]|?]. right. by right.
      * destruct Hw as [<-|Hw]; [by left|].
        destruct (IH _ Hw Hc) as [[]|?]. right. by right.
    + destruct (IH _ Hw Hc) as [Hin|?]; [|right; by right].
      apply in_app_iff in Hin as [?|[<-|[]]]; [by left|right; by left].
Qed.

Lemma in_join (sep : str) (ws : list str) (c : N) :
  In c (join sep ws) -> In c sep \/ exists w, In w ws /\ In c w.
Proof.
  induction ws as [|w ws IH]; [done|]. destruct ws as [|w' ws].
  - simpl. intros Hc. right. exists w. split; [by left|done].
  - change (join sep (w :: w' :: ws)) with (w ++ sep ++ join sep (w' :: ws)).
    intros [Hc|[Hc|Hc]%in_app_iff]%in_app_iff.
    + right. exists w. split; [by left|done].
    + by left.
    + destruct (IH Hc) as [?|[w0 [? ?]]]; [by left|].
      right. exists w0. split; [by right|done].
Qed.

Lemma in_join_word (sep w : str) (ws : list str) (c : N) :
  In w ws -> In c w -> In c (join sep ws).
Proof.
  induction ws as [|x ws IH]; [done|]. intros Hw Hc.
  destruct ws as [|y ws].
  - destruct Hw as [->|[]]. done.
  - change (In c (x ++ sep ++ join sep (y :: ws))).
    apply in_app_iff. destruct Hw as [->|Hw]; [by left|].
    right. apply in_app_iff. right. by apply IH.
Qed.

Lemma map_join (f : N -> N) (sep : str) (ws : list str) :
  map f (join sep ws) = join (map f sep) (map (map f) ws).
Proof.
  induction ws as [|w ws IH]; [done|]. destruct ws as [|w' ws]; [done|].
  change (join sep (w :: w' :: ws)) with (w ++ sep ++ join sep (w' :: ws)).
  rewrite !map_app, IH. done.
Qed.

Lemma join_nil_iff (ws : list str) :
  Forall word ws -> join [32%N] ws = [] -> ws = [].
Proof.
  destruct ws as [|w ws]; [done|]. intros Hws.
  inversion Hws as [|? ? [Hne _] _]; subst.
  destruct ws; simpl; destruct w; done.
Qed.

End SplitJoin.

(** ** Transliteration *)

(** The character replacement a table describes, read as the
    specification does: a character of the table goes to its equivalent and
    no other character changes. *)
Definition transliterate (table : list (N * N)) (c : N) : N :=
  match List.find (fun p => (fst p =? c)%N) table with
  | Some p => snd p
  | None => c
  end.

Lemma fold_replace_map (table : list (N * N)) (s : str) :
  fold_left (fun normalized '(old, new) => str_replace old new normalized) table s
  = map (fun c => fold_left (fun c '(old, new) => if (c =? old)%N then new else c)
                            table c) s.
Proof.
  revert s. induction table as [|[old new] table IH]; intros s; simpl.
  - by rewrite map_id.
  - rewrite IH. unfold str_replace. by rewrite map_map.
Qed.

(** Applying the thirteen replacements one after the other is the same as
    looking each character up once. *)
Lemma replacements_sequential (c : N) :
  fold_left (fun c '(old, new) => if (c =? old)%N then new else c) replacements c
  = transliterate replacements c.
Proof.
  unfold transliterate, replacements. cbn [fold_left List.find fst snd].
  repeat match goal with
         | |- context [(?k =? c)%N] =>
             destruct (N.eqb_spec k c) as [<-|?]; [reflexivity|];
             rewrite ?(proj2 (N.eqb_neq c k)) by congruence; cbv iota
         end.
  reflexivity.
Qed.

Lemma transliterate_cases (c : N) :
  transliterate replacements c = c
  \/ In (c, transliterate replacements c) replacements.
Proof.
  unfold transliterate, replacements. cbn [List.find fst snd].
  repeat match goal with
         | |- context [(?k =? c)%N] =>
             destruct (N.eqb_spec k c) as [<-|?]; [right; cbn [In snd]; tauto|]
         end.
  by left.
Qed.

Lemma replacements_targets (old new : N) :
  In (old, new) replacements ->
  (97 <= new <= 122)%N /\ transliterate replacements new = new /\ (122 < old)%N.
Proof.
  unfold replacements. simpl. intros H.
  repeat (destruct H as [H|H];
          [injection H as <- <-; split; [lia|split; [reflexivity|lia]]|]).
  done.
Qed.

Lemma transliterate_idem (c : N) :
  transliterate replacements (transliterate replacements c)
  = transliterate replacements c.
Proof.
  destruct (transliterate_cases c) as [E|H]; [by rewrite !E|].
  by apply replacements_targets in H as (_ & ? & _).
Qed.

Lemma transliterate_space : transliterate replacements 32%N = 32%N.
Proof. reflexivity. Qed.

(** ** The normalizers *)

Section NormalizerFacts.
Context {R : PyStrRuntime}.

Lemma normalize_name_transliterates (name : option str) :
  _normalize_name name = map (transliterate replacements) (_normalize_text name).
Proof.
  destruct name as [[|c s]|]; [done| |done].
  unfold _normalize_name, _normalize_text. rewrite fold_replace_map.
  apply map_ext. intros a. apply replacements_sequential.
Qed.

Lemma normalize_cnpj_idem (cnpj : option str) :
  _normalize_cnpj (Some (_normalize_cnpj cnpj)) = _normalize_cnpj cnpj.
Proof.
  destruct cnpj as [[|c s]|]; [done| |done].
  unfold _normalize_cnpj at 2. unfold _normalize_cnpj.
  destruct (List.filter isdigit (c :: s)) as [|d l] eqn:E; [done|].
  rewrite <- E. clear E. generalize (c :: s). intros l0.
  induction l0 as [|a l0 IH]; [done|]. simpl.
  destruct (isdigit a) eqn:Ea; [|done]. simpl. by rewrite Ea, IH.
Qed.

Context {L : PyStrLaws R}.

(** The characters [lower] leaves alone *)
Definition stable (c : N) : Prop := lower [c] = [c].

Lemma normalized_stable (s : str) (c : N) :
  In c (join [32%N] (split (lower s))) -> stable c.
Proof.
  intros [[<-|[]]|(w & Hw & Hc)]%in_join.
  - apply lower_space.
  - destruct (in_split_go _ _ _ _ Hw Hc) as [[]|Hin].
    by apply (lower_out_stable s).
Qed.

Lemma normalize_text_idem (text : option str) :
  _normalize_text (Some (_normalize_text text)) = _normalize_text text.
Proof.
  destruct text as [[|c s]|]; [done| |done].
  unfold _normalize_text at 2. unfold _normalize_text.
  destruct (join [32%N] (split (lower (c :: s)))) as [|d t] eqn:E; [done|].
  rewrite <- E. rewrite (lower_stable_id (join _ _)).
  - rewrite split_join; [done|apply isspace_space|apply split_words].
  - intros a Ha. by apply (normalized_stable (c :: s)).
Qed.

Lemma transliterated_word (w : str) :
  word w -> word (map (transliterate replacements) w).
Proof.
  intros [Hne Hw]. split; [by destruct w|].
  apply Forall_map. eapply Forall_impl; [exact Hw|]. intros a Ha. simpl.
  destruct (transliterate_cases a) as [->|Hin]; [done|].
  apply replacements_targets in Hin as (? & _). by apply isspace_az.
Qed.

Lemma normalize_name_idem (name : option str) :
  _normalize_name (Some (_normalize_name name)) = _normalize_name name.
Proof.
  rewrite !normalize_name_transliterates.
  destruct name as [[|c s]|]; [done| |done].
  unfold _normalize_text at 2. unfold _normalize_text.
  set (ws := split (lower (c :: s))).
  assert (Hws : Forall word ws) by apply split_words.
  set (ws' := map (map (transliterate replacements)) ws).
  assert (Hws' : Forall word ws').
  { apply Forall_map. eapply Forall_impl; [exact Hws|].
    intros w. apply transliterated_word. }
  assert (Hn : map (transliterate replacements) (join [32%N] ws) = join [32%N] ws')
    by apply map_join.
  rewrite Hn.
  destruct (join [32%N] ws') as [|d t] eqn:E; [done|].
  rewrite <- E. clear E.
  rewrite (lower_stable_id (join _ ws')).
  - rewrite split_join; [|apply isspace_space|done].
    rewrite map_join. change (map (transliterate replacements) [32%N]) with [32%N].
    f_equal. unfold ws'. rewrite map_map. apply map_ext. intros w.
    rewrite map_map. apply map_ext. intros a. apply transliterate_idem.
  - intros a [[<-|[]]|(w & Hw & Ha)]%in_join; [apply lower_space|].
    apply in_map_iff in Hw as (w0 & <- & Hw0).
    apply in_map_iff in Ha as (a0 & <- & Ha0).
    destruct (transliterate_cases a0) as [->|Hin].
    + apply (normalized_stable (c :: s)). by apply (in_join_word _ w0).
    + apply replacements_targets in Hin as (? & _). by apply lower_az.
Qed.

End NormalizerFacts.

(** C10. Each normalizer is idempotent: applying [_normalize_cnpj],
    [_normalize_text] or [_normalize_name] to its own output gives that
    output again, for every input (a string or [None]), on any string
    runtime that satisfies [PyStrLaws]. *)
Theorem normalizers_idempotent (R : PyStrRuntime) (L : PyStrLaws R) (s : option str) :
  _normalize_cnpj (Some (_normalize_cnpj s)) = _normalize_cnpj s
  /\ _normalize_text (Some (_normalize_text s)) = _normalize_text s
  /\ _normalize_name (Some (_normalize_name s)) = _normalize_name s.
Proof.
  split; [apply normalize_cnpj_idem|].
  split; [apply normalize_text_idem|apply normalize_name_idem].
Qed.

Lemma normalizers_idempotent_witness :
  let s := Some (py "  CNPJ 12.345.678/0001-99  de JOÃO  Conceição ") in
  _normalize_cnpj (Some (_normalize_cnpj s)) = _normalize_cnpj s
  /\ _normalize_text (Some (_normalize_text s)) = _normalize_text s
  /\ _normalize_name (Some (_normalize_name s)) = _normalize_name s.
Proof.
  exact (normalizers_idempotent latin1 latin1_laws
           (Some (py "  CNPJ 12.345.678/0001-99  de JOÃO  Conceição "))).
Defined.

(** The transliteration table as the specification lists it: twelve
    letters, without [à]. *)
Definition spec_table : list (N * N) :=
  [ (225, 97); (227, 97); (226, 97);
    (233, 101); (234, 101);
    (237, 105);
    (243, 111); (244, 111); (245, 111);
    (250, 117); (252, 117);
    (231, 99) ]%N.

(** [normalize_name] as the specification words it: [normalize_text], then
    exactly the letters of its table replaced. *)
Definition normalize_name_spec {R : PyStrRuntime} (name : option str) : str :=
  map (transliterate spec_table) (_normalize_text name).

(** C8, as stated, fails: the code also replaces [à] (U+00E0), which the
    specification's table does not list. *)
Lemma normalize_name_grave_a :
  _normalize_name (Some (py "à")) = py "a"
  /\ normalize_name_spec (Some (py "à")) = py "à"
  /\ _normalize_name (Some (py "à")) <> normalize_name_spec (Some (py "à")).
Proof.
  split; [reflexivity|]. split; [reflexivity|].
  intros H. vm_compute in H. discriminate H.
Qed.

(** C8, amended. For every input, [_normalize_name] is [_normalize_text]
    with exactly the characters of the code's table replaced, each by its
    unaccented ASCII letter, and no other character altered; the code's
    table is the specification's twelve letters and [à -> a]. *)
Theorem normalize_name_is_text_transliterated (R : PyStrRuntime) (name : option str) :
  _normalize_name name = map (transliterate replacements) (_normalize_text name)
  /\ (forall old new, In (old, new) replacements ->
        transliterate replacements old = new)
  /\ (forall c, (forall new, ~ In (c, new) replacements) ->
        transliterate replacements c = c)
  /\ (forall old new, In (old, new) replacements <->
        In (old, new) spec_table \/ (old = 224 /\ new = 97)%N).
Proof.
  split; [apply normalize_name_transliterates|]. split; [|split].
  - intros old new H. unfold replacements in H. simpl in H.
    repeat (destruct H as [H|H]; [by injection H as <- <-|]). done.
  - intros c Hc. destruct (transliterate_cases c) as [?|Hin]; [done|].
    by apply Hc in Hin.
  - intros old new. unfold replacements, spec_table. cbn [In]. split.
    + intros H.
      repeat (destruct H as [H|H];
              [injection H as <- <-;
               first [ left; solve [repeat first [left; reflexivity | right]]
                     | right; done ]|]).
      done.
    + intros [H|[-> ->]]; [|right; by left].
      repeat (destruct H as [H|H];
              [injection H as <- <-;
               solve [repeat first [left; reflexivity | right]]|]).
      done.
Qed.

(** ** The consistency engine *)

Arguments py : simpl never.

Lemma DocumentType_value_inj (t t' : DocumentType) :
  DocumentType_value t = DocumentType_value t' -> t = t'.
Proof. destruct t, t'; (reflexivity || discriminate). Qed.

(** The findings of a list that carry a given code *)
Definition with_code (c : str) (l : list Inconsistency) : list Inconsistency :=
  List.filter (fun i => bool_decide (code i = c)) l.

Lemma with_code_app (c : str) (l1 l2 : list Inconsistency) :
  with_code c (l1 ++ l2) = with_code c l1 ++ with_code c l2.
Proof. apply List.filter_app. Qed.

Lemma with_code_all (c : str) (l : list Inconsistency) :
  Forall (fun i => code i = c) l -> with_code c l = l.
Proof.
  induction 1 as [|i l Hi _ IH]; [done|]. unfold with_code in *. simpl.
  rewrite bool_decide_eq_true_2 by done. by rewrite IH.
Qed.

Lemma with_code_none (c c' : str) (l : list Inconsistency) :
  c' <> c -> Forall (fun i => code i = c') l -> with_code c l = [].
Proof.
  intros Hne. induction 1 as [|i l Hi _ IH]; [done|]. unfold with_code in *. simpl.
  rewrite bool_decide_eq_false_2 by congruence. done.
Qed.

Section EngineFacts.
Context {R : PyStrRuntime}.

(** Everything the node appends, in order *)
Definition engine_findings (state : CrossDocumentAnalyzerState)
    (reference_date six_months_ago : date) : list Inconsistency :=
  let contrato := contrato_social state in
  let cartao := cartao_cnpj state in
  let certidao := certidao_negativa state in
  check_cnpj contrato cartao certidao
  ++ check_razao_social contrato cartao certidao
  ++ check_certificate_expired certidao reference_date
  ++ check_certidao_6_months certidao six_months_ago
  ++ check_cartao_6_months cartao six_months_ago
  ++ check_endereco contrato cartao
  ++ check_socios contrato cartao.

Lemma inconsistencies_set (state : CrossDocumentAnalyzerState)
    (l : list Inconsistency) :
  default [] (inconsistencies (set_inconsistencies state l)) = l.
Proof. reflexivity. Qed.

Lemma node_returns (today : date) (state : CrossDocumentAnalyzerState) (cutoff : date) :
  minus_relativedelta_months (default today (reference_date state)) 6 = Return cutoff ->
  deterministic_checks_node today state
  = Return (set_inconsistencies state
              (engine_findings state (default today (reference_date state)) cutoff)).
Proof.
  intros H. unfold deterministic_checks_node. rewrite H. simpl.
  unfold engine_findings. by rewrite <- !app_assoc.
Qed.

Lemma node_inv (today : date) (state state' : CrossDocumentAnalyzerState) :
  deterministic_checks_node today state = Return state' ->
  exists cutoff,
    minus_relativedelta_months (default today (reference_date state)) 6 = Return cutoff
    /\ inconsistencies state'
       = Some (engine_findings state (default today (reference_date state)) cutoff).
Proof.
  intros H.
  destruct (minus_relativedelta_months (default today (reference_date state)) 6)
    as [cutoff|e] eqn:E.
  - exists cutoff. split; [done|]. rewrite (node_returns _ _ _ E) in H.
    by injection H as <-.
  - unfold deterministic_checks_node in H. rewrite E in H. done.
Qed.

Lemma compare_to_first_codes mk c (entries : list (str * str)) :
  (forall a b v w, code (mk a b v w) = c) ->
  Forall (fun i => code i = c) (compare_to_first mk entries).
Proof.
  intros Hmk. unfold compare_to_first.
  destruct (2 <=? length entries)%nat; [|constructor].
  destruct entries as [|[ref_doc ref_v] rest]; [constructor|].
  induction rest as [|[doc v] rest IH]; [constructor|]. simpl.
  destruct (decide (v <> ref_v)); [constructor|]; done.
Qed.

Lemma check_cnpj_codes contrato cartao certidao :
  Forall (fun i => code i = py "cnpj_mismatch") (check_cnpj contrato cartao certidao).
Proof. by apply compare_to_first_codes. Qed.

Lemma check_razao_social_codes contrato cartao certidao :
  Forall (fun i => code i = py "razao_social_mismatch")
         (check_razao_social contrato cartao certidao).
Proof. by apply compare_to_first_codes. Qed.

Lemma check_certificate_expired_codes certidao reference_date :
  Forall (fun i => code i = py "certificate_expired")
         (check_certificate_expired certidao reference_date).
Proof.
  unfold check_certificate_expired.
  destruct certidao as [c|]; [|constructor].
  destruct (Certidao.data_validade c); [|constructor].
  destruct (date_ltb _ _); repeat constructor.
Qed.

Lemma check_certidao_6_months_codes certidao six_months_ago :
  Forall (fun i => code i = py "document_older_than_6_months")
         (check_certidao_6_months certidao six_months_ago).
Proof.
  unfold check_certidao_6_months.
  destruct certidao as [c|]; [|constructor].
  destruct (Certidao.data_emissao c); [|constructor].
  destruct (date_ltb _ _); repeat constructor.
Qed.

Lemma check_cartao_6_months_codes cartao six_months_ago :
  Forall (fun i => code i = py "document_older_than_6_months")
         (check_cartao_6_months cartao six_months_ago).
Proof.
  unfold check_cartao_6_months.
  destruct cartao as [c|]; [|constructor].
  destruct (Cartao.data_situacao_cadastral c); [|constructor].
  destruct (date_ltb _ _); repeat constructor.
Qed.

Lemma check_endereco_codes contrato cartao :
  Forall (fun i => code i = py "endereco_mismatch") (check_endereco contrato cartao).
Proof.
  unfold check_endereco.
  destruct contrato as [c|]; [|constructor].
  destruct cartao as [k|]; [|constructor].
  destruct (Contrato.sede c); [|constructor].
  destruct (Cartao.endereco_estabelecimento k); [|constructor].
  destruct (_ && _); [|constructor].
  destruct (_ || _); repeat constructor.
Qed.

Lemma check_socios_codes contrato cartao :
  Forall (fun i => code i = py "socio_cpf_mismatch") (check_socios contrato cartao).
Proof.
  unfold check_socios.
  destruct contrato as [c|]; [|constructor].
  destruct cartao as [k|]; [|constructor].
  destruct (Contrato.socios c) as [|s0 ss]; [constructor|].
  destruct (Cartao.qsa k) as [|q0 qs]; [constructor|].
  apply List.Forall_forall. intros f Hf.
  apply in_flat_map in Hf as ([n1 c1] & _ & Hf).
  apply in_flat_map in Hf as ([n2 c2] & _ & Hf).
  destruct (decide (n1 = n2)); [|done].
  destruct (decide (c1 <> c2)); [|done].
  by destruct Hf as [<-|[]].
Qed.

End EngineFacts.

Ltac py_neq := let H := fresh in intros H; vm_compute in H; discriminate H.

Section EngineByCode.
Context {R : PyStrRuntime}.

Lemma cnpj_findings state reference_date cutoff :
  with_code (py "cnpj_mismatch") (engine_findings state reference_date cutoff)
  = check_cnpj (contrato_social state) (cartao_cnpj state) (certidao_negativa state).
Proof.
  unfold engine_findings. rewrite !with_code_app.
  rewrite (with_code_all _ _ (check_cnpj_codes _ _ _)).
  rewrite (fun H => with_code_none _ _ _ H (check_razao_social_codes _ _ _)) by py_neq.
  rewrite (fun H => with_code_none _ _ _ H (check_certificate_expired_codes _ _)) by py_neq.
  rewrite (fun H => with_code_none _ _ _ H (check_certidao_6_months_codes _ _)) by py_neq.
  rewrite (fun H => with_code_none _ _ _ H (check_cartao_6_months_codes _ _)) by py_neq.
  rewrite (fun H => with_code_none _ _ _ H (check_endereco_codes _ _)) by py_neq.
  rewrite (fun H => with_code_none _ _ _ H (check_socios_codes _ _)) by py_neq.
  by rewrite !app_nil_r.
Qed.

Lemma staleness_findings state reference_date cutoff :
  with_code (py "document_older_than_6_months")
            (engine_findings state reference_date cutoff)
  = check_certidao_6_months (certidao_negativa state) cutoff
    ++ check_cartao_6_months (cartao_cnpj state) cutoff.
Proof.
  unfold engine_findings. rewrite !with_code_app.
  rewrite (fun H => with_code_none _ _ _ H (check_cnpj_codes _ _ _)) by py_neq.
  rewrite (fun H => with_code_none _ _ _ H (check_razao_social_codes _ _ _)) by py_neq.
  rewrite (fun H => with_code_none _ _ _ H (check_certificate_expired_codes _ _)) by py_neq.
  rewrite (with_code_all _ _ (check_certidao_6_months_codes _ _)).
  rewrite (with_code_all _ _ (check_cartao_6_months_codes _ _)).
  rewrite (fun H => with_code_none _ _ _ H (check_endereco_codes _ _)) by py_neq.
  rewrite (fun H => with_code_none _ _ _ H (check_socios_codes _ _)) by py_neq.
  by rewrite !app_nil_r.
Qed.

Lemma socio_findings state reference_date cutoff :
  with_code (py "socio_cpf_mismatch") (engine_findings state reference_date cutoff)
  = check_socios (contrato_social state) (cartao_cnpj state).
Proof.
  unfold engine_findings. rewrite !with_code_app.
  rewrite (fun H => with_code_none _ _ _ H (check_cnpj_codes _ _ _)) by py_neq.
  rewrite (fun H => with_code_none _ _ _ H (check_razao_social_codes _ _ _)) by py_neq.
  rewrite (fun H => with_code_none _ _ _ H (check_certificate_expired_codes _ _)) by py_neq.
  rewrite (fun H => with_code_none _ _ _ H (check_certidao_6_months_codes _ _)) by py_neq.
  rewrite (fun H => with_code_none _ _ _ H (check_cartao_6_months_codes _ _)) by py_neq.
  rewrite (fun H => with_code_none _ _ _ H (check_endereco_codes _ _)) by py_neq.
  rewrite (with_code_all _ _ (check_socios_codes _ _)).
  done.
Qed.

(** *** The tax-ID rule *)

(** The tax ID each document type supplies, in priority order ([None] for
    an absent document or an absent tax ID). *)
Definition supplied_tax_ids (state : CrossDocumentAnalyzerState)
    : list (DocumentType * option str) :=
  [ (CONTRATO_SOCIAL, contrato_social state ≫= Contrato.cnpj);
    (CARTAO_CNPJ, cartao_cnpj state ≫= Cartao.cnpj);
    (CERTIDAO_NEGATIVA, certidao_negativa state ≫= Certidao.cnpj) ].

(** [normalize_id] as the specification has it: the ID with every
    character that is not a digit stripped *)
Definition digits_only (tax_id : str) : str := List.filter isdigit tax_id.

(** [(document_type, normalize_id(tax_id))] for every document with a
    non-empty tax ID *)
Definition tax_id_entries (state : CrossDocumentAnalyzerState)
    : list (DocumentType * str) :=
  omap (fun '(t, tax_id) =>
          match tax_id with
          | Some (c :: id) => Some (t, digits_only (c :: id))
          | _ => None
          end)
       (supplied_tax_ids state).

(** The first entry is the reference; one finding for each later entry
    whose value differs from the reference's. *)
Definition tax_id_findings_spec (entries : list (DocumentType * str))
    : list Inconsistency :=
  match entries with
  | (ref_type, ref_value) :: rest =>
      map (fun '(t, v) =>
             cnpj_mismatch (DocumentType_value ref_type) (DocumentType_value t)
                           ref_value v)
          (List.filter (fun '(t, v) => bool_decide (v <> ref_value)) rest)
  | [] => []
  end.

Lemma flat_map_filter_map (rt : DocumentType) (rv : str)
    (rest : list (DocumentType * str)) :
  flat_map (fun '(doc, v) =>
              if decide (v <> rv)
              then [cnpj_mismatch (DocumentType_value rt) doc rv v] else [])
           (map (fun '(t, v) => (DocumentType_value t, v)) rest)
  = map (fun '(t, v) =>
           cnpj_mismatch (DocumentType_value rt) (DocumentType_value t) rv v)
        (List.filter (fun '(t, v) => bool_decide (v <> rv)) rest).
Proof.
  induction rest as [|[t v] rest IH]; [done|]. cbn [map flat_map List.filter].
  rewrite IH.
  destruct (decide (v <> rv));
    [rewrite bool_decide_eq_true_2 by done|rewrite bool_decide_eq_false_2 by done];
    done.
Qed.

Lemma compare_to_first_spec (entries : list (DocumentType * str)) :
  compare_to_first cnpj_mismatch
    (map (fun '(t, v) => (DocumentType_value t, v)) entries)
  = tax_id_findings_spec entries.
Proof.
  unfold compare_to_first, tax_id_findings_spec.
  destruct entries as [|[rt rv] rest]; [done|].
  destruct rest as [|e rest]; [done|].
  rewrite <- flat_map_filter_map. done.
Qed.

Lemma cnpjs_of_entries (state : CrossDocumentAnalyzerState) :
  cnpjs_of (contrato_social state) (cartao_cnpj state) (certidao_negativa state)
  = map (fun '(t, v) => (DocumentType_value t, v)) (tax_id_entries state).
Proof.
  unfold cnpjs_of, tax_id_entries, supplied_tax_ids.
  destruct (contrato_social state) as [c1|], (cartao_cnpj state) as [c2|],
    (certidao_negativa state) as [c3|]; cbn [mbind option_bind];
    repeat match goal with
           | |- context [truthy (?f ?c)] =>
               destruct (f c) as [[|? ?]|]; cbn [truthy]
           end;
    reflexivity.
Qed.

Lemma tax_id_entries_functional state t v v' :
  In (t, v) (tax_id_entries state) -> In (t, v') (tax_id_entries state) -> v = v'.
Proof.
  unfold tax_id_entries, supplied_tax_ids. simpl.
  destruct (contrato_social state ≫= Contrato.cnpj) as [[|? ?]|],
    (cartao_cnpj state ≫= Cartao.cnpj) as [[|? ?]|],
    (certidao_negativa state ≫= Certidao.cnpj) as [[|? ?]|];
    simpl; intros H1 H2;
    repeat (destruct H1 as [H1|H1]; try done);
    repeat (destruct H2 as [H2|H2]; try done); first [done|congruence].
Qed.

Lemma tax_id_entries_In state t tax_id :
  In (t, Some tax_id) (supplied_tax_ids state) -> tax_id <> [] ->
  In (t, digits_only tax_id) (tax_id_entries state).
Proof.
  unfold tax_id_entries, supplied_tax_ids.
  generalize (contrato_social state ≫= Contrato.cnpj)
             (cartao_cnpj state ≫= Cartao.cnpj)
             (certidao_negativa state ≫= Certidao.cnpj).
  intros id1 id2 id3 H Hne. destruct tax_id as [|c id]; [done|].
  destruct H as [H|[H|[H|[]]]]; injection H as <- ->;
    repeat match goal with v : option str |- _ => destruct v as [[|? ?]|] end;
    cbn [omap list_omap In]; auto.
Qed.

Lemma tax_id_entries_digits state t v :
  In (t, v) (tax_id_entries state) -> Forall (fun c => isdigit c = true) v.
Proof.
  unfold tax_id_entries. intros H.
  apply list_elem_of_In, list_elem_of_omap in H as ([t' [[|c id]|]] & _ & H);
    [done| |done].
  injection H as <- <-. apply List.Forall_forall. intros a Ha.
  change (In a (List.filter isdigit (c :: id))) in Ha.
  by apply List.filter_In in Ha as [_ Ha].
Qed.

End EngineByCode.

(** C5. The tax-ID rule: the [cnpj_mismatch] findings of the engine are
    those the specification describes over the entries
    [(document_type, normalize_id(tax_id))] of the documents with a
    non-empty tax ID, where [normalize_id] strips every character that is
    not a digit, taken in the order CONTRATO_SOCIAL, CARTAO_CNPJ,
    CERTIDAO_NEGATIVA: the first entry is the reference and each later
    entry whose digits differ from the reference's gives one BLOCKER
    finding with documents = [reference type, this type] and the two
    digit strings as values; and two documents whose tax IDs are equal
    after stripping the characters that are not digits are never the pair
    of documents of a [cnpj_mismatch] finding, whatever their punctuation. *)
Theorem tax_id_rule (R : PyStrRuntime) (today : date)
    (state state' : CrossDocumentAnalyzerState) :
  deterministic_checks_node today state = Return state' ->
  let found := with_code (py "cnpj_mismatch") (default [] (inconsistencies state')) in
  found = tax_id_findings_spec (tax_id_entries state)
  /\ (forall ref_doc doc ref_cnpj cnpj,
        let f := cnpj_mismatch ref_doc doc ref_cnpj cnpj in
        code f = py "cnpj_mismatch" /\ severity f = BLOCKER
        /\ documents f = [ref_doc; doc] /\ values f = [ref_cnpj; cnpj])
  /\ (forall f, In f found ->
        Forall (Forall (fun c => isdigit c = true)) (values f))
  /\ (forall t1 t2 id1 id2,
        In (t1, Some id1) (supplied_tax_ids state) ->
        In (t2, Some id2) (supplied_tax_ids state) ->
        id1 <> [] -> id2 <> [] ->
        List.filter isdigit id1 = List.filter isdigit id2 ->
        forall f, In f found ->
          documents f <> [DocumentType_value t1; DocumentType_value t2]).
Proof.
  intros H found.
  destruct (node_inv _ _ _ H) as (cutoff & _ & Hinc).
  assert (Hfound : found = tax_id_findings_spec (tax_id_entries state)).
  { unfold found. rewrite Hinc. simpl. rewrite cnpj_findings.
    unfold check_cnpj. rewrite cnpjs_of_entries. apply compare_to_first_spec. }
  split; [exact Hfound|]. split; [done|]. split.
  { intros f Hf. rewrite Hfound in Hf. unfold tax_id_findings_spec in Hf.
    destruct (tax_id_entries state) as [|[rt rv] rest] eqn:E; [done|].
    apply in_map_iff in Hf as ([t v] & <- & Hin).
    apply List.filter_In in Hin as [Hin _]. cbn [cnpj_mismatch values].
    constructor; [|constructor; [|constructor]].
    - apply (tax_id_entries_digits state rt). rewrite E. by left.
    - apply (tax_id_entries_digits state t). rewrite E. by right. }
  intros t1 t2 id1 id2 H1 H2 Ht1 Ht2 Heq f Hf Hdocs.
  rewrite Hfound in Hf. unfold tax_id_findings_spec in Hf.
  destruct (tax_id_entries state) as [|[rt rv] rest] eqn:E; [done|].
  apply in_map_iff in Hf as ([t v] & <- & Hin).
  apply List.filter_In in Hin as [Hin Hne].
  apply bool_decide_eq_true in Hne.
  simpl in Hdocs. injection Hdocs as Hrt Ht.
  apply DocumentType_value_inj in Hrt as ->. apply DocumentType_value_inj in Ht as ->.
  apply tax_id_entries_In in H1; [|done]. apply tax_id_entries_In in H2; [|done].
  assert (In (t1, rv) (tax_id_entries state)) by (rewrite E; by left).
  assert (In (t2, v) (tax_id_entries state)) by (rewrite E; by right).
  apply Hne.
  rewrite (tax_id_entries_functional state t2 v (digits_only id2)) by done.
  rewrite (tax_id_entries_functional state t1 rv (digits_only id1)) by done.
  done.
Qed.

(** Three documents: the registration card repeats the tax ID of the
    articles without punctuation, the certificate carries another one. *)
Definition tax_id_example : CrossDocumentAnalyzerState :=
  {| contrato_social :=
       Some {| Contrato.razao_social := None;
               Contrato.cnpj := Some (py "12.345.678/0001-99");
               Contrato.sede := None;
               Contrato.socios := [] |};
     cartao_cnpj :=
       Some {| Cartao.cnpj := Some (py "12345678000199");
               Cartao.razao_social := None;
               Cartao.data_situacao_cadastral := None;
               Cartao.endereco_estabelecimento := None;
               Cartao.qsa := [] |};
     certidao_negativa :=
       Some {| Certidao.cnpj := Some (py "98.765.432/0001-11");
               Certidao.razao_social := None;
               Certidao.data_emissao := None;
               Certidao.data_validade := None |};
     reference_date := Some (mkdate 2025 6 15);
     inconsistencies := None;
     decision := None;
     confidence := None;
     summary := None;
     result := None |}.

Definition run_node (state : CrossDocumentAnalyzerState) : CrossDocumentAnalyzerState :=
  match deterministic_checks_node (mkdate 2025 6 15) state with
  | Return state' => state'
  | Raise _ => state
  end.

Lemma tax_id_rule_witness :
  let found := with_code (py "cnpj_mismatch")
                 (default [] (inconsistencies (run_node tax_id_example))) in
  found = tax_id_findings_spec (tax_id_entries tax_id_example)
  /\ (forall ref_doc doc ref_cnpj cnpj,
        let f := cnpj_mismatch ref_doc doc ref_cnpj cnpj in
        code f = py "cnpj_mismatch" /\ severity f = BLOCKER
        /\ documents f = [ref_doc; doc] /\ values f = [ref_cnpj; cnpj])
  /\ (forall f, In f found ->
        Forall (Forall (fun c => isdigit c = true)) (values f))
  /\ (forall t1 t2 id1 id2,
        In (t1, Some id1) (supplied_tax_ids tax_id_example) ->
        In (t2, Some id2) (supplied_tax_ids tax_id_example) ->
        id1 <> [] -> id2 <> [] ->
        List.filter isdigit id1 = List.filter isdigit id2 ->
        forall f, In f found ->
          documents f <> [DocumentType_value t1; DocumentType_value t2]).
Proof.
  apply (tax_id_rule latin1 (mkdate 2025 6 15) tax_id_example (run_node tax_id_example)).
  reflexivity.
Defined.

Example tax_id_example_findings :
  map (fun f => (documents f, values f))
      (default [] (inconsistencies (run_node tax_id_example)))
  = [([py "CONTRATO_SOCIAL"; py "CERTIDAO_NEGATIVA"],
      [py "12345678000199"; py "98765432000111"])].
Proof. reflexivity. Qed.

(** ** Dicts *)

Lemma dict_get_set_eq (k v : str) (d : list (str * str)) :
  dict_get k (dict_set k v d) = Some v.
Proof.
  induction d as [|[k' v'] d IH]; simpl.
  - by rewrite decide_True.
  - destruct (decide (k' = k)) as [->|Hne]; simpl.
    + by rewrite decide_True.
    + by rewrite decide_False.
Qed.

Lemma dict_get_set_ne (k k' v : str) (d : list (str * str)) :
  k' <> k -> dict_get k' (dict_set k v d) = dict_get k' d.
Proof.
  intros Hne. induction d as [|[k0 v0] d IH]; simpl.
  - by rewrite decide_False.
  - destruct (decide (k0 = k)) as [->|Hk]; simpl.
    + by rewrite !decide_False by done.
    + destruct (decide (k0 = k')); [done|]. apply IH.
Qed.

Lemma dict_set_keys (k v a : str) (d : list (str * str)) :
  In a (map fst (dict_set k v d)) <-> a = k \/ In a (map fst d).
Proof.
  induction d as [|[k' v'] d IH]; simpl.
  - split; [intros [<-|[]]; by left|intros [->|[]]; by left].
  - destruct (decide (k' = k)) as [->|Hne]; simpl.
    + split; [tauto|]. intros [->|?]; tauto.
    + rewrite IH. tauto.
Qed.

Lemma dict_set_NoDup (k v : str) (d : list (str * str)) :
  List.NoDup (map fst d) -> List.NoDup (map fst (dict_set k v d)).
Proof.
  induction d as [|[k' v'] d IH]; simpl; intros Hd.
  - repeat constructor. tauto.
  - apply List.NoDup_cons_iff in Hd as [Hk' Hd].
    destruct (decide (k' = k)) as [->|Hne]; simpl.
    + by apply List.NoDup_cons.
    + apply List.NoDup_cons; [|by apply IH].
      rewrite dict_set_keys. intros [?|?]; done.
Qed.

Lemma dict_get_In (k v : str) (d : list (str * str)) :
  dict_get k d = Some v -> In (k, v) d.
Proof.
  induction d as [|[k' v'] d IH]; simpl; [done|].
  destruct (decide (k' = k)) as [->|Hne].
  - intros [= ->]. by left.
  - intros H. right. by apply IH.
Qed.

Lemma dict_get_NoDup (k v : str) (d : list (str * str)) :
  List.NoDup (map fst d) -> In (k, v) d -> dict_get k d = Some v.
Proof.
  induction d as [|[k' v'] d IH]; simpl; [done|]. intros Hd Hin.
  apply List.NoDup_cons_iff in Hd as [Hk' Hd].
  destruct Hin as [[= -> ->]|Hin]; [by rewrite decide_True|].
  destruct (decide (k' = k)) as [->|Hne]; [|by apply IH].
  exfalso. apply Hk'. apply in_map_iff. by exists (k, v).
Qed.

Lemma dict_get_None (k : str) (d : list (str * str)) :
  dict_get k d = None <-> ~ In k (map fst d).
Proof.
  induction d as [|[k' v'] d IH]; simpl; [tauto|].
  destruct (decide (k' = k)) as [->|Hne]; [split; [done|tauto]|].
  rewrite IH. tauto.
Qed.

(** The dict a sequence of assignments [d[k] = v] builds *)
Definition dict_of (l : list (str * str)) : list (str * str) :=
  fold_left (fun d '(k, v) => dict_set k v d) l [].

Lemma dict_of_snoc (l : list (str * str)) (k v : str) :
  dict_of (l ++ [(k, v)]) = dict_set k v (dict_of l).
Proof. unfold dict_of. by rewrite fold_left_app. Qed.

Lemma dict_of_NoDup (l : list (str * str)) : List.NoDup (map fst (dict_of l)).
Proof.
  induction l as [|[k v] l IH] using rev_ind; [constructor|].
  rewrite dict_of_snoc. by apply dict_set_NoDup.
Qed.

(** A key is in the dict when it was assigned, and its value is one of
    those it was given. *)
Lemma dict_of_keys (l : list (str * str)) (k : str) :
  In k (map fst (dict_of l)) <-> In k (map fst l).
Proof.
  induction l as [|[k' v'] l IH] using rev_ind; [done|].
  rewrite dict_of_snoc, dict_set_keys, IH, map_app, in_app_iff. simpl.
  intuition congruence.
Qed.

Lemma dict_of_get_In (l : list (str * str)) (k v : str) :
  dict_get k (dict_of l) = Some v -> In (k, v) l.
Proof.
  induction l as [|[k' v'] l IH] using rev_ind; [done|].
  rewrite dict_of_snoc, in_app_iff. destruct (decide (k = k')) as [->|Hne].
  - rewrite dict_get_set_eq. intros [= ->]. right. by left.
  - rewrite dict_get_set_ne by done. intros H. left. by apply IH.
Qed.

(** The value of a key is the one assigned last. *)
Lemma dict_of_get_last (l l' : list (str * str)) (k v : str) :
  ~ In k (map fst l') -> dict_get k (dict_of (l ++ (k, v) :: l')) = Some v.
Proof.
  induction l' as [|[k' v'] l' IH] using rev_ind; intros Hk.
  - by rewrite dict_of_snoc, dict_get_set_eq.
  - rewrite map_app, in_app_iff in Hk. simpl in Hk.
    rewrite app_comm_cons, app_assoc, dict_of_snoc.
    rewrite dict_get_set_ne by (intros ->; tauto).
    apply IH. tauto.
Qed.

(** ** The partner identity-number rule *)

Section PartnerRule.
Context {R : PyStrRuntime}.

(** A partner with both a name and an ID *)
Definition complete_socio (s : Contrato.Socio) : bool :=
  nonempty (Contrato.nome s) && truthy (Contrato.cpf s).

Definition complete_qsa (s : Cartao.SocioQSA) : bool :=
  nonempty (Cartao.nome s) && truthy (Cartao.cpf_cnpj s).

(** [normalize_name(partner_name) -> normalize_id(partner_id)] *)
Definition socio_entry (s : Contrato.Socio) : str * str :=
  (_normalize_name (Some (Contrato.nome s)), _normalize_cpf (Contrato.cpf s)).

Definition qsa_entry (s : Cartao.SocioQSA) : str * str :=
  (_normalize_name (Some (Cartao.nome s)), _normalize_cpf (Cartao.cpf_cnpj s)).

(** One finding for every name of the first mapping that the second
    mapping gives a different ID; [socios] is where the spelling quoted in
    the message is looked up. *)
Definition partner_findings_spec (socios : list Contrato.Socio)
    (contrato_map qsa_map : list (str * str)) : list Inconsistency :=
  omap (fun '(nome, cpf_contrato) =>
          match dict_get nome qsa_map with
          | Some cpf_qsa =>
              if decide (cpf_contrato <> cpf_qsa)
              then Some (socio_cpf_mismatch (nome_original_of socios nome)
                           cpf_contrato cpf_qsa)
              else None
          | None => None
          end)
       contrato_map.


Lemma contrato_socios_of_dict (socios : list Contrato.Socio) :
  contrato_socios_of socios
  = dict_of (map socio_entry (List.filter complete_socio socios)).
Proof.
  unfold contrato_socios_of, dict_of. generalize (@nil (str * str)).
  induction socios as [|s socios IH]; intros d; [done|]. cbn [fold_left List.filter].
  unfold complete_socio at 1. destruct (nonempty _ && truthy _); [|apply IH].
  cbn [map fold_left]. apply IH.
Qed.

Lemma qsa_socios_of_dict (qsa : list Cartao.SocioQSA) :
  qsa_socios_of qsa = dict_of (map qsa_entry (List.filter complete_qsa qsa)).
Proof.
  unfold qsa_socios_of, dict_of. generalize (@nil (str * str)).
  induction qsa as [|s qsa IH]; intros d; [done|]. cbn [fold_left List.filter].
  unfold complete_qsa at 1. destruct (nonempty _ && truthy _); [|apply IH].
  cbn [map fold_left]. apply IH.
Qed.




Lemma contrato_socios_NoDup socios : List.NoDup (map fst (contrato_socios_of socios)).
Proof. rewrite contrato_socios_of_dict. apply dict_of_NoDup. Qed.

Lemma qsa_socios_NoDup qsa : List.NoDup (map fst (qsa_socios_of qsa)).
Proof. rewrite qsa_socios_of_dict. apply dict_of_NoDup. Qed.

(** An entry of a mapping comes from a partner with both fields. *)
Lemma contrato_socios_partner socios nome cpf :
  dict_get nome (contrato_socios_of socios) = Some cpf ->
  exists s, In s socios /\ complete_socio s = true
            /\ _normalize_name (Some (Contrato.nome s)) = nome
            /\ _normalize_cpf (Contrato.cpf s) = cpf.
Proof.
  rewrite contrato_socios_of_dict. intros H%dict_of_get_In.
  apply in_map_iff in H as (s & Heq & Hs). unfold socio_entry in Heq.
  apply pair_equal_spec in Heq as [<- <-].
  apply List.filter_In in Hs as [? ?]. by exists s.
Qed.

Lemma qsa_socios_partner qsa nome cpf :
  dict_get nome (qsa_socios_of qsa) = Some cpf ->
  exists s, In s qsa /\ complete_qsa s = true
            /\ _normalize_name (Some (Cartao.nome s)) = nome
            /\ _normalize_cpf (Cartao.cpf_cnpj s) = cpf.
Proof.
  rewrite qsa_socios_of_dict. intros H%dict_of_get_In.
  apply in_map_iff in H as (s & Heq & Hs). unfold qsa_entry in Heq.
  apply pair_equal_spec in Heq as [<- <-].
  apply List.filter_In in Hs as [? ?]. by exists s.
Qed.

(** The inner loop over a dict finds at most the entry of the name. *)
Lemma inner_loop (nome cpf : str) (g : str -> Inconsistency) (d : list (str * str)) :
  List.NoDup (map fst d) ->
  flat_map (fun '(nome_qsa, cpf_qsa) =>
              if decide (nome = nome_qsa)
              then if decide (cpf <> cpf_qsa) then [g cpf_qsa] else []
              else []) d
  = match dict_get nome d with
    | Some cpf_qsa => if decide (cpf <> cpf_qsa) then [g cpf_qsa] else []
    | None => []
    end.
Proof.
  induction d as [|[k v] d IH]; [done|]. cbn [map fst flat_map dict_get].
  intros [Hk Hd]%List.NoDup_cons_iff. rewrite (IH Hd).
  destruct (decide (nome = k)) as [->|Hne].
  - rewrite (decide_True (P := k = k)) by done.
    assert (dict_get k d = None) as -> by by apply dict_get_None.
    by rewrite app_nil_r.
  - by rewrite (decide_False (P := k = nome)) by done.
Qed.

Lemma check_socios_spec (contrato : Contrato.ContratoSocialData)
    (cartao : Cartao.CartaoCNPJData) :
  check_socios (Some contrato) (Some cartao)
  = partner_findings_spec (Contrato.socios contrato)
      (contrato_socios_of (Contrato.socios contrato))
      (qsa_socios_of (Cartao.qsa cartao)).
Proof.
  unfold check_socios, partner_findings_spec.
  destruct (Contrato.socios contrato) as [|s0 ss] eqn:Es; [done|].
  destruct (Cartao.qsa cartao) as [|q0 qs] eqn:Eq.
  - change (qsa_socios_of []) with (@nil (str * str)).
    induction (contrato_socios_of (s0 :: ss)) as [|[k v] d IH]; [done|].
    simpl. apply IH.
  - generalize (qsa_socios_NoDup (q0 :: qs)).
    generalize (qsa_socios_of (q0 :: qs)). intros qm Hqm.
    induction (contrato_socios_of (s0 :: ss)) as [|[k v] d IH]; [done|].
    cbn [flat_map omap list_omap]. rewrite IH.
    rewrite (inner_loop k v
               (fun cpf_qsa => socio_cpf_mismatch (nome_original_of (s0 :: ss) k) v cpf_qsa)
               qm Hqm).
    destruct (dict_get k qm) as [v2|]; [|done].
    by destruct (decide (v <> v2)).
Qed.

(** The spelling quoted for a name of the articles' mapping is that of the
    first partner of the roster, with or without ID, whose normalized name
    it is. *)
Lemma nome_original_first socios nome :
  In nome (map fst (contrato_socios_of socios)) ->
  exists before s after,
    socios = before ++ s :: after
    /\ _normalize_name (Some (Contrato.nome s)) = nome
    /\ Forall (fun s' => _normalize_name (Some (Contrato.nome s')) <> nome) before
    /\ nome_original_of socios nome = Contrato.nome s.
Proof.
  rewrite contrato_socios_of_dict, dict_of_keys, map_map.
  intros (s1 & Hs1 & Hin)%in_map_iff. apply List.filter_In in Hin as [Hin _].
  change (_normalize_name (Some (Contrato.nome s1)) = nome) in Hs1.
  unfold nome_original_of.
  induction socios as [|s socios IH]; [done|]. cbn [List.find].
  destruct (bool_decide (_normalize_name (Some (Contrato.nome s)) = nome)) eqn:E.
  - apply bool_decide_eq_true in E. exists [], s, socios.
    split; [done|]. split; [done|]. split; [constructor|done].
  - apply bool_decide_eq_false in E.
    destruct Hin as [->|Hin]; [done|].
    destruct (IH Hin) as (before & s' & after & -> & ? & ? & ?).
    exists (s :: before), s', after.
    split; [done|]. split; [done|]. split; [by constructor|done].
Qed.

End PartnerRule.

Section PartnerClaims.
Context {R : PyStrRuntime}.

(** The two rosters of a state (empty when the document is absent) *)
Definition articles_roster (state : CrossDocumentAnalyzerState) : list Contrato.Socio :=
  match contrato_social state with
  | Some contrato => Contrato.socios contrato
  | None => []
  end.

Definition card_roster (state : CrossDocumentAnalyzerState) : list Cartao.SocioQSA :=
  match cartao_cnpj state with
  | Some cartao => Cartao.qsa cartao
  | None => []
  end.



Lemma partner_findings_empty socios qsa_map :
  partner_findings_spec socios [] qsa_map = [].
Proof. done. Qed.

Lemma check_socios_rosters (state : CrossDocumentAnalyzerState) :
  check_socios (contrato_social state) (cartao_cnpj state)
  = partner_findings_spec (articles_roster state)
      (contrato_socios_of (articles_roster state))
      (qsa_socios_of (card_roster state)).
Proof.
  unfold articles_roster, card_roster.
  destruct (contrato_social state) as [c|]; [|done].
  destruct (cartao_cnpj state) as [k|]; [apply check_socios_spec|].
  change (qsa_socios_of []) with (@nil (str * str)).
  unfold partner_findings_spec.
  induction (contrato_socios_of (Contrato.socios c)) as [|[n v] d IH]; [done|].
  simpl. apply IH.
Qed.



Lemma partner_findings_In socios contrato_map qsa_map f :
  In f (partner_findings_spec socios contrato_map qsa_map) ->
  exists nome cpf_contrato cpf_qsa,
    In (nome, cpf_contrato) contrato_map
    /\ dict_get nome qsa_map = Some cpf_qsa
    /\ cpf_contrato <> cpf_qsa
    /\ f = socio_cpf_mismatch (nome_original_of socios nome) cpf_contrato cpf_qsa.
Proof.
  unfold partner_findings_spec.
  induction contrato_map as [|[n v] d IH]; [done|]. cbn [omap list_omap].
  destruct (dict_get n qsa_map) as [v2|] eqn:E.
  - destruct (decide (v <> v2)).
    + intros [<-|Hf].
      * exists n, v, v2. split; [by left|done].
      * destruct (IH Hf) as (n' & a & b & ? & ?). exists n', a, b. split; [by right|done].
    + intros Hf. destruct (IH Hf) as (n' & a & b & ? & ?).
      exists n', a, b. split; [by right|done].
  - intros Hf. destruct (IH Hf) as (n' & a & b & ? & ?).
    exists n', a, b. split; [by right|done].
Qed.



End PartnerClaims.

(** Example documents for the partner rule *)
Definition contrato_with (socios : list Contrato.Socio) : Contrato.ContratoSocialData :=
  {| Contrato.razao_social := None; Contrato.cnpj := None;
     Contrato.sede := None; Contrato.socios := socios |}.

Definition cartao_with (qsa : list Cartao.SocioQSA) : Cartao.CartaoCNPJData :=
  {| Cartao.cnpj := None; Cartao.razao_social := None;
     Cartao.data_situacao_cadastral := None;
     Cartao.endereco_estabelecimento := None; Cartao.qsa := qsa |}.

Definition rosters_state (socios : list Contrato.Socio) (qsa : list Cartao.SocioQSA)
    : CrossDocumentAnalyzerState :=
  {| contrato_social := Some (contrato_with socios);
     cartao_cnpj := Some (cartao_with qsa);
     certidao_negativa := None;
     reference_date := Some (mkdate 2025 6 15);
     inconsistencies := None; decision := None; confidence := None;
     summary := None; result := None |}.

(** The articles list the same person twice, the first time without ID. *)
Definition articles_twice : list Contrato.Socio :=
  [ {| Contrato.nome := py "JOAO SILVA"; Contrato.cpf := None |};
    {| Contrato.nome := py "Joao Silva"; Contrato.cpf := Some (py "111.111.111-11") |} ].

Definition card_once : list Cartao.SocioQSA :=
  [ {| Cartao.nome := py "Joao Silva"; Cartao.cpf_cnpj := Some (py "222.222.222-22") |} ].




(** One partner whose ID differs between the two rosters *)
Definition articles_fernanda : list Contrato.Socio :=
  [ {| Contrato.nome := py "Fernanda Lima Oliveira";
       Contrato.cpf := Some (py "555.666.777-88") |} ].

Definition card_fernanda : list Cartao.SocioQSA :=
  [ {| Cartao.nome := py "Fernanda Lima Oliveira";
       Cartao.cpf_cnpj := Some (py "555.666.777-99") |} ].

(** C7, as stated, fails: the finding carries the normalized (digits-only)
    IDs, not the IDs as extracted. *)
Lemma socio_values_are_normalized :
  let found := with_code (py "socio_cpf_mismatch")
                 (default [] (inconsistencies
                                (run_node (rosters_state articles_fernanda card_fernanda)))) in
  map values found = [[py "55566677788"; py "55566677799"]]
  /\ map values found <> [[py "555.666.777-88"; py "555.666.777-99"]].
Proof.
  split; [vm_compute; reflexivity|].
  intros H. vm_compute in H. discriminate H.
Qed.

Lemma normalize_cpf_digits {R : PyStrRuntime} (cpf : option str) :
  truthy cpf = true ->
  exists id, cpf = Some id /\ id <> [] /\ _normalize_cpf cpf = List.filter isdigit id.
Proof. destruct cpf as [[|c id]|]; [done| |done]. intros _. by exists (c :: id). Qed.

(** C7, amended. Every [socio_cpf_mismatch] finding quotes in its message
    an original (non-normalized) name of the articles' roster, the first
    one whose normalized form is the matched name, and carries in [values]
    the two IDs that differ in digits-only form, not as extracted: the
    digits of the ID of a partner of the articles and the digits of the ID
    of a partner of the registration card, both with the matched
    normalized name. *)
Theorem socio_finding_content (R : PyStrRuntime) (today : date)
    (state state' : CrossDocumentAnalyzerState) (f : Inconsistency) :
  deterministic_checks_node today state = Return state' ->
  In f (with_code (py "socio_cpf_mismatch") (default [] (inconsistencies state'))) ->
  exists before named after p q id_p id_q,
    articles_roster state = before ++ named :: after
    /\ Forall (fun s => _normalize_name (Some (Contrato.nome s))
                        <> _normalize_name (Some (Contrato.nome named))) before
    /\ In p (articles_roster state) /\ complete_socio p = true
    /\ In q (card_roster state) /\ complete_qsa q = true
    /\ _normalize_name (Some (Contrato.nome p))
       = _normalize_name (Some (Contrato.nome named))
    /\ _normalize_name (Some (Cartao.nome q))
       = _normalize_name (Some (Contrato.nome named))
    /\ Contrato.cpf p = Some id_p /\ Cartao.cpf_cnpj q = Some id_q
    /\ message f = py "CPF divergente para o sócio '" ++ Contrato.nome named
                   ++ py "' entre Contrato Social e Cartão CNPJ."
    /\ values f = [List.filter isdigit id_p; List.filter isdigit id_q]
    /\ Forall (Forall (fun c => isdigit c = true)) (values f)
    /\ List.filter isdigit id_p <> List.filter isdigit id_q.
Proof.
  intros H Hf.
  destruct (node_inv _ _ _ H) as (cutoff & _ & Hinc).
  rewrite Hinc in Hf. simpl in Hf. rewrite socio_findings, check_socios_rosters in Hf.
  apply partner_findings_In in Hf as (nome & c1 & c2 & Hin & Hq & Hne & ->).
  assert (Hk : In nome (map fst (contrato_socios_of (articles_roster state)))).
  { apply in_map_iff. by exists (nome, c1). }
  destruct (nome_original_first _ _ Hk) as (before & named & after & Hsplit & Hn & Hb & Ho).
  apply dict_get_NoDup in Hin; [|apply contrato_socios_NoDup].
  apply contrato_socios_partner in Hin as (p & Hp & Hpc & Hpn & <-).
  apply qsa_socios_partner in Hq as (q & Hq & Hqc & Hqn & <-).
  assert (Hpt : truthy (Contrato.cpf p) = true).
  { unfold complete_socio in Hpc. by apply andb_true_iff in Hpc as [_ ?]. }
  assert (Hqt : truthy (Cartao.cpf_cnpj q) = true).
  { unfold complete_qsa in Hqc. by apply andb_true_iff in Hqc as [_ ?]. }
  destruct (normalize_cpf_digits _ Hpt) as (id_p & Hip & _ & Hdp).
  destruct (normalize_cpf_digits _ Hqt) as (id_q & Hiq & _ & Hdq).
  rewrite Hdp, Hdq in Hne.
  exists before, named, after, p, q, id_p, id_q. subst nome. rewrite Hn.
  split; [done|]. split; [done|]. split; [done|]. split; [done|].
  split; [done|]. split; [done|]. split; [done|]. split; [done|].
  split; [done|]. split; [done|].
  split; [cbn [socio_cpf_mismatch message]; by rewrite Ho|].
  cbn [socio_cpf_mismatch values]. rewrite Hdp, Hdq.
  split; [done|]. split; [|done].
  constructor; [|constructor; [|constructor]];
    apply List.Forall_forall; intros a Ha;
    by apply List.filter_In in Ha as [_ Ha].
Qed.

Lemma socio_finding_content_witness :
  let f := socio_cpf_mismatch (py "JOAO SILVA") (py "11111111111")
             (py "22222222222") in
  exists before named after p q id_p id_q,
    articles_roster (rosters_state articles_twice card_once) = before ++ named :: after
    /\ Forall (fun s => _normalize_name (Some (Contrato.nome s))
                        <> _normalize_name (Some (Contrato.nome named))) before
    /\ In p (articles_roster (rosters_state articles_twice card_once))
    /\ complete_socio p = true
    /\ In q (card_roster (rosters_state articles_twice card_once))
    /\ complete_qsa q = true
    /\ _normalize_name (Some (Contrato.nome p))
       = _normalize_name (Some (Contrato.nome named))
    /\ _normalize_name (Some (Cartao.nome q))
       = _normalize_name (Some (Contrato.nome named))
    /\ Contrato.cpf p = Some id_p /\ Cartao.cpf_cnpj q = Some id_q
    /\ message f = py "CPF divergente para o sócio '" ++ Contrato.nome named
                   ++ py "' entre Contrato Social e Cartão CNPJ."
    /\ values f = [List.filter isdigit id_p; List.filter isdigit id_q]
    /\ Forall (Forall (fun c => isdigit c = true)) (values f)
    /\ List.filter isdigit id_p <> List.filter isdigit id_q.
Proof.
  intros f.
  assert (Hl : with_code (py "socio_cpf_mismatch")
                 (default [] (inconsistencies
                                (run_node (rosters_state articles_twice card_once))))
               = [f])
    by (vm_compute; reflexivity).
  apply (socio_finding_content latin1 (mkdate 2025 6 15)
           (rosters_state articles_twice card_once)
           (run_node (rosters_state articles_twice card_once)) f).
  - vm_compute; reflexivity.
  - rewrite Hl. apply in_eq.
Defined.

(** ** Dates and the staleness rules *)

Lemma date_ltb_irrefl (d : date) : date_ltb d d = false.
Proof.
  unfold date_ltb. rewrite !Z.ltb_irrefl, !Z.eqb_refl. reflexivity.
Qed.

Lemma previous_day_earlier (d d' : date) :
  previous_day d = Some d' -> date_ltb d' d = true.
Proof.
  unfold previous_day, date_ltb.
  destruct (Z.ltb_spec 1 (day d)).
  { intros [= <-]. simpl. rewrite !Z.eqb_refl.
    replace (day d - 1 <? day d) with true by (symmetry; apply Z.ltb_lt; lia).
    by rewrite !orb_true_r. }
  destruct (Z.ltb_spec 1 (month d)).
  { intros [= <-]. simpl. rewrite !Z.eqb_refl.
    replace (month d - 1 <? month d) with true by (symmetry; apply Z.ltb_lt; lia).
    by rewrite !orb_true_r. }
  destruct (Z.ltb_spec 1 (year d)); [|done].
  intros [= <-]. simpl.
  by replace (year d - 1 <? year d) with true by (symmetry; apply Z.ltb_lt; lia).
Qed.

(** Six calendar months back: the month count goes down by six and the day
    is kept, or cut to the length of the month reached. *)
Lemma minus_six_months (reference : date) :
  valid_date reference = true ->
  2 <= year reference \/ 7 <= month reference ->
  exists cutoff,
    minus_relativedelta_months reference 6 = Return cutoff
    /\ 12 * year cutoff + month cutoff = 12 * year reference + month reference - 6
    /\ 1 <= month cutoff <= 12
    /\ day cutoff = Z.min (day reference)
                          (days_in_month (year cutoff) (month cutoff)).
Proof.
  unfold valid_date. intros Hv Hr.
  repeat (apply andb_true_iff in Hv as [Hv ?]).
  repeat match goal with H : (_ <=? _) = true |- _ => apply Z.leb_le in H end.
  unfold minus_relativedelta_months.
  destruct (Z.ltb_spec 12 (month reference + - (6))); [lia|].
  destruct (Z.ltb_spec (month reference + - (6)) 1).
  - replace ((1 <=? year reference - 1) && (year reference - 1 <=? 9999)) with true
      by (symmetry; apply andb_true_iff; split; apply Z.leb_le; lia).
    eexists. split; [done|]. simpl. rewrite Z.min_comm. repeat split; lia.
  - replace ((1 <=? year reference) && (year reference <=? 9999)) with true
      by (symmetry; apply andb_true_iff; split; apply Z.leb_le; lia).
    eexists. split; [done|]. simpl. rewrite Z.min_comm. repeat split; lia.
Qed.

(** The findings of a list about exactly one document *)
Definition findings_on (doc : str) (l : list Inconsistency) : list Inconsistency :=
  List.filter (fun f => bool_decide (documents f = [doc])) l.

Section Staleness.
Context {R : PyStrRuntime}.

Lemma certidao_stale_on_certidao certidao cutoff :
  findings_on (py "CERTIDAO_NEGATIVA") (check_certidao_6_months certidao cutoff)
  = check_certidao_6_months certidao cutoff.
Proof.
  unfold check_certidao_6_months. destruct certidao as [c|]; [|done].
  destruct (Certidao.data_emissao c); [|done]. by destruct (date_ltb _ _).
Qed.

Lemma certidao_stale_on_cartao certidao cutoff :
  findings_on (py "CARTAO_CNPJ") (check_certidao_6_months certidao cutoff) = [].
Proof.
  unfold check_certidao_6_months. destruct certidao as [c|]; [|done].
  destruct (Certidao.data_emissao c); [|done]. destruct (date_ltb _ _); [|done].
  unfold findings_on. cbn [List.filter documents].
  rewrite bool_decide_eq_false_2; [done|]. py_neq.
Qed.

Lemma cartao_stale_on_cartao cartao cutoff :
  findings_on (py "CARTAO_CNPJ") (check_cartao_6_months cartao cutoff)
  = check_cartao_6_months cartao cutoff.
Proof.
  unfold check_cartao_6_months. destruct cartao as [c|]; [|done].
  destruct (Cartao.data_situacao_cadastral c); [|done]. by destruct (date_ltb _ _).
Qed.

Lemma cartao_stale_on_certidao cartao cutoff :
  findings_on (py "CERTIDAO_NEGATIVA") (check_cartao_6_months cartao cutoff) = [].
Proof.
  unfold check_cartao_6_months. destruct cartao as [c|]; [|done].
  destruct (Cartao.data_situacao_cadastral c); [|done]. destruct (date_ltb _ _); [|done].
  unfold findings_on. cbn [List.filter documents].
  rewrite bool_decide_eq_false_2; [done|]. py_neq.
Qed.

Lemma stale_on_certidao state reference cutoff :
  findings_on (py "CERTIDAO_NEGATIVA")
    (with_code (py "document_older_than_6_months")
       (engine_findings state reference cutoff))
  = check_certidao_6_months (certidao_negativa state) cutoff.
Proof.
  rewrite staleness_findings. unfold findings_on. rewrite List.filter_app.
  fold (findings_on (py "CERTIDAO_NEGATIVA")
          (check_certidao_6_months (certidao_negativa state) cutoff)).
  fold (findings_on (py "CERTIDAO_NEGATIVA")
          (check_cartao_6_months (cartao_cnpj state) cutoff)).
  by rewrite certidao_stale_on_certidao, cartao_stale_on_certidao, app_nil_r.
Qed.

Lemma stale_on_cartao state reference cutoff :
  findings_on (py "CARTAO_CNPJ")
    (with_code (py "document_older_than_6_months")
       (engine_findings state reference cutoff))
  = check_cartao_6_months (cartao_cnpj state) cutoff.
Proof.
  rewrite staleness_findings. unfold findings_on. rewrite List.filter_app.
  fold (findings_on (py "CARTAO_CNPJ")
          (check_certidao_6_months (certidao_negativa state) cutoff)).
  fold (findings_on (py "CARTAO_CNPJ")
          (check_cartao_6_months (cartao_cnpj state) cutoff)).
  by rewrite certidao_stale_on_cartao, cartao_stale_on_cartao.
Qed.

End Staleness.

(** C4. For a reference date [datetime.date] can hold, from 0001-07-01 on,
    the engine returns, and the cutoff of both staleness rules is the
    reference date minus six calendar months (2025-06-15 gives 2024-12-15).
    A certificate issuance date, or a registration-card status date, equal
    to the cutoff gives no [document_older_than_6_months] finding on that
    document; the day before the cutoff (and any earlier date) gives exactly
    one, BLOCKER for the certificate and WARN for the registration card. *)
Theorem staleness_boundary (R : PyStrRuntime) (today : date)
    (state : CrossDocumentAnalyzerState) :
  valid_date (default today (reference_date state)) = true ->
  2 <= year (default today (reference_date state))
  \/ 7 <= month (default today (reference_date state)) ->
  exists cutoff state',
    let reference := default today (reference_date state) in
    let stale := with_code (py "document_older_than_6_months")
                   (default [] (inconsistencies state')) in
    minus_relativedelta_months reference 6 = Return cutoff
    /\ deterministic_checks_node today state = Return state'
    /\ 12 * year cutoff + month cutoff = 12 * year reference + month reference - 6
    /\ 1 <= month cutoff <= 12
    /\ day cutoff = Z.min (day reference) (days_in_month (year cutoff) (month cutoff))
    /\ minus_relativedelta_months (mkdate 2025 6 15) 6 = Return (mkdate 2024 12 15)
    /\ (forall certidao data_emissao,
          certidao_negativa state = Some certidao ->
          Certidao.data_emissao certidao = Some data_emissao ->
          (data_emissao = cutoff -> findings_on (py "CERTIDAO_NEGATIVA") stale = [])
          /\ (previous_day cutoff = Some data_emissao
              \/ date_ltb data_emissao cutoff = true ->
              exists f, findings_on (py "CERTIDAO_NEGATIVA") stale = [f]
                        /\ severity f = BLOCKER))
    /\ (forall cartao data_situacao_cadastral,
          cartao_cnpj state = Some cartao ->
          Cartao.data_situacao_cadastral cartao = Some data_situacao_cadastral ->
          (data_situacao_cadastral = cutoff -> findings_on (py "CARTAO_CNPJ") stale = [])
          /\ (previous_day cutoff = Some data_situacao_cadastral
              \/ date_ltb data_situacao_cadastral cutoff = true ->
              exists f, findings_on (py "CARTAO_CNPJ") stale = [f]
                        /\ severity f = WARN)).
Proof.
  intros Hv Hr.
  destruct (minus_six_months _ Hv Hr) as (cutoff & Hc & Hm & Hmr & Hd).
  exists cutoff,
    (set_inconsistencies state
       (engine_findings state (default today (reference_date state)) cutoff)).
  cbv zeta.
  split; [exact Hc|]. split; [apply (node_returns _ _ _ Hc)|].
  split; [exact Hm|]. split; [exact Hmr|]. split; [exact Hd|].
  split; [reflexivity|].
  rewrite inconsistencies_set.
  split.
  - intros certidao d Hs Hd'. rewrite stale_on_certidao.
    unfold check_certidao_6_months. rewrite Hs, Hd'. split.
    + intros ->. by rewrite date_ltb_irrefl.
    + intros [Hp%previous_day_earlier| ->]; [rewrite Hp|]; by eexists.
  - intros cartao d Hs Hd'. rewrite stale_on_cartao.
    unfold check_cartao_6_months. rewrite Hs, Hd'. split.
    + intros ->. by rewrite date_ltb_irrefl.
    + intros [Hp%previous_day_earlier| ->]; [rewrite Hp|]; by eexists.
Qed.

(** A certificate issued, and a registration card dated, the day before
    the cutoff of 2025-06-15 *)
Definition staleness_example : CrossDocumentAnalyzerState :=
  {| contrato_social := None;
     cartao_cnpj :=
       Some {| Cartao.cnpj := None; Cartao.razao_social := None;
               Cartao.data_situacao_cadastral := Some (mkdate 2024 12 14);
               Cartao.endereco_estabelecimento := None; Cartao.qsa := [] |};
     certidao_negativa :=
       Some {| Certidao.cnpj := None; Certidao.razao_social := None;
               Certidao.data_emissao := Some (mkdate 2024 12 14);
               Certidao.data_validade := Some (mkdate 2025 12 15) |};
     reference_date := Some (mkdate 2025 6 15);
     inconsistencies := None; decision := None; confidence := None;
     summary := None; result := None |}.

Lemma staleness_boundary_witness :
  exists cutoff state',
    minus_relativedelta_months (mkdate 2025 6 15) 6 = Return cutoff
    /\ deterministic_checks_node (mkdate 2025 1 1) staleness_example = Return state'
    /\ cutoff = mkdate 2024 12 15
    /\ map severity (with_code (py "document_older_than_6_months")
                       (default [] (inconsistencies state')))
       = [BLOCKER; WARN].
Proof.
  assert (Hy : 2 <= year (default (mkdate 2025 1 1) (reference_date staleness_example)))
    by (vm_compute; congruence).
  destruct (staleness_boundary latin1 (mkdate 2025 1 1) staleness_example
              eq_refl (or_introl Hy))
    as (cutoff & state' & Hc & Hn & _).
  exists cutoff, state'. cbv zeta in Hc.
  split; [exact Hc|]. split; [exact Hn|].
  assert (Hcut : cutoff = mkdate 2024 12 15).
  { change (default (mkdate 2025 1 1) (reference_date staleness_example))
      with (mkdate 2025 6 15) in Hc.
    assert (E : minus_relativedelta_months (mkdate 2025 6 15) 6
                = Return (mkdate 2024 12 15)) by reflexivity.
    rewrite E in Hc. by injection Hc. }
  split; [exact Hcut|].
  assert (E : deterministic_checks_node (mkdate 2025 1 1) staleness_example
              = Return (run_node staleness_example)) by (vm_compute; reflexivity).
  rewrite E in Hn. injection Hn as <-. vm_compute. reflexivity.
Defined.

(** ** The decision combinator *)

(** [clamp(x, lo, hi)]: [x] limited to the interval from [lo] to [hi] *)
Definition clamp (x lo hi : float) : float :=
  if PrimFloat.ltb x lo then lo else if PrimFloat.ltb hi x then hi else x.

(** *** Rounding never produces a NaN *)

Lemma shr_1_nonneg (mrs : shr_record) : 0 <= shr_m mrs -> 0 <= shr_m (shr_1 mrs).
Proof.
  destruct mrs as [m r s]. simpl. intros Hm.
  destruct m as [|p|p]; [done| |lia]. destruct p; simpl; lia.
Qed.

Lemma iter_pos_invariant {A} (P : A -> Prop) (f : A -> A) (p : positive) (x : A) :
  (forall y, P y -> P (f y)) -> P x -> P (SpecFloat.iter_pos f p x).
Proof.
  intros Hf. revert x. induction p as [p IH|p IH|]; intros x Hx; simpl.
  - apply IH, IH, Hf, Hx.
  - apply IH, IH, Hx.
  - apply Hf, Hx.
Qed.

Lemma shr_fexp_nonneg (m e : Z) (l : location) :
  0 <= m -> 0 <= shr_m (fst (shr_fexp prec emax m e l)).
Proof.
  intros Hm. unfold shr_fexp, shr.
  assert (H0 : 0 <= shr_m (shr_record_of_loc m l)) by (by destruct l as [|[]]).
  destruct (fexp prec emax (Zdigits2 m + e) - e) as [|p|p]; simpl; try done.
  apply (iter_pos_invariant (fun mrs => 0 <= shr_m mrs)); [apply shr_1_nonneg|done].
Qed.

Lemma round_nearest_even_nonneg (m : Z) (l : location) :
  0 <= m -> 0 <= round_nearest_even m l.
Proof.
  intros Hm. destruct l as [|[]]; simpl; try lia. destruct (Z.even m); lia.
Qed.

Lemma binary_round_aux_not_nan (sx : bool) (mx ex : Z) (lx : location) :
  0 <= mx -> binary_round_aux prec emax sx mx ex lx <> S754_nan.
Proof.
  intros Hm. unfold binary_round_aux.
  pose proof (shr_fexp_nonneg mx ex lx Hm) as H1.
  destruct (shr_fexp prec emax mx ex lx) as [mrs' e']. simpl in H1.
  pose proof (shr_fexp_nonneg _ e' loc_Exact
                (round_nearest_even_nonneg _ (loc_of_shr_record mrs') H1)) as H2.
  destruct (shr_fexp prec emax _ e' loc_Exact) as [mrs'' e'']. simpl in H2.
  destruct (shr_m mrs'') as [|p|p]; [done| |lia].
  by destruct (e'' <=? emax - prec).
Qed.

Lemma binary_normalize_not_nan (m e : Z) (szero : bool) :
  binary_normalize prec emax m e szero <> S754_nan.
Proof.
  unfold binary_normalize, binary_round.
  destruct m as [|p|p]; [done| |];
    destruct (shl_align _ _ _) as [mz ez]; by apply binary_round_aux_not_nan.
Qed.

Lemma SFmul_not_nan (x : spec_float) (s : bool) (m : positive) (e : Z) :
  x <> S754_nan -> SF64mul x (S754_finite s m e) <> S754_nan.
Proof.
  intros Hx. destruct x as [sx|sx| |sx mx ex]; simpl; try done.
  by apply binary_round_aux_not_nan.
Qed.

(** Zero or a finite number *)
Definition finite_or_zero (x : spec_float) : bool :=
  match x with
  | S754_zero _ | S754_finite _ _ _ => true
  | _ => false
  end.

Lemma SFsub_not_nan (x y : spec_float) :
  finite_or_zero x = true -> y <> S754_nan -> SF64sub x y <> S754_nan.
Proof.
  intros Hx Hy.
  destruct x as [sx|sx| |sx mx ex], y as [sy|sy| |sy my ey]; simpl; try done.
  - by destruct sx, sy.
  - apply binary_normalize_not_nan.
Qed.

(** *** Comparisons of a number with 0 and 1 *)

Lemma SFcompare_antisym (x y : spec_float) :
  SFcompare y x = option_map CompOpp (SFcompare x y).
Proof.
  destruct x as [sx|sx| |sx mx ex], y as [sy|sy| |sy my ey]; simpl; try done;
    try (by destruct sx); try (by destruct sy); try (by destruct sx, sy).
  assert (Hp : Pos.compare_cont Eq my mx = CompOpp (Pos.compare_cont Eq mx my))
    by (symmetry; apply (Pos.compare_cont_antisym mx my Eq)).
  destruct sx, sy; simpl; try done; f_equal;
    rewrite (Z.compare_antisym ex ey), Hp;
    destruct (ex ?= ey); simpl; by rewrite ?CompOpp_involutive.
Qed.

Lemma SFcompare_refl (x : spec_float) :
  x <> S754_nan -> SFcompare x x = Some Eq.
Proof.
  destruct x as [sx|sx| |sx mx ex]; simpl; try done; intros _.
  - by destruct sx.
  - destruct sx; rewrite Z.compare_refl;
      change (Pos.compare_cont Eq mx mx) with (mx ?= mx)%positive;
      by rewrite Pos.compare_refl.
Qed.

Lemma SFcompare_some (x y : spec_float) :
  x <> S754_nan -> y <> S754_nan -> exists c, SFcompare x y = Some c.
Proof.
  destruct x as [sx|sx| |sx mx ex], y as [sy|sy| |sy my ey]; simpl; try done;
    intros _ _; by eexists.
Qed.

(** Below zero means below one, and above one means above zero. *)
Lemma SFcompare_zero_one (x : spec_float) :
  (SFcompare x (S754_zero false) = Some Lt ->
   SFcompare x (S754_finite false 4503599627370496 (-52)) = Some Lt)
  /\ (SFcompare x (S754_finite false 4503599627370496 (-52)) = Some Gt ->
      SFcompare x (S754_zero false) = Some Gt)
  /\ (SFcompare x (S754_finite false 4503599627370496 (-52)) = Some Eq ->
      SFcompare x (S754_zero false) = Some Gt).
Proof.
  destruct x as [sx|sx| |sx mx ex]; unfold SFcompare; cbv beta iota.
  - repeat split; intros H; discriminate H.
  - destruct sx; repeat split; intros H; first [reflexivity|discriminate H].
  - repeat split; intros H; discriminate H.
  - destruct sx; repeat split; intros H; first [reflexivity|discriminate H].
Qed.

Lemma clamp_unit (x : float) :
  Prim2SF x <> S754_nan ->
  PrimFloat.eqb (py_max 0 (py_min 1 x)) (clamp x 0 1) = true
  /\ PrimFloat.leb 0 (py_max 0 (py_min 1 x)) = true
  /\ PrimFloat.leb (py_max 0 (py_min 1 x)) 1 = true.
Proof.
  intros Hx. unfold py_max, py_min, clamp.
  assert (E0 : Prim2SF 0 = S754_zero false) by reflexivity.
  assert (E1 : Prim2SF 1 = S754_finite false 4503599627370496 (-52)) by reflexivity.
  assert (H0 : S754_zero false <> S754_nan) by done.
  assert (H1 : S754_finite false 4503599627370496 (-52) <> S754_nan) by done.
  destruct (SFcompare_some _ _ Hx H0) as [c0 Hc0].
  destruct (SFcompare_some _ _ Hx H1) as [c1 Hc1].
  pose proof (SFcompare_antisym (Prim2SF x) (S754_zero false)) as A0.
  pose proof (SFcompare_antisym (Prim2SF x) (S754_finite false 4503599627370496 (-52))) as A1.
  pose proof (SFcompare_zero_one (Prim2SF x)) as (Z1 & Z2 & Z3).
  pose proof (SFcompare_refl _ Hx) as Rx.
  rewrite Hc0 in A0, Z1, Z2, Z3. rewrite Hc1 in A1, Z1, Z2, Z3.
  cbn [option_map] in A0, A1.
  assert (Lx1 : PrimFloat.ltb x 1 = match c1 with Lt => true | _ => false end).
  { rewrite FloatAxioms.ltb_spec, E1. unfold SFltb. by rewrite Hc1. }
  assert (L1x : PrimFloat.ltb 1 x = match c1 with Gt => true | _ => false end).
  { rewrite FloatAxioms.ltb_spec, E1. unfold SFltb. rewrite A1. by destruct c1. }
  assert (Lx0 : PrimFloat.ltb x 0 = match c0 with Lt => true | _ => false end).
  { rewrite FloatAxioms.ltb_spec, E0. unfold SFltb. by rewrite Hc0. }
  assert (L0x : PrimFloat.ltb 0 x = match c0 with Gt => true | _ => false end).
  { rewrite FloatAxioms.ltb_spec, E0. unfold SFltb. rewrite A0. by destruct c0. }
  assert (Exx : PrimFloat.eqb x x = true).
  { rewrite FloatAxioms.eqb_spec. unfold SFeqb. by rewrite Rx. }
  assert (E0x : c0 = Eq -> PrimFloat.eqb 0 x = true).
  { intros ->. rewrite FloatAxioms.eqb_spec, E0. unfold SFeqb. by rewrite A0. }
  assert (G0x : c0 = Gt -> PrimFloat.leb 0 x = true).
  { intros ->. rewrite FloatAxioms.leb_spec, E0. unfold SFleb. by rewrite A0. }
  assert (Gx1 : c1 = Lt -> PrimFloat.leb x 1 = true).
  { intros ->. rewrite FloatAxioms.leb_spec, E1. unfold SFleb. by rewrite Hc1. }
  assert (E1x : c1 = Eq -> PrimFloat.eqb 1 x = true).
  { intros ->. rewrite FloatAxioms.eqb_spec, E1. unfold SFeqb. by rewrite A1. }
  assert (C01 : PrimFloat.ltb 0 1 = true) by reflexivity.
  rewrite Lx1, Lx0, L1x.
  destruct c1; [| |]; destruct c0; rewrite ?L0x, ?C01;
    try (specialize (Z1 eq_refl)); try (specialize (Z2 eq_refl));
    try (specialize (Z3 eq_refl)); try discriminate;
    repeat split; first [reflexivity|auto].
Qed.

Lemma float_of_int_not_nan (n : Z) : Prim2SF (float_of_int n) <> S754_nan.
Proof.
  unfold float_of_int. rewrite of_uint63_spec. apply binary_normalize_not_nan.
Qed.

Lemma base_confidence_finite (documents_available : nat) :
  (documents_available <= 3)%nat ->
  finite_or_zero (Prim2SF (float_of_int (Z.of_nat documents_available) / 3)) = true.
Proof.
  intros H.
  destruct documents_available as [|[|[|[|n]]]]; [vm_compute; reflexivity..|lia].
Qed.

Lemma docs_available_le (state : CrossDocumentAnalyzerState) :
  (docs_available_of state <= 3)%nat.
Proof.
  unfold docs_available_of.
  destruct (contrato_social state), (cartao_cnpj state), (certidao_negativa state);
    simpl; lia.
Qed.

Lemma confidence_not_nan (documents_available finding_count : nat) :
  (documents_available <= 3)%nat ->
  Prim2SF (float_of_int (Z.of_nat documents_available) / 3
           - float_of_int (Z.of_nat finding_count) * 0x1.999999999999ap-4)
  <> S754_nan.
Proof.
  intros H. rewrite FloatAxioms.sub_spec. apply SFsub_not_nan.
  - by apply base_confidence_finite.
  - rewrite FloatAxioms.mul_spec.
    change (Prim2SF 0x1.999999999999ap-4)
      with (S754_finite false 7205759403792794 (-56)).
    apply SFmul_not_nan, float_of_int_not_nan.
Qed.

Lemma has_blocker_spec (l : list Inconsistency) :
  has_blocker l = true <-> exists f, In f l /\ severity f = BLOCKER.
Proof.
  unfold has_blocker. rewrite existsb_exists. split.
  - intros (f & ? & ?%bool_decide_eq_true). by exists f.
  - intros (f & ? & ?). exists f. split; [done|]. by apply bool_decide_eq_true.
Qed.

(** The number of documents that are present: what the specification
    calls [documents_available] *)
Definition documents_present (state : CrossDocumentAnalyzerState) : nat :=
  (match contrato_social state with Some _ => 1 | None => 0 end
   + match cartao_cnpj state with Some _ => 1 | None => 0 end
   + match certidao_negativa state with Some _ => 1 | None => 0 end)%nat.

Lemma docs_available_present (state : CrossDocumentAnalyzerState) :
  docs_available_of state = documents_present state.
Proof.
  unfold docs_available_of, documents_present.
  by destruct (contrato_social state), (cartao_cnpj state),
              (certidao_negativa state).
Qed.

(** C1. For every finding list and every number of documents present
    (zero to three of the articles, the registration card and the
    certificate), [make_decision_node] sets the decision to REPROVADO if
    some finding is BLOCKER and to APROVADO otherwise, and the confidence
    to [clamp(documents_available / 3 - 0.1 * finding_count, 0, 1)] in
    binary64 arithmetic, a number between 0.0 and 1.0. *)
Theorem decision_combinator (state : CrossDocumentAnalyzerState)
    (findings : list Inconsistency) (documents_available : nat) :
  default [] (inconsistencies state) = findings ->
  documents_present state = documents_available ->
  let finding_count := length findings in
  let out := make_decision_node state in
  (documents_available <= 3)%nat
  /\ (decision out = Some REPROVADO
      <-> exists f, In f findings /\ severity f = BLOCKER)
  /\ (decision out = Some APROVADO
      <-> ~ exists f, In f findings /\ severity f = BLOCKER)
  /\ exists c,
       confidence out = Some c
       /\ PrimFloat.eqb c
            (clamp (float_of_int (Z.of_nat documents_available) / 3
                    - float_of_int (Z.of_nat finding_count) * 0x1.999999999999ap-4)
                   0 1) = true
       /\ PrimFloat.leb 0 c = true
       /\ PrimFloat.leb c 1 = true.
Proof.
  intros <- <- finding_count out.
  set (findings := default [] (inconsistencies state)) in *.
  rewrite <- docs_available_present.
  split; [apply docs_available_le|].
  assert (Hd : decision out
               = Some (if has_blocker findings then REPROVADO else APROVADO)) by done.
  pose proof (has_blocker_spec findings) as Hb.
  split; [|split].
  - rewrite Hd, <- Hb. destruct (has_blocker findings); split; (done || congruence).
  - rewrite Hd, <- Hb. destruct (has_blocker findings); split; (done || congruence).
  - eexists. split; [reflexivity|].
    apply clamp_unit, confidence_not_nan, docs_available_le.
Qed.

(** Three documents and one finding, a BLOCKER *)
Lemma decision_combinator_witness :
  let state := run_node tax_id_example in
  let findings := default [] (inconsistencies state) in
  let out := make_decision_node state in
  (3 <= 3)%nat
  /\ (decision out = Some REPROVADO
      <-> exists f, In f findings /\ severity f = BLOCKER)
  /\ (decision out = Some APROVADO
      <-> ~ exists f, In f findings /\ severity f = BLOCKER)
  /\ exists c,
       confidence out = Some c
       /\ PrimFloat.eqb c
            (clamp (float_of_int (Z.of_nat 3) / 3
                    - float_of_int (Z.of_nat (length findings))
                      * 0x1.999999999999ap-4)
                   0 1) = true
       /\ PrimFloat.leb 0 c = true
       /\ PrimFloat.leb c 1 = true.
Proof.
  intros state findings out.
  apply (decision_combinator state findings 3).
  - reflexivity.
  - vm_compute; reflexivity.
Defined.

Example decision_examples :
  decision (make_decision_node (run_node staleness_example)) = Some REPROVADO
  /\ decision (make_decision_node (run_node tax_id_example)) = Some REPROVADO
  /\ confidence (make_decision_node (run_node tax_id_example))
     = Some 0x1.ccccccccccccdp-1%float
  /\ decision (make_decision_node tax_id_example) = Some APROVADO
  /\ confidence (make_decision_node tax_id_example) = Some 1%float.
Proof. vm_compute. done. Qed.

(** ** Job creation *)

Section CreationFacts.
Context (cenv : CreateEnv).


End CreationFacts.


Definition example_create_env : CreateEnv :=
  {| new_job_id := py "job-1";
     new_document_id := fun t => py "doc-" ++ DocumentType_value t;
     created_at := 0%N;
     storage_save := fun _ _ => None |}.

Definition empty_service : Service :=
  {| service_db := {| jobs := ∅; inconsistency_rows := [] |}; task_queue := [] |}.



(** ** The remaining rules of the engine *)

Section EngineRules.
Context {R : PyStrRuntime}.

Lemma razao_findings state reference_date cutoff :
  with_code (py "razao_social_mismatch") (engine_findings state reference_date cutoff)
  = check_razao_social (contrato_social state) (cartao_cnpj state)
      (certidao_negativa state).
Proof.
  unfold engine_findings. rewrite !with_code_app.
  rewrite (fun H => with_code_none _ _ _ H (check_cnpj_codes _ _ _)) by py_neq.
  rewrite (with_code_all _ _ (check_razao_social_codes _ _ _)).
  rewrite (fun H => with_code_none _ _ _ H (check_certificate_expired_codes _ _)) by py_neq.
  rewrite (fun H => with_code_none _ _ _ H (check_certidao_6_months_codes _ _)) by py_neq.
  rewrite (fun H => with_code_none _ _ _ H (check_cartao_6_months_codes _ _)) by py_neq.
  rewrite (fun H => with_code_none _ _ _ H (check_endereco_codes _ _)) by py_neq.
  rewrite (fun H => with_code_none _ _ _ H (check_socios_codes _ _)) by py_neq.
  by rewrite !app_nil_r.
Qed.

Lemma expired_findings state reference_date cutoff :
  with_code (py "certificate_expired") (engine_findings state reference_date cutoff)
  = check_certificate_expired (certidao_negativa state) reference_date.
Proof.
  unfold engine_findings. rewrite !with_code_app.
  rewrite (fun H => with_code_none _ _ _ H (check_cnpj_codes _ _ _)) by py_neq.
  rewrite (fun H => with_code_none _ _ _ H (check_razao_social_codes _ _ _)) by py_neq.
  rewrite (with_code_all _ _ (check_certificate_expired_codes _ _)).
  rewrite (fun H => with_code_none _ _ _ H (check_certidao_6_months_codes _ _)) by py_neq.
  rewrite (fun H => with_code_none _ _ _ H (check_cartao_6_months_codes _ _)) by py_neq.
  rewrite (fun H => with_code_none _ _ _ H (check_endereco_codes _ _)) by py_neq.
  rewrite (fun H => with_code_none _ _ _ H (check_socios_codes _ _)) by py_neq.
  by rewrite !app_nil_r.
Qed.

Lemma endereco_findings state reference_date cutoff :
  with_code (py "endereco_mismatch") (engine_findings state reference_date cutoff)
  = check_endereco (contrato_social state) (cartao_cnpj state).
Proof.
  unfold engine_findings. rewrite !with_code_app.
  rewrite (fun H => with_code_none _ _ _ H (check_cnpj_codes _ _ _)) by py_neq.
  rewrite (fun H => with_code_none _ _ _ H (check_razao_social_codes _ _ _)) by py_neq.
  rewrite (fun H => with_code_none _ _ _ H (check_certificate_expired_codes _ _)) by py_neq.
  rewrite (fun H => with_code_none _ _ _ H (check_certidao_6_months_codes _ _)) by py_neq.
  rewrite (fun H => with_code_none _ _ _ H (check_cartao_6_months_codes _ _)) by py_neq.
  rewrite (with_code_all _ _ (check_endereco_codes _ _)).
  rewrite (fun H => with_code_none _ _ _ H (check_socios_codes _ _)) by py_neq.
  by rewrite !app_nil_r.
Qed.

(** *** Comparing to the first entry finds every disagreement *)

Lemma compare_to_first_nil_iff mk (entries : list (str * str)) :
  compare_to_first mk entries = []
  <-> forall d1 v1 d2 v2, In (d1, v1) entries -> In (d2, v2) entries -> v1 = v2.
Proof.
  unfold compare_to_first.
  destruct entries as [|[ref_doc ref_v] rest].
  { split; [by intros _ ? ? ? ? []|done]. }
  destruct rest as [|e rest].
  { split; [|done]. intros _ d1 v1 d2 v2 [[= <- <-]|[]] [[= <- <-]|[]]. done. }
  cbn [length Nat.leb]. set (l := e :: rest). clearbody l. clear e rest.
  split.
  - intros Hnil.
    assert (Hall : forall d v, In (d, v) l -> v = ref_v).
    { intros d v Hin.
      destruct (decide (v = ref_v)) as [|Hne]; [done|].
      assert (In (mk ref_doc d ref_v v)
                (flat_map (fun '(doc, v) =>
                             if decide (v <> ref_v) then [mk ref_doc doc ref_v v]
                             else []) l)) as Hf.
      { apply in_flat_map. exists (d, v). split; [done|].
        destruct (decide (v <> ref_v)); [by left|done]. }
      by rewrite Hnil in Hf. }
    intros d1 v1 d2 v2 [[= <- <-]|H1] [[= <- <-]|H2].
    + done.
    + symmetry. by eapply Hall.
    + by eapply Hall.
    + rewrite (Hall _ _ H1), (Hall _ _ H2). done.
  - intros Hall. induction l as [|[d v] l IH]; [done|]. cbn [flat_map].
    destruct (decide (v <> ref_v)) as [Hne|_].
    + exfalso. apply Hne. eapply (Hall d v ref_doc ref_v); [right; by left|by left].
    + cbn [app]. apply IH. intros d1 v1 d2 v2 H1 H2.
      eapply (Hall d1 v1 d2 v2).
      * destruct H1 as [H1|H1]; [by left|right; by right].
      * destruct H2 as [H2|H2]; [by left|right; by right].
Qed.

Lemma compare_to_first_length mk (entries : list (str * str)) :
  (length (compare_to_first mk entries) <= length entries - 1)%nat.
Proof.
  unfold compare_to_first.
  destruct (2 <=? length entries)%nat; [|cbn; lia].
  destruct entries as [|[ref_doc ref_v] rest]; [cbn; lia|].
  cbn [length]. replace (S (length rest) - 1)%nat with (length rest) by lia.
  induction rest as [|[d v] rest IH]; [done|]. cbn [flat_map length].
  rewrite length_app. destruct (decide (v <> ref_v)); cbn [length]; lia.
Qed.

Lemma compare_to_first_In mk (entries : list (str * str)) f :
  In f (compare_to_first mk entries) ->
  exists ref_doc ref_v doc v rest,
    entries = (ref_doc, ref_v) :: rest /\ In (doc, v) rest /\ v <> ref_v
    /\ f = mk ref_doc doc ref_v v.
Proof.
  unfold compare_to_first.
  destruct (2 <=? length entries)%nat; [|done].
  destruct entries as [|[ref_doc ref_v] rest]; [done|].
  intros ([doc v] & Hin & Hf)%in_flat_map.
  destruct (decide (v <> ref_v)); [|done].
  destruct Hf as [<-|[]]. by eexists _, _, _, _, _.
Qed.

Lemma razoes_of_length contrato cartao certidao :
  (length (razoes_of contrato cartao certidao) <= 3)%nat.
Proof.
  unfold razoes_of. rewrite !length_app.
  destruct contrato as [c1|], cartao as [c2|], certidao as [c3|];
    repeat match goal with |- context [truthy ?x] => destruct (truthy x) end;
    cbn; lia.
Qed.

Lemma compare_to_first_complete mk ref_doc ref_v doc v (rest : list (str * str)) :
  In (doc, v) rest -> v <> ref_v ->
  In (mk ref_doc doc ref_v v) (compare_to_first mk ((ref_doc, ref_v) :: rest)).
Proof.
  intros Hin Hne. unfold compare_to_first.
  destruct rest as [|e rest]; [done|]. cbn [length Nat.leb].
  apply in_flat_map. exists (doc, v). split; [done|].
  destruct (decide (v <> ref_v)); [by left|done].
Qed.

(** The company name each document type states, in priority order ([None]
    for an absent document or an absent name) *)
Definition stated_names (state : CrossDocumentAnalyzerState)
    : list (DocumentType * option str) :=
  [ (CONTRATO_SOCIAL, contrato_social state ≫= Contrato.razao_social);
    (CARTAO_CNPJ, cartao_cnpj state ≫= Cartao.razao_social);
    (CERTIDAO_NEGATIVA, certidao_negativa state ≫= Certidao.razao_social) ].

(** The documents that state a company name, with the name as they state
    it *)
Definition company_names (state : CrossDocumentAnalyzerState)
    : list (DocumentType * str) :=
  omap (fun '(t, name) =>
          match name with
          | Some (c :: n) => Some (t, c :: n)
          | _ => None
          end)
       (stated_names state).

(** A stated name as the rule compares it *)
Definition compared (entry : DocumentType * str) : str * str :=
  (DocumentType_value entry.1, _normalize_text (Some entry.2)).

Lemma razoes_of_company_names (state : CrossDocumentAnalyzerState) :
  razoes_of (contrato_social state) (cartao_cnpj state) (certidao_negativa state)
  = map compared (company_names state).
Proof.
  unfold razoes_of, company_names, stated_names.
  destruct (contrato_social state) as [c1|], (cartao_cnpj state) as [c2|],
    (certidao_negativa state) as [c3|]; cbn [mbind option_bind];
    repeat match goal with
           | |- context [truthy (?f ?c)] =>
               destruct (f c) as [[|? ?]|]; cbn [truthy]
           end;
    reflexivity.
Qed.

(** X1. The company-name rule, over the documents that state a company
    name (one that is not empty), taken in the order CONTRATO_SOCIAL,
    CARTAO_CNPJ, CERTIDAO_NEGATIVA.  The [razao_social_mismatch] findings
    of the engine are empty exactly when all these documents agree on the
    name after [_normalize_text]; there are at most two of them; each is a
    BLOCKER on the field [razao_social] that pairs the first of these
    documents with a later one whose normalized name differs and carries
    the two normalized names; and every later document whose normalized
    name differs from the first one's has such a finding. *)
Theorem company_name_rule (today : date)
    (state state' : CrossDocumentAnalyzerState) :
  deterministic_checks_node today state = Return state' ->
  let found :=
    with_code (py "razao_social_mismatch") (default [] (inconsistencies state')) in
  let names := company_names state in
  (found = []
   <-> forall d1 n1 d2 n2, In (d1, n1) names -> In (d2, n2) names ->
         _normalize_text (Some n1) = _normalize_text (Some n2))
  /\ (length found <= 2)%nat
  /\ (forall f, In f found ->
        severity f = BLOCKER /\ field f = Some (py "razao_social")
        /\ exists ref_doc ref_name doc name rest,
             names = (ref_doc, ref_name) :: rest /\ In (doc, name) rest
             /\ _normalize_text (Some name) <> _normalize_text (Some ref_name)
             /\ documents f = [DocumentType_value ref_doc; DocumentType_value doc]
             /\ values f = [_normalize_text (Some ref_name);
                            _normalize_text (Some name)])
  /\ (forall ref_doc ref_name doc name rest,
        names = (ref_doc, ref_name) :: rest -> In (doc, name) rest ->
        _normalize_text (Some name) <> _normalize_text (Some ref_name) ->
        exists f, In f found
                  /\ documents f = [DocumentType_value ref_doc;
                                    DocumentType_value doc]).
Proof.
  intros H found names.
  destruct (node_inv _ _ _ H) as (cutoff & _ & Hinc).
  assert (Hfound : found = compare_to_first razao_social_mismatch
                             (map compared names)).
  { unfold found. rewrite Hinc. cbn [default from_option id].
    rewrite razao_findings. unfold check_razao_social.
    by rewrite razoes_of_company_names. }
  rewrite Hfound. split; [|split; [|split]].
  - rewrite compare_to_first_nil_iff. split.
    + intros Hall d1 n1 d2 n2 H1 H2.
      apply (Hall (DocumentType_value d1) _ (DocumentType_value d2) _).
      * apply in_map_iff. by exists (d1, n1).
      * apply in_map_iff. by exists (d2, n2).
    + intros Hall d1 v1 d2 v2 H1 H2.
      apply in_map_iff in H1 as ([t1 n1] & [= <- <-] & H1).
      apply in_map_iff in H2 as ([t2 n2] & [= <- <-] & H2).
      by apply (Hall t1 n1 t2 n2).
  - pose proof (compare_to_first_length razao_social_mismatch (map compared names))
      as Hl.
    pose proof (razoes_of_length (contrato_social state) (cartao_cnpj state)
                  (certidao_negativa state)) as Hn.
    rewrite razoes_of_company_names in Hn. fold names in Hn. lia.
  - intros f (ref_doc & ref_v & doc & v & rest & Hsplit & Hin & Hne & ->)%compare_to_first_In.
    destruct names as [|[rt rn] names']; [done|].
    cbn [map] in Hsplit. injection Hsplit as <- <- <-.
    apply in_map_iff in Hin as ([t n] & [= <- <-] & Hin).
    repeat split. by exists rt, rn, t, n, names'.
  - intros ref_doc ref_name doc name rest -> Hin Hne.
    exists (razao_social_mismatch (DocumentType_value ref_doc)
              (DocumentType_value doc) (_normalize_text (Some ref_name))
              (_normalize_text (Some name))).
    split; [|done]. cbn [map].
    apply compare_to_first_complete; [|done].
    apply in_map_iff. by exists (doc, name).
Qed.

(** X2. The certificate-expiry rule. The engine reports
    [certificate_expired] exactly when the certificate carries a validity
    date earlier than the reference date: then there is one such finding,
    a BLOCKER on [data_validade] of CERTIDAO_NEGATIVA that carries the
    date in ISO format.  A certificate valid through the reference date
    itself is not expired; one valid through the day before is. *)
Theorem certificate_expiry_rule (today : date)
    (state state' : CrossDocumentAnalyzerState) :
  deterministic_checks_node today state = Return state' ->
  let reference := default today (reference_date state) in
  let validity := certidao_negativa state ≫= Certidao.data_validade in
  let found :=
    with_code (py "certificate_expired") (default [] (inconsistencies state')) in
  match validity with
  | Some data_validade =>
      if date_ltb data_validade reference
      then exists f,
             found = [f] /\ severity f = BLOCKER
             /\ field f = Some (py "data_validade")
             /\ documents f = [py "CERTIDAO_NEGATIVA"]
             /\ values f = [date_str data_validade]
      else found = []
  | None => found = []
  end
  /\ (validity = Some reference -> found = [])
  /\ (forall eve, previous_day reference = Some eve ->
                  validity = Some eve -> length found = 1%nat).
Proof.
  intros H reference validity found.
  destruct (node_inv _ _ _ H) as (cutoff & _ & Hinc).
  assert (Hfound : found
                   = check_certificate_expired (certidao_negativa state) reference).
  { unfold found. rewrite Hinc. cbn [default from_option id].
    by rewrite expired_findings. }
  rewrite Hfound. unfold check_certificate_expired, validity.
  destruct (certidao_negativa state) as [c|]; cbn [mbind option_bind]; [|done].
  destruct (Certidao.data_validade c) as [v|]; [|done].
  split; [|split].
  - destruct (date_ltb v reference); [|done]. by eexists.
  - intros [= ->]. by rewrite date_ltb_irrefl.
  - intros eve He [= ->]. by rewrite (previous_day_earlier _ _ He).
Qed.

Lemma nonempty_iff (s : str) : nonempty s = true <-> s <> [].
Proof. destruct s; cbn; split; done. Qed.

Lemma check_endereco_shape contrato cartao :
  (length (check_endereco contrato cartao) <= 1)%nat
  /\ forall f, In f (check_endereco contrato cartao) ->
        severity f = WARN
        /\ documents f = [py "CONTRATO_SOCIAL"; py "CARTAO_CNPJ"].
Proof.
  unfold check_endereco.
  destruct contrato as [c|]; [|split; [cbn; lia|done]].
  destruct cartao as [k|]; [|split; [cbn; lia|done]].
  destruct (Contrato.sede c) as [sede|]; [|split; [cbn; lia|done]].
  destruct (Cartao.endereco_estabelecimento k) as [endereco|];
    [|split; [cbn; lia|done]].
  cbv zeta. destruct (_ && _); [|split; [cbn; lia|done]].
  destruct (_ || _); [|split; [cbn; lia|done]].
  split; [cbn; lia|]. by intros f [<-|[]].
Qed.

Lemma check_endereco_reported contrato cartao :
  check_endereco contrato cartao <> []
  <-> exists c k sede endereco,
        contrato = Some c /\ cartao = Some k
        /\ Contrato.sede c = Some sede
        /\ Cartao.endereco_estabelecimento k = Some endereco
        /\ _normalize_text (Contrato.cidade sede) <> []
        /\ _normalize_text (Cartao.municipio endereco) <> []
        /\ (_normalize_text (Contrato.cidade sede)
            <> _normalize_text (Cartao.municipio endereco)
            \/ _normalize_text (Contrato.uf sede)
               <> _normalize_text (Cartao.uf endereco)).
Proof.
  unfold check_endereco.
  destruct contrato as [c|].
  2:{ split; [done|]. by intros (? & ? & ? & ? & ? & _). }
  destruct cartao as [k|].
  2:{ split; [done|]. by intros (? & ? & ? & ? & _ & ? & _). }
  destruct (Contrato.sede c) as [sede|] eqn:Es.
  2:{ split; [done|]. intros (? & ? & ? & ? & [= <-] & _ & Hs & _). congruence. }
  destruct (Cartao.endereco_estabelecimento k) as [endereco|] eqn:Ee.
  2:{ split; [done|].
      intros (? & ? & ? & ? & _ & [= <-] & _ & He & _). congruence. }
  cbv zeta.
  set (cc := _normalize_text (Contrato.cidade sede)).
  set (uc := _normalize_text (Contrato.uf sede)).
  set (ck := _normalize_text (Cartao.municipio endereco)).
  set (uk := _normalize_text (Cartao.uf endereco)).
  assert (Hinv : forall P : Prop,
             (exists c' k' sede' endereco',
                Some c = Some c' /\ Some k = Some k'
                /\ Contrato.sede c' = Some sede'
                /\ Cartao.endereco_estabelecimento k' = Some endereco'
                /\ _normalize_text (Contrato.cidade sede') <> []
                /\ _normalize_text (Cartao.municipio endereco') <> []
                /\ (_normalize_text (Contrato.cidade sede')
                    <> _normalize_text (Cartao.municipio endereco')
                    \/ _normalize_text (Contrato.uf sede')
                       <> _normalize_text (Cartao.uf endereco'))) ->
             (cc <> [] -> ck <> [] -> cc <> ck \/ uc <> uk -> P) -> P).
  { intros P (c' & k' & sede' & endereco' & [= <-] & [= <-] & Hs & He & H1 & H2 & H3) HP.
    rewrite Es in Hs. rewrite Ee in He.
    injection Hs as <-. injection He as <-. by apply HP. }
  destruct (nonempty cc && nonempty ck) eqn:Ecity.
  - apply andb_true_iff in Ecity as [Hc1%nonempty_iff Hc2%nonempty_iff].
    destruct (bool_decide (cc <> ck) || bool_decide (uc <> uk)) eqn:Ediff.
    + split; [|done]. intros _. exists c, k, sede, endereco.
      repeat split; try done.
      apply orb_true_iff in Ediff as [Hd%bool_decide_eq_true|Hd%bool_decide_eq_true];
        [by left|by right].
    + split; [done|]. intros Hex. apply (Hinv _ Hex). intros _ _ Hd.
      apply orb_false_iff in Ediff
        as [Hd1%bool_decide_eq_false Hd2%bool_decide_eq_false].
      tauto.
  - split; [done|]. intros Hex. apply (Hinv _ Hex).
    intros Hc1%nonempty_iff Hc2%nonempty_iff _.
    by rewrite Hc1, Hc2 in Ecity.
Qed.

(** X3. The address rule. The engine reports [endereco_mismatch] at most
    once, always as a WARN about CONTRATO_SOCIAL and CARTAO_CNPJ, and
    exactly when both documents carry an address whose city is not empty
    after [_normalize_text] and the normalized cities or the normalized
    states differ; an address without a city is never compared. *)
Theorem address_rule (today : date) (state state' : CrossDocumentAnalyzerState) :
  deterministic_checks_node today state = Return state' ->
  let found :=
    with_code (py "endereco_mismatch") (default [] (inconsistencies state')) in
  (length found <= 1)%nat
  /\ (forall f, In f found ->
        severity f = WARN
        /\ documents f = [py "CONTRATO_SOCIAL"; py "CARTAO_CNPJ"])
  /\ (found <> []
      <-> exists contrato cartao sede endereco,
            contrato_social state = Some contrato
            /\ cartao_cnpj state = Some cartao
            /\ Contrato.sede contrato = Some sede
            /\ Cartao.endereco_estabelecimento cartao = Some endereco
            /\ _normalize_text (Contrato.cidade sede) <> []
            /\ _normalize_text (Cartao.municipio endereco) <> []
            /\ (_normalize_text (Contrato.cidade sede)
                <> _normalize_text (Cartao.municipio endereco)
                \/ _normalize_text (Contrato.uf sede)
                   <> _normalize_text (Cartao.uf endereco))).
Proof.
  intros H found.
  destruct (node_inv _ _ _ H) as (cutoff & _ & Hinc).
  assert (Hfound : found
                   = check_endereco (contrato_social state) (cartao_cnpj state)).
  { unfold found. rewrite Hinc. cbn [default from_option id].
    by rewrite endereco_findings. }
  rewrite Hfound.
  destruct (check_endereco_shape (contrato_social state) (cartao_cnpj state))
    as [Hlen Hall].
  split; [exact Hlen|]. split; [exact Hall|]. apply check_endereco_reported.
Qed.

(** *** What every finding looks like *)

Definition finding_codes : list str :=
  [ py "cnpj_mismatch"; py "razao_social_mismatch"; py "certificate_expired";
    py "document_older_than_6_months"; py "endereco_mismatch";
    py "socio_cpf_mismatch" ].

Definition names_document_type (d : str) : Prop :=
  exists t, d = DocumentType_value t.

Definition well_formed (f : Inconsistency) : Prop :=
  In (code f) finding_codes
  /\ documents f <> []
  /\ Forall names_document_type (documents f)
  /\ length (values f) = length (documents f)
  /\ is_Some (field f)
  /\ (severity f = WARN
      <-> code f = py "endereco_mismatch"
          \/ (code f = py "document_older_than_6_months"
              /\ documents f = [py "CARTAO_CNPJ"])).

Lemma names_contrato : names_document_type (py "CONTRATO_SOCIAL").
Proof. by exists CONTRATO_SOCIAL. Qed.

Lemma names_cartao : names_document_type (py "CARTAO_CNPJ").
Proof. by exists CARTAO_CNPJ. Qed.

Lemma names_certidao : names_document_type (py "CERTIDAO_NEGATIVA").
Proof. by exists CERTIDAO_NEGATIVA. Qed.

Lemma blocker_not_warn (c : str) (docs : list str) :
  c <> py "endereco_mismatch" ->
  (c <> py "document_older_than_6_months" \/ docs <> [py "CARTAO_CNPJ"]) ->
  BLOCKER = WARN
  <-> c = py "endereco_mismatch"
      \/ (c = py "document_older_than_6_months" /\ docs = [py "CARTAO_CNPJ"]).
Proof.
  intros H1 H2. split; [done|].
  intros [Hc|[Hc Hd]]; [by destruct H1|]. by destruct H2 as [H2|H2]; destruct H2.
Qed.

Lemma cnpjs_of_names contrato cartao certidao :
  Forall (fun e => names_document_type (fst e)) (cnpjs_of contrato cartao certidao).
Proof.
  unfold cnpjs_of. repeat apply Forall_app_2;
    [destruct contrato as [c|]|destruct cartao as [c|]|destruct certidao as [c|]];
    try constructor;
    destruct (truthy _); repeat constructor;
    [apply names_contrato|apply names_cartao|apply names_certidao].
Qed.

Lemma razoes_of_names contrato cartao certidao :
  Forall (fun e => names_document_type (fst e)) (razoes_of contrato cartao certidao).
Proof.
  unfold razoes_of. repeat apply Forall_app_2;
    [destruct contrato as [c|]|destruct cartao as [c|]|destruct certidao as [c|]];
    try constructor;
    destruct (truthy _); repeat constructor;
    [apply names_contrato|apply names_cartao|apply names_certidao].
Qed.

Lemma compare_to_first_well_formed mk (entries : list (str * str)) :
  Forall (fun e => names_document_type (fst e)) entries ->
  (forall ref_doc doc ref_v v,
     names_document_type ref_doc -> names_document_type doc ->
     well_formed (mk ref_doc doc ref_v v)) ->
  Forall well_formed (compare_to_first mk entries).
Proof.
  intros Hn Hmk. apply List.Forall_forall. intros f Hf.
  apply compare_to_first_In in Hf
    as (ref_doc & ref_v & doc & v & rest & -> & Hin & _ & ->).
  apply Forall_cons in Hn as [Href Hrest].
  apply Hmk; [exact Href|].
  rewrite List.Forall_forall in Hrest. exact (Hrest _ Hin).
Qed.

Lemma check_cnpj_well_formed contrato cartao certidao :
  Forall well_formed (check_cnpj contrato cartao certidao).
Proof.
  apply compare_to_first_well_formed; [apply cnpjs_of_names|].
  intros ref_doc doc ref_v v Hr Hd. unfold well_formed.
  cbn [cnpj_mismatch code severity documents values field].
  split; [by left|]. split; [done|].
  split; [constructor; [exact Hr|]; constructor; [exact Hd|constructor]|].
  split; [done|]. split; [by eexists|].
  apply blocker_not_warn; [py_neq|left; py_neq].
Qed.

Lemma check_razao_social_well_formed contrato cartao certidao :
  Forall well_formed (check_razao_social contrato cartao certidao).
Proof.
  apply compare_to_first_well_formed; [apply razoes_of_names|].
  intros ref_doc doc ref_v v Hr Hd. unfold well_formed.
  cbn [razao_social_mismatch code severity documents values field].
  split; [right; by left|]. split; [done|].
  split; [constructor; [exact Hr|]; constructor; [exact Hd|constructor]|].
  split; [done|]. split; [by eexists|].
  apply blocker_not_warn; [py_neq|left; py_neq].
Qed.

Lemma check_certificate_expired_well_formed certidao reference_date :
  Forall well_formed (check_certificate_expired certidao reference_date).
Proof.
  unfold check_certificate_expired.
  destruct certidao as [c|]; [|constructor].
  destruct (Certidao.data_validade c); [|constructor].
  destruct (date_ltb _ _); [|constructor].
  constructor; [|constructor]. unfold well_formed.
  cbn [code severity documents values field].
  split; [do 2 right; by left|]. split; [done|].
  split; [constructor; [apply names_certidao|constructor]|].
  split; [done|]. split; [by eexists|].
  apply blocker_not_warn; [py_neq|left; py_neq].
Qed.

Lemma check_certidao_6_months_well_formed certidao six_months_ago :
  Forall well_formed (check_certidao_6_months certidao six_months_ago).
Proof.
  unfold check_certidao_6_months.
  destruct certidao as [c|]; [|constructor].
  destruct (Certidao.data_emissao c); [|constructor].
  destruct (date_ltb _ _); [|constructor].
  constructor; [|constructor]. unfold well_formed.
  cbn [code severity documents values field].
  split; [do 3 right; by left|]. split; [done|].
  split; [constructor; [apply names_certidao|constructor]|].
  split; [done|]. split; [by eexists|].
  apply blocker_not_warn; [py_neq|right; py_neq].
Qed.

Lemma check_cartao_6_months_well_formed cartao six_months_ago :
  Forall well_formed (check_cartao_6_months cartao six_months_ago).
Proof.
  unfold check_cartao_6_months.
  destruct cartao as [c|]; [|constructor].
  destruct (Cartao.data_situacao_cadastral c); [|constructor].
  destruct (date_ltb _ _); [|constructor].
  constructor; [|constructor]. unfold well_formed.
  cbn [code severity documents values field].
  split; [do 3 right; by left|]. split; [done|].
  split; [constructor; [apply names_cartao|constructor]|].
  split; [done|]. split; [by eexists|].
  split; [|done]. intros _. by right.
Qed.

Lemma check_endereco_well_formed contrato cartao :
  Forall well_formed (check_endereco contrato cartao).
Proof.
  unfold check_endereco.
  destruct contrato as [c|]; [|constructor].
  destruct cartao as [k|]; [|constructor].
  destruct (Contrato.sede c); [|constructor].
  destruct (Cartao.endereco_estabelecimento k); [|constructor].
  cbv zeta. destruct (_ && _); [|constructor].
  destruct (_ || _); [|constructor].
  constructor; [|constructor]. unfold well_formed.
  cbn [code severity documents values field].
  split; [do 4 right; by left|]. split; [done|].
  split; [constructor; [apply names_contrato|];
          constructor; [apply names_cartao|constructor]|].
  split; [done|]. split; [by eexists|].
  split; [|done]. intros _. by left.
Qed.

Lemma check_socios_well_formed contrato cartao :
  Forall well_formed (check_socios contrato cartao).
Proof.
  unfold check_socios.
  destruct contrato as [c|]; [|constructor].
  destruct cartao as [k|]; [|constructor].
  destruct (Contrato.socios c) as [|s0 ss]; [constructor|].
  destruct (Cartao.qsa k) as [|q0 qs]; [constructor|].
  apply List.Forall_forall. intros f Hf.
  apply in_flat_map in Hf as ([n1 c1] & _ & Hf).
  apply in_flat_map in Hf as ([n2 c2] & _ & Hf).
  destruct (decide (n1 = n2)); [|done].
  destruct (decide (c1 <> c2)); [|done].
  destruct Hf as [<-|[]]. unfold well_formed.
  cbn [socio_cpf_mismatch code severity documents values field].
  split; [do 5 right; by left|]. split; [done|].
  split; [constructor; [apply names_contrato|];
          constructor; [apply names_cartao|constructor]|].
  split; [done|]. split; [by eexists|].
  apply blocker_not_warn; [py_neq|left; py_neq].
Qed.

(** X4. Every finding the engine returns carries one of the six codes, a
    field, at least one document, each named by the value of a document
    type, and one value per document; and it is a WARN exactly when it is
    an [endereco_mismatch] or the [document_older_than_6_months] of the
    CARTAO_CNPJ, a BLOCKER otherwise. *)
Theorem findings_well_formed (today : date)
    (state state' : CrossDocumentAnalyzerState) :
  deterministic_checks_node today state = Return state' ->
  exists findings,
    inconsistencies state' = Some findings
    /\ Forall well_formed findings.
Proof.
  intros H. destruct (node_inv _ _ _ H) as (cutoff & _ & Hinc).
  eexists. split; [exact Hinc|]. unfold engine_findings.
  repeat apply Forall_app_2.
  - apply check_cnpj_well_formed.
  - apply check_razao_social_well_formed.
  - apply check_certificate_expired_well_formed.
  - apply check_certidao_6_months_well_formed.
  - apply check_cartao_6_months_well_formed.
  - apply check_endereco_well_formed.
  - apply check_socios_well_formed.
Qed.

End EngineRules.

(** Three documents of one company: the names differ in case, spacing and,
    on the certificate, an accent; the cities differ in an accent; the
    certificate was valid through the day before the reference date. *)
Definition registry_example : CrossDocumentAnalyzerState :=
  {| contrato_social :=
       Some {| Contrato.razao_social := Some (py "ACME  Comércio LTDA");
               Contrato.cnpj := None;
               Contrato.sede := Some {| Contrato.cidade := Some (py "São Paulo");
                                        Contrato.uf := Some (py "SP") |};
               Contrato.socios := [] |};
     cartao_cnpj :=
       Some {| Cartao.cnpj := None;
               Cartao.razao_social := Some (py "acme comércio ltda");
               Cartao.data_situacao_cadastral := None;
               Cartao.endereco_estabelecimento :=
                 Some {| Cartao.municipio := Some (py "SAO PAULO");
                         Cartao.uf := Some (py "sp") |};
               Cartao.qsa := [] |};
     certidao_negativa :=
       Some {| Certidao.cnpj := None;
               Certidao.razao_social := Some (py "Acme Comercio Ltda");
               Certidao.data_emissao := None;
               Certidao.data_validade := Some (mkdate 2025 6 14) |};
     reference_date := Some (mkdate 2025 6 15);
     inconsistencies := None;
     decision := None;
     confidence := None;
     summary := None;
     result := None |}.

Example registry_example_findings :
  map (fun f => (code f, severity f, values f))
      (default [] (inconsistencies (run_node registry_example)))
  = [ (py "razao_social_mismatch", BLOCKER,
       [py "acme comércio ltda"; py "acme comercio ltda"]);
      (py "certificate_expired", BLOCKER, [py "2025-06-14"]);
      (py "endereco_mismatch", WARN, [py "são paulo/sp"; py "sao paulo/sp"]) ].
Proof. vm_compute. reflexivity. Qed.

Lemma company_name_rule_witness :
  let found :=
    with_code (py "razao_social_mismatch")
      (default [] (inconsistencies (run_node registry_example))) in
  let names := company_names registry_example in
  (found = []
   <-> forall d1 n1 d2 n2, In (d1, n1) names -> In (d2, n2) names ->
         _normalize_text (R := latin1) (Some n1) = _normalize_text (Some n2))
  /\ (length found <= 2)%nat
  /\ (forall f, In f found ->
        severity f = BLOCKER /\ field f = Some (py "razao_social")
        /\ exists ref_doc ref_name doc name rest,
             names = (ref_doc, ref_name) :: rest /\ In (doc, name) rest
             /\ _normalize_text (R := latin1) (Some name)
                <> _normalize_text (Some ref_name)
             /\ documents f = [DocumentType_value ref_doc; DocumentType_value doc]
             /\ values f = [_normalize_text (R := latin1) (Some ref_name);
                            _normalize_text (Some name)])
  /\ (forall ref_doc ref_name doc name rest,
        names = (ref_doc, ref_name) :: rest -> In (doc, name) rest ->
        _normalize_text (R := latin1) (Some name)
        <> _normalize_text (Some ref_name) ->
        exists f, In f found
                  /\ documents f = [DocumentType_value ref_doc;
                                    DocumentType_value doc]).
Proof.
  apply (company_name_rule (R := latin1) (mkdate 2025 6 15) registry_example
           (run_node registry_example)).
  vm_compute; reflexivity.
Defined.

Lemma certificate_expiry_rule_witness :
  let reference := default (mkdate 2025 6 15) (reference_date registry_example) in
  let validity := certidao_negativa registry_example ≫= Certidao.data_validade in
  let found :=
    with_code (py "certificate_expired")
      (default [] (inconsistencies (run_node registry_example))) in
  match validity with
  | Some data_validade =>
      if date_ltb data_validade reference
      then exists f,
             found = [f] /\ severity f = BLOCKER
             /\ field f = Some (py "data_validade")
             /\ documents f = [py "CERTIDAO_NEGATIVA"]
             /\ values f = [date_str data_validade]
      else found = []
  | None => found = []
  end
  /\ (validity = Some reference -> found = [])
  /\ (forall eve, previous_day reference = Some eve ->
                  validity = Some eve -> length found = 1%nat).
Proof.
  apply (certificate_expiry_rule (R := latin1) (mkdate 2025 6 15) registry_example
           (run_node registry_example)).
  vm_compute; reflexivity.
Defined.

Lemma address_rule_witness :
  let found :=
    with_code (py "endereco_mismatch")
      (default [] (inconsistencies (run_node registry_example))) in
  (length found <= 1)%nat
  /\ (forall f, In f found ->
        severity f = WARN
        /\ documents f = [py "CONTRATO_SOCIAL"; py "CARTAO_CNPJ"])
  /\ (found <> []
      <-> exists contrato cartao sede endereco,
            contrato_social registry_example = Some contrato
            /\ cartao_cnpj registry_example = Some cartao
            /\ Contrato.sede contrato = Some sede
            /\ Cartao.endereco_estabelecimento cartao = Some endereco
            /\ _normalize_text (R := latin1) (Contrato.cidade sede) <> []
            /\ _normalize_text (R := latin1) (Cartao.municipio endereco) <> []
            /\ (_normalize_text (R := latin1) (Contrato.cidade sede)
                <> _normalize_text (R := latin1) (Cartao.municipio endereco)
                \/ _normalize_text (R := latin1) (Contrato.uf sede)
                   <> _normalize_text (R := latin1) (Cartao.uf endereco))).
Proof.
  apply (address_rule (R := latin1) (mkdate 2025 6 15) registry_example
           (run_node registry_example)).
  vm_compute; reflexivity.
Defined.

Lemma findings_well_formed_witness :
  exists findings,
    inconsistencies (run_node registry_example) = Some findings
    /\ Forall well_formed findings.
Proof.
  apply (findings_well_formed (R := latin1) (mkdate 2025 6 15) registry_example
           (run_node registry_example)).
  vm_compute; reflexivity.
Defined.

(** ** The cross-document analysis as a whole *)

Section AnalyzerFacts.
Context {R : PyStrRuntime} (env : Env).

(** The state [analyze_documents] starts the graph from *)
Definition initial_state
    (contrato_social : option (DataOrResult Contrato.ContratoSocialData))
    (cartao_cnpj : option (DataOrResult Cartao.CartaoCNPJData))
    (certidao_negativa : option (DataOrResult Certidao.CertidaoNegativaFederalData))
    (reference_date : option date) : CrossDocumentAnalyzerState :=
  {| contrato_social := unwrap contrato_social;
     cartao_cnpj := unwrap cartao_cnpj;
     certidao_negativa := unwrap certidao_negativa;
     reference_date := Some (default (today env) reference_date);
     inconsistencies := None;
     decision := None;
     confidence := None;
     summary := None;
     result := None |}.

Lemma make_decision_confidence (state : CrossDocumentAnalyzerState) :
  exists c,
    confidence (make_decision_node state) = Some c
    /\ PrimFloat.leb 0 c = true /\ PrimFloat.leb c 1 = true.
Proof.
  eexists. split; [reflexivity|].
  eapply clamp_unit, confidence_not_nan, docs_available_le.
Qed.

Lemma build_result_returns (state : CrossDocumentAnalyzerState) (c : float) :
  confidence state = Some c ->
  PrimFloat.leb 0 c = true -> PrimFloat.leb c 1 = true ->
  exists c',
    build_result_node state
    = Return (set_result state
                {| res_decision := default REPROVADO (decision state);
                   res_inconsistencies := default [] (inconsistencies state);
                   res_summary := default [] (summary state);
                   res_confidence := c' |})
    /\ PrimFloat.leb 0 c' = true /\ PrimFloat.leb c' 1 = true.
Proof.
  intros Hc H0 H1. unfold build_result_node. rewrite Hc.
  destruct (PrimFloat.eqb c 0).
  - exists 0%float. by repeat split.
  - exists c. rewrite H0, H1. by repeat split.
Qed.

(** What [analyze_documents] does, case by case *)
Lemma analyze_documents_cases contrato cartao certidao given :
  let state := initial_state contrato cartao certidao given in
  let reference := default (today env) given in
  match minus_relativedelta_months reference 6 with
  | Raise e =>
      analyze_documents env contrato cartao certidao given
      = Raise (LLMServiceError
                 (Some (py "Failed to invoke LLM for cross-document analysis"))
                 (Some e) None)
  | Return cutoff =>
      let findings := engine_findings state reference cutoff in
      match llm_content env (make_decision_node (set_inconsistencies state findings)) with
      | Fails cls message =>
          analyze_documents env contrato cartao certidao given
          = Raise (LLMServiceError
                     (Some (py "Failed to invoke LLM for cross-document analysis"))
                     (Some (OtherError cls message)) None)
      | Returns content =>
          exists c,
            analyze_documents env contrato cartao certidao given
            = Return {| res_decision :=
                          if has_blocker findings then REPROVADO else APROVADO;
                        res_inconsistencies := findings;
                        res_summary :=
                          if truthy content then strip (default [] content) else [];
                        res_confidence := c |}
            /\ PrimFloat.leb 0 c = true /\ PrimFloat.leb c 1 = true
      end
  end.
Proof.
  intros state reference.
  unfold analyze_documents. fold (initial_state contrato cartao certidao given).
  fold state.
  destruct (minus_relativedelta_months reference 6) as [cutoff|e] eqn:E.
  2:{ unfold deterministic_checks_node.
      change (default (today env) (reference_date state)) with reference.
      by rewrite E. }
  rewrite (node_returns (today env) state cutoff E).
  change (default (today env) (reference_date state)) with reference.
  cbn zeta. set (findings := engine_findings state reference cutoff).
  cbn [mbind PyResult_bind]. unfold generate_summary_node.
  destruct (llm_content env (make_decision_node (set_inconsistencies state findings)))
    as [content|cls message]; [|done].
  cbn [of_foreign mbind PyResult_bind mret PyResult_ret].
  destruct (make_decision_confidence (set_inconsistencies state findings))
    as (c & Hc & H0 & H1).
  destruct (build_result_returns
              (set_summary (make_decision_node (set_inconsistencies state findings))
                 (if truthy content then strip (default [] content) else []))
              c Hc H0 H1) as (c' & -> & H0' & H1').
  exists c'. by repeat split.
Qed.

(** X5. When the summary LLM answers and six months before the reference
    date is still a date, [analyze_documents] returns a result: its findings
    are those of the deterministic checks, its decision is REPROVADO exactly
    when one of them is a BLOCKER and APROVADO otherwise, its confidence lies
    between 0.0 and 1.0, so that building the result never fails validation,
    and its summary is the stripped answer of the LLM. *)
Theorem analyze_documents_returns contrato cartao certidao given :
  let state := initial_state contrato cartao certidao given in
  let reference := default (today env) given in
  valid_date reference = true ->
  2 <= year reference \/ 7 <= month reference ->
  (forall st, exists content, llm_content env st = Returns content) ->
  exists analysis_result cutoff content,
    analyze_documents env contrato cartao certidao given = Return analysis_result
    /\ minus_relativedelta_months reference 6 = Return cutoff
    /\ res_inconsistencies analysis_result = engine_findings state reference cutoff
    /\ (res_decision analysis_result = REPROVADO
        <-> exists f, In f (res_inconsistencies analysis_result)
                      /\ severity f = BLOCKER)
    /\ (res_decision analysis_result = APROVADO
        <-> forall f, In f (res_inconsistencies analysis_result) -> severity f = WARN)
    /\ PrimFloat.leb 0 (res_confidence analysis_result) = true
    /\ PrimFloat.leb (res_confidence analysis_result) 1 = true
    /\ llm_content env
         (make_decision_node
            (set_inconsistencies state (res_inconsistencies analysis_result)))
       = Returns content
    /\ res_summary analysis_result
       = if truthy content then strip (default [] content) else [].
Proof.
  intros state reference Hv Hr Hllm.
  destruct (minus_six_months reference Hv Hr) as (cutoff & Hcut & _).
  pose proof (analyze_documents_cases contrato cartao certidao given) as H.
  cbv zeta in H. fold reference state in H. rewrite Hcut in H.
  destruct (Hllm (make_decision_node
                    (set_inconsistencies state
                       (engine_findings state reference cutoff))))
    as [content Hcontent].
  rewrite Hcontent in H. destruct H as (c & -> & H0 & H1).
  eexists _, cutoff, content. split; [reflexivity|]. split; [done|].
  cbn [res_inconsistencies res_decision res_confidence res_summary].
  split; [done|].
  pose proof (has_blocker_spec (engine_findings state reference cutoff)) as Hb.
  split; [|split].
  - rewrite <- Hb. by destruct (has_blocker _).
  - destruct (has_blocker _) eqn:E.
    + split; [done|]. intros Hall.
      destruct (proj1 Hb eq_refl) as (f & Hin & Hf).
      apply Hall in Hin. congruence.
    + split; [|done]. intros _ f Hin.
      destruct (severity f) eqn:Es; [|done].
      assert (false = true) as Hc; [|done].
      apply Hb. by exists f.
  - by repeat split.
Qed.

Lemma LLMServiceError_given (message : str) (cause : PyExc) :
  message <> [] ->
  LLMServiceError (Some message) (Some cause) None
  = ApplicationError (py "LLMServiceError") (py "llm_service_error") message
      (<[py "original_error_type" := JStr (exc_cls cause)]>
         (<[py "original_error" := JStr (exc_str cause)]>
            (<[py "service_name" := JStr (py "LLM")]> ∅))).
Proof.
  intros Hm. unfold LLMServiceError. cbv zeta.
  destruct message as [|c m]; [done|].
  assert (Hs : set_if (py "service_name") (Some (py "LLM")) (default ∅ None)
               = <[py "service_name" := JStr (py "LLM")]> (∅ : gmap str json))
    by (vm_compute; reflexivity).
  by rewrite Hs.
Qed.

(** X6. Whatever makes [analyze_documents] fail, the caller sees an
    [LLMServiceError] with the code [llm_service_error] and the same
    message, whose details name the LLM as the service and give the class
    and the text of the exception underneath: that of the LLM call, or
    the [ValueError] of [date.replace] that names the year it refused,
    [year 0 is out of range] for a reference date of the calendar, when
    six months before the reference date is no date.  It never raises
    [LLMExtractionError], the graph always building a result. *)
Theorem analyze_documents_failure contrato cartao certidao given (e : PyExc) :
  analyze_documents env contrato cartao certidao given = Raise e ->
  exists details cause,
    e = ApplicationError (py "LLMServiceError") (py "llm_service_error")
          (py "Failed to invoke LLM for cross-document analysis") details
    /\ details !! py "service_name" = Some (JStr (py "LLM"))
    /\ details !! py "original_error_type" = Some (JStr (exc_cls cause))
    /\ details !! py "original_error" = Some (JStr (exc_str cause))
    /\ ((exists y,
           cause = ValueError (py "year " ++ int_str y ++ py " is out of range")
           /\ (valid_date (default (today env) given) = true ->
               y = 0 /\ cause = ValueError (py "year 0 is out of range")))
        \/ exists st cls message,
             llm_content env st = Fails cls message
             /\ cause = OtherError cls message).
Proof.
  intros He.
  pose proof (analyze_documents_cases contrato cartao certidao given) as H.
  cbv zeta in H.
  assert (Hm : py "Failed to invoke LLM for cross-document analysis" <> [])
    by py_neq.
  assert (Hd : forall cause,
             exists details,
               LLMServiceError
                 (Some (py "Failed to invoke LLM for cross-document analysis"))
                 (Some cause) None
               = ApplicationError (py "LLMServiceError") (py "llm_service_error")
                   (py "Failed to invoke LLM for cross-document analysis") details
               /\ details !! py "service_name" = Some (JStr (py "LLM"))
               /\ details !! py "original_error_type" = Some (JStr (exc_cls cause))
               /\ details !! py "original_error" = Some (JStr (exc_str cause))).
  { intros cause. eexists. split; [exact (LLMServiceError_given _ cause Hm)|].
    split; [|split].
    - rewrite !lookup_insert_ne by py_neq. apply lookup_insert_eq.
    - apply lookup_insert_eq.
    - rewrite lookup_insert_ne by py_neq. apply lookup_insert_eq. }
  destruct (minus_relativedelta_months (default (today env) given) 6)
    as [cutoff|e'] eqn:E.
  - destruct (llm_content env _) as [content|cls message] eqn:El.
    + destruct H as (c & H & _). congruence.
    + rewrite H in He. injection He as <-.
      destruct (Hd (OtherError cls message)) as (details & H0 & H1 & H2 & H3).
      exists details, (OtherError cls message).
      repeat split; [exact H0|exact H1|exact H2|exact H3|].
      right. by eexists _, _, _.
  - rewrite H in He. injection He as <-.
    assert (exists y,
               e' = ValueError (py "year " ++ int_str y ++ py " is out of range")
               /\ (valid_date (default (today env) given) = true -> y = 0))
      as (y & -> & Hy).
    { unfold minus_relativedelta_months in E.
      destruct (12 <? month (default (today env) given) + - (6)) eqn:E1;
        [|destruct (month (default (today env) given) + - (6) <? 1) eqn:E2];
        cbv beta iota zeta in E;
        match type of E with
        | (if ?b then _ else _) = _ => destruct b eqn:E3
        end; try discriminate E; injection E as <-;
        (eexists; split; [reflexivity|]); intros Hv;
        unfold valid_date in Hv;
        rewrite !andb_true_iff, !Z.leb_le in Hv;
        apply andb_false_iff in E3; rewrite !Z.leb_gt in E3;
        repeat match goal with
               | H : (_ <? _) = true |- _ => apply Z.ltb_lt in H
               | H : (_ <? _) = false |- _ => apply Z.ltb_ge in H
               end; lia. }
    destruct (Hd (ValueError (py "year " ++ int_str y ++ py " is out of range")))
      as (details & H0 & H1 & H2 & H3).
    exists details,
      (ValueError (py "year " ++ int_str y ++ py " is out of range")).
    repeat split; [exact H0|exact H1|exact H2|exact H3|]. left.
    exists y. split; [done|]. intros Hv. by rewrite (Hy Hv).
Qed.

Lemma analyze_documents_decision contrato cartao certidao given
    (analysis_result : CrossDocumentAnalysisResult) :
  analyze_documents env contrato cartao certidao given = Return analysis_result ->
  res_decision analysis_result
  = if has_blocker (res_inconsistencies analysis_result)
    then REPROVADO else APROVADO.
Proof.
  intros Hret.
  pose proof (analyze_documents_cases contrato cartao certidao given) as H.
  cbv zeta in H.
  destruct (minus_relativedelta_months (default (today env) given) 6)
    as [cutoff|e]; [|congruence].
  destruct (llm_content env _) as [content|cls message]; [|congruence].
  destruct H as (c & H & _). rewrite H in Hret. by injection Hret as <-.
Qed.

Lemma engine_findings_sparse (state : CrossDocumentAnalyzerState)
    (reference cutoff : date) :
  certidao_negativa state = None ->
  contrato_social state = None \/ cartao_cnpj state = None ->
  engine_findings state reference cutoff
  = check_cartao_6_months (cartao_cnpj state) cutoff.
Proof.
  intros Hcert Hone. unfold engine_findings. rewrite Hcert.
  assert (Hcmp : forall mk (e : list (str * str)),
             (length e <= 1)%nat -> compare_to_first mk e = []).
  { intros mk [|x [|y e]] Hl; [done..|cbn in Hl; lia]. }
  destruct Hone as [-> | ->].
  - unfold check_cnpj, check_razao_social, cnpjs_of, razoes_of.
    rewrite !Hcmp.
    + by rewrite !app_nil_r.
    + destruct (cartao_cnpj state) as [c|]; [destruct (truthy _)|]; cbn; lia.
    + destruct (cartao_cnpj state) as [c|]; [destruct (truthy _)|]; cbn; lia.
  - unfold check_cnpj, check_razao_social, cnpjs_of, razoes_of.
    rewrite !Hcmp.
    + cbn. by destruct (contrato_social state).
    + destruct (contrato_social state) as [c|]; [destruct (truthy _)|]; cbn; lia.
    + destruct (contrato_social state) as [c|]; [destruct (truthy _)|]; cbn; lia.
Qed.

(** X7. A submission without the certificate and without one of the other
    two documents is never rejected: when [analyze_documents] returns for
    it, the decision is APROVADO, and the only finding there can be is the
    WARN that the registration card's status date is older than six
    months; with no registration card there is no finding at all. *)
Theorem sparse_submission_approved contrato cartao given
    (analysis_result : CrossDocumentAnalysisResult) :
  contrato = None \/ cartao = None ->
  analyze_documents env contrato cartao None given = Return analysis_result ->
  res_decision analysis_result = APROVADO
  /\ (length (res_inconsistencies analysis_result) <= 1)%nat
  /\ (forall f, In f (res_inconsistencies analysis_result) ->
        code f = py "document_older_than_6_months" /\ severity f = WARN
        /\ documents f = [py "CARTAO_CNPJ"])
  /\ (cartao = None -> res_inconsistencies analysis_result = []).
Proof.
  intros Hone Hret.
  pose proof (analyze_documents_cases contrato cartao None given) as H.
  cbv zeta in H.
  destruct (minus_relativedelta_months (default (today env) given) 6)
    as [cutoff|e]; [|congruence].
  rewrite engine_findings_sparse in H;
    [|done|destruct Hone as [-> | ->]; [by left|by right]].
  cbn [initial_state cartao_cnpj] in H.
  destruct (llm_content env _) as [content|cls message]; [|congruence].
  destruct H as (c & H & _). rewrite H in Hret. injection Hret as <-.
  cbn [res_decision res_inconsistencies].
  assert (Hshape : forall f,
             In f (check_cartao_6_months (unwrap cartao) cutoff) ->
             code f = py "document_older_than_6_months" /\ severity f = WARN
             /\ documents f = [py "CARTAO_CNPJ"]).
  { unfold check_cartao_6_months. destruct (unwrap cartao) as [k|]; [|done].
    destruct (Cartao.data_situacao_cadastral k); [|done].
    destruct (date_ltb _ _); [|done]. by intros f [<-|[]]. }
  split; [|split; [|split]].
  - destruct (has_blocker _) eqn:E; [|done].
    apply has_blocker_spec in E as (f & Hin & Hf).
    apply Hshape in Hin as (_ & Hw & _). congruence.
  - unfold check_cartao_6_months. destruct (unwrap cartao) as [k|]; [|cbn; lia].
    destruct (Cartao.data_situacao_cadastral k); [|cbn; lia].
    destruct (date_ltb _ _); cbn; lia.
  - exact Hshape.
  - by intros ->.
Qed.

End AnalyzerFacts.

(** *** A job with one document, and its collaborators *)

Definition example_document : Doc.Document :=
  {| Doc.id := py "doc-1";
     Doc.job_id := py "job-1";
     Doc.document_type := CONTRATO_SOCIAL;
     Doc.filename := py "contrato.pdf";
     Doc.content_type := py "application/pdf";
     Doc.object_key := py "job-1/CONTRATO_SOCIAL/contrato.pdf";
     Doc.extracted_text := None;
     Doc.extracted_data := None;
     Doc.updated_at := 0%N |}.

Definition example_job : Job.AnalysisJob :=
  {| Job.id := py "job-1";
     Job.company_name := Some (py "Acme Ltda");
     Job.status := PENDING;
     Job.decision := None;
     Job.error_message := None;
     Job.error_details := None;
     Job.finished_at := None;
     Job.updated_at := 0%N;
     Job.documents := [example_document] |}.

Definition example_db : Database :=
  {| jobs := {[ py "job-1" := example_job ]}; inconsistency_rows := [] |}.

(** Collaborators that all answer, but for the PDF reader and the
    database, which are given. *)
Definition example_env (pdf : Foreign str)
    (commit_error : Job.AnalysisJob -> option (str * str)) : Env :=
  {| clock := fun n => (100 + n)%N;
     today := mkdate 2025 6 15;
     pymupdf_text := fun _ => pdf;
     pymupdf_file_not_found := fun _ => false;
     contrato_graph := fun _ =>
       Returns (Some {| data := contrato_with articles_fernanda;
                        extraction_confidence := 1%float |});
     cartao_graph := fun _ => Returns None;
     certidao_graph := fun _ => Returns None;
     llm_content := fun _ => Returns (Some (py "Documentos consistentes."));
     local_path := fun object_key => Returns (py "/data/" ++ object_key);
     commit_error := commit_error |}.

Definition readable : Foreign str :=
  Returns (py "CONTRATO SOCIAL DE SOCIEDADE LIMITADA - Fernanda Lima Oliveira").

(** PyMuPDF's own exception for a file that is not there *)
Definition unreadable : Foreign str :=
  Fails (py "FileNotFoundError") (py "no such file").

Definition database_up : Job.AnalysisJob -> option (str * str) := fun _ => None.

Definition database_down : Job.AnalysisJob -> option (str * str) :=
  fun _ => Some (py "OperationalError", py "connection lost").

Lemma analyze_documents_returns_witness :
  let env := example_env readable database_up in
  let contrato := Some (BareData (contrato_with articles_fernanda)) in
  let cartao := Some (BareData (cartao_with card_fernanda)) in
  let state := initial_state env contrato cartao None None in
  let reference := default (today env) None in
  exists analysis_result cutoff content,
    analyze_documents (R := latin1) env contrato cartao None None
    = Return analysis_result
    /\ minus_relativedelta_months reference 6 = Return cutoff
    /\ res_inconsistencies analysis_result
       = engine_findings (R := latin1) state reference cutoff
    /\ (res_decision analysis_result = REPROVADO
        <-> exists f, In f (res_inconsistencies analysis_result)
                      /\ severity f = BLOCKER)
    /\ (res_decision analysis_result = APROVADO
        <-> forall f, In f (res_inconsistencies analysis_result) -> severity f = WARN)
    /\ PrimFloat.leb 0 (res_confidence analysis_result) = true
    /\ PrimFloat.leb (res_confidence analysis_result) 1 = true
    /\ llm_content env
         (make_decision_node
            (set_inconsistencies state (res_inconsistencies analysis_result)))
       = Returns content
    /\ res_summary analysis_result
       = if truthy content then strip (R := latin1) (default [] content) else [].
Proof.
  intros env contrato cartao state reference.
  apply (analyze_documents_returns (R := latin1) env contrato cartao None None).
  - vm_compute; reflexivity.
  - left. vm_compute. congruence.
  - intros st. eexists. reflexivity.
Defined.

(** A reference date in the first half of year 1 *)
Lemma analyze_documents_failure_witness :
  let env := example_env readable database_up in
  let given := Some (mkdate 1 3 10) in
  let e :=
    LLMServiceError (Some (py "Failed to invoke LLM for cross-document analysis"))
      (Some (ValueError (py "year 0 is out of range"))) None in
  exists details cause,
    e = ApplicationError (py "LLMServiceError") (py "llm_service_error")
          (py "Failed to invoke LLM for cross-document analysis") details
    /\ details !! py "service_name" = Some (JStr (py "LLM"))
    /\ details !! py "original_error_type" = Some (JStr (exc_cls cause))
    /\ details !! py "original_error" = Some (JStr (exc_str cause))
    /\ ((exists y,
           cause = ValueError (py "year " ++ int_str y ++ py " is out of range")
           /\ (valid_date (default (today env) given) = true ->
               y = 0 /\ cause = ValueError (py "year 0 is out of range")))
        \/ exists st cls message,
             llm_content env st = Fails cls message
             /\ cause = OtherError cls message).
Proof.
  intros env given e.
  apply (analyze_documents_failure (R := latin1) env None None None given e).
  vm_compute; reflexivity.
Defined.

Lemma sparse_submission_approved_witness :
  let env := example_env readable database_up in
  let contrato := Some (BareData (contrato_with articles_fernanda)) in
  let analysis_result :=
    match analyze_documents (R := latin1) env contrato None None None with
    | Return r => r
    | Raise _ =>
        {| res_decision := REPROVADO; res_inconsistencies := [];
           res_summary := []; res_confidence := 0%float |}
    end in
  res_decision analysis_result = APROVADO
  /\ (length (res_inconsistencies analysis_result) <= 1)%nat
  /\ (forall f, In f (res_inconsistencies analysis_result) ->
        code f = py "document_older_than_6_months" /\ severity f = WARN
        /\ documents f = [py "CARTAO_CNPJ"])
  /\ (@None (DataOrResult Cartao.CartaoCNPJData) = None ->
      res_inconsistencies analysis_result = []).
Proof.
  intros env contrato analysis_result.
  apply (sparse_submission_approved (R := latin1) env contrato None None
           analysis_result).
  - by right.
  - vm_compute; reflexivity.
Defined.

(** ** The analysis run *)

(** The session [handle] starts from once the job is loaded *)
Definition loaded (db : Database) (analysis_job : Job.AnalysisJob) : Session :=
  {| database := db;
     analysis_job := analysis_job;
     added := [];
     now_calls := 0;
     observed := [analysis_job] |}.

(** [error_code] of [_mark_job_failed]: the declared code of an
    [ApplicationError], the class name of any other exception *)
Definition declared_code (error : PyExc) : str :=
  match error with
  | ApplicationError _ code _ _ => code
  | OtherError cls _ => cls
  end.

(** Details with no ["error_code"] or ["error_type"] entry of their own,
    which would replace those [_mark_job_failed] writes *)
Definition unreserved (details : gmap str json) : Prop :=
  details !! py "error_code" = None /\ details !! py "error_type" = None.

Definition plain (e : PyExc) : Prop :=
  match e with
  | ApplicationError _ _ _ details => unreserved details
  | OtherError _ _ => True
  end.

Definition plain_result {A} (r : PyResult A) : Prop :=
  match r with
  | Raise e => plain e
  | Return _ => True
  end.

(** The columns of a job the status rules speak of *)
Definition core (j : Job.AnalysisJob) :=
  (Job.id j, Job.status j, Job.decision j, Job.error_message j,
   Job.error_details j).

(** [s'] differs from [s] at most in the clock and in the columns of the
    job outside [core] (its documents and time stamps) *)
Definition undisturbed (s s' : Session) : Prop :=
  core (analysis_job s') = core (analysis_job s)
  /\ database s' = database s
  /\ added s' = added s
  /\ observed s' = observed s.

(** A step that leaves the session undisturbed and raises plain exceptions
    only *)
Definition quiet {A} (m : M A) : Prop :=
  forall s, undisturbed s (m s).1 /\ plain_result (m s).2.

(** The status transitions the specification allows *)
Definition transition (a b : AnalysisStatus) : bool :=
  match a, b with
  | PENDING, RUNNING | RUNNING, SUCCEEDED | RUNNING, FAILED => true
  | _, _ => false
  end.

Fixpoint monotonic (l : list AnalysisStatus) : bool :=
  match l with
  | a :: l' =>
      match l' with
      | b :: _ => transition a b && monotonic l'
      | [] => true
      end
  | [] => true
  end.

(** [decision] is present iff the status is SUCCEEDED, the error fields
    are present iff it is FAILED *)
Definition consistent (j : Job.AnalysisJob) : bool :=
  eqb (is_some (Job.decision j)) (bool_decide (Job.status j = SUCCEEDED))
  && eqb (is_some (Job.error_message j)) (bool_decide (Job.status j = FAILED))
  && eqb (is_some (Job.error_details j)) (bool_decide (Job.status j = FAILED)).

Lemma unreserved_empty : unreserved ∅.
Proof. split; apply lookup_empty. Qed.

Lemma unreserved_insert key value details :
  key <> py "error_code" -> key <> py "error_type" ->
  unreserved details -> unreserved (<[key := value]> details).
Proof. intros H1 H2 [Hc Ht]. split; by rewrite lookup_insert_ne. Qed.

Lemma unreserved_set_if key value details :
  key <> py "error_code" -> key <> py "error_type" ->
  unreserved details -> unreserved (set_if key value details).
Proof.
  intros H1 H2 Hd. destruct value as [[|c v]|]; cbn [set_if]; [done| |done].
  by apply unreserved_insert.
Qed.

Lemma unreserved_set_original_error original_error details :
  unreserved details -> unreserved (set_original_error original_error details).
Proof.
  intros Hd. destruct original_error as [e|]; cbn [set_original_error]; [|done].
  apply unreserved_insert; [py_neq..|]. by apply unreserved_insert; [py_neq..|].
Qed.

Lemma plain_LLMServiceError message original_error :
  plain (LLMServiceError message original_error None).
Proof.
  unfold plain, LLMServiceError; cbv zeta.
  apply unreserved_set_original_error, unreserved_set_if; [py_neq..|].
  apply unreserved_empty.
Qed.

Lemma plain_LLMExtractionError message extractor_name document_type :
  plain (LLMExtractionError message extractor_name document_type None).
Proof.
  unfold plain, LLMExtractionError; cbv zeta.
  do 2 (apply unreserved_set_if; [py_neq..|]). apply unreserved_empty.
Qed.

Lemma plain_PDFExtractionError message file_path original_error :
  plain (PDFExtractionError message file_path original_error None).
Proof.
  unfold plain, PDFExtractionError; cbv zeta.
  apply unreserved_set_original_error, unreserved_set_if; [py_neq..|].
  apply unreserved_empty.
Qed.

Lemma plain_of_foreign {A} (r : Foreign A) : plain_result (of_foreign r).
Proof. by destruct r. Qed.

Section UseCaseFacts.
Context {R : PyStrRuntime} (env : Env).

Lemma plain_extract_text_from_pdf pdf_path use_ocr_fallback :
  plain_result (extract_text_from_pdf env pdf_path use_ocr_fallback).
Proof.
  unfold extract_text_from_pdf. destruct (pymupdf_text env pdf_path).
  - by destruct (_ && _).
  - destruct (pymupdf_file_not_found env pdf_path);
      apply plain_PDFExtractionError.
Qed.

Lemma plain_run_extractor {D} (graph : Foreign (option (ExtractionResult D)))
    service_message extraction_message extractor_name document_type :
  plain_result (run_extractor graph service_message extraction_message
                  extractor_name document_type).
Proof.
  destruct graph as [[r|]|]; unfold run_extractor, plain_result.
  - done.
  - apply plain_LLMExtractionError.
  - apply plain_LLMServiceError.
Qed.

Lemma plain_analyze_documents contrato_social cartao_cnpj certidao_negativa
    reference_date :
  plain_result (analyze_documents env contrato_social cartao_cnpj
                  certidao_negativa reference_date).
Proof.
  unfold analyze_documents.
  destruct (_ ≫= _) as [final_state|e].
  - destruct (result final_state); [done|]. apply plain_LLMExtractionError.
  - exact (plain_LLMServiceError _ _).
Qed.

Lemma bind_unfold {A B} (m : M A) (k : A -> M B) s :
  (m ≫= k) s
  = match m s with
    | (s', Return a) => k a s'
    | (s', Raise e) => (s', Raise e)
    end.
Proof. reflexivity. Qed.

Lemma undisturbed_refl s : undisturbed s s.
Proof. by repeat split. Qed.

Lemma undisturbed_trans s1 s2 s3 :
  undisturbed s1 s2 -> undisturbed s2 s3 -> undisturbed s1 s3.
Proof.
  intros (H1 & H2 & H3 & H4) (H1' & H2' & H3' & H4').
  repeat split; congruence.
Qed.

Lemma quiet_ret {A} (a : A) : quiet (mret a).
Proof. intros s. split; [apply undisturbed_refl|done]. Qed.

Lemma quiet_bind {A B} (m : M A) (k : A -> M B) :
  quiet m -> (forall a, quiet (k a)) -> quiet (m ≫= k).
Proof.
  intros Hm Hk s. rewrite bind_unfold.
  destruct (Hm s) as [Hu Hp].
  destruct (m s) as [s' [a|e]]; cbn [fst snd] in *.
  - destruct (Hk a s') as [Hu' Hp'].
    split; [by eapply undisturbed_trans|done].
  - done.
Qed.

Lemma quiet_lift {A} (r : PyResult A) : plain_result r -> quiet (lift r).
Proof. intros Hr s. split; [apply undisturbed_refl|done]. Qed.

Lemma quiet_now : quiet (now env).
Proof. by intros s. Qed.

Lemma quiet_get_job : quiet get_job.
Proof. by intros s. Qed.

Lemma quiet_update_document i f : quiet (update_document i f).
Proof. by intros s. Qed.

Lemma quiet_extract_document_data i document extracted_text :
  quiet (_extract_document_data env i document extracted_text).
Proof.
  unfold _extract_document_data.
  destruct (Doc.document_type document);
    (apply quiet_bind; [apply quiet_lift, plain_run_extractor|]; intros r;
     apply quiet_bind; [apply quiet_update_document|]; intros _;
     apply quiet_ret).
Qed.

Lemma quiet_process_document i document :
  quiet (_process_document env i document).
Proof.
  unfold _process_document.
  apply quiet_bind; [apply quiet_lift, plain_of_foreign|]; intros file_path.
  apply quiet_bind; [apply quiet_lift, plain_extract_text_from_pdf|].
  intros extracted_text.
  apply quiet_bind; [apply quiet_update_document|]; intros _.
  apply quiet_bind; [apply quiet_extract_document_data|]; intros r.
  apply quiet_bind; [apply quiet_now|]; intros t.
  apply quiet_bind; [apply quiet_update_document|]; intros _.
  apply quiet_ret.
Qed.

Lemma quiet_process_documents_from documents :
  forall i extraction_results,
    quiet (process_documents_from env i documents extraction_results).
Proof.
  induction documents as [|document rest IH]; intros i extraction_results; simpl.
  - apply quiet_ret.
  - apply quiet_bind; [apply quiet_process_document|]. intros r. apply IH.
Qed.

Lemma quiet_process_all_documents : quiet (_process_all_documents env).
Proof.
  unfold _process_all_documents.
  apply quiet_bind; [apply quiet_get_job|]. intros j.
  apply quiet_process_documents_from.
Qed.

Lemma quiet_run_cross_document_analysis extraction_results :
  quiet (_run_cross_document_analysis env extraction_results).
Proof. apply quiet_lift, plain_analyze_documents. Qed.

(** *** The assignments of the three status changes *)

(** The job at the commit of [_mark_job_running] *)
Definition running_job (s : Session) : Job.AnalysisJob :=
  set_updated_at (clock env (now_calls s)) (set_status RUNNING (analysis_job s)).

(** The job at the commit of [_mark_job_succeeded] *)
Definition succeeded_job (analysis_result : CrossDocumentAnalysisResult)
    (s : Session) : Job.AnalysisJob :=
  set_updated_at (clock env (N.succ (now_calls s)))
    (set_finished_at (Some (clock env (now_calls s)))
       (set_status SUCCEEDED
          (set_job_decision (Some (res_decision analysis_result))
             (analysis_job s)))).

(** The job at the commit of [_mark_job_failed] *)
Definition failed_job (error : PyExc) (s : Session) : Job.AnalysisJob :=
  set_updated_at (clock env (N.succ (now_calls s)))
    (set_finished_at (Some (clock env (now_calls s)))
       (set_error_details
          (Some (match error with
                 | ApplicationError _ _ _ details => details
                 | OtherError _ _ => ∅
                 end ∪
                 <[py "error_type" := JStr (exc_cls error)]>
                   (<[py "error_code" := JStr (declared_code error)]> ∅)))
          (set_error_message (Some (exc_str error))
             (set_status FAILED (analysis_job s))))).

Definition with_job (j : Job.AnalysisJob) (calls : N) (s : Session) : Session :=
  {| database := database s;
     analysis_job := j;
     added := added s;
     now_calls := calls;
     observed := observed s |}.

Definition with_added (rows : list Inc.AnalysisInconsistency) (s : Session)
    : Session :=
  {| database := database s;
     analysis_job := analysis_job s;
     added := rows;
     now_calls := now_calls s;
     observed := observed s |}.

(** The session after a commit the database accepts *)
Definition committed (s : Session) : Session :=
  {| database :=
       {| jobs := <[Job.id (analysis_job s) := analysis_job s]> (jobs (database s));
          inconsistency_rows := inconsistency_rows (database s) ++ added s |};
     analysis_job := analysis_job s;
     added := [];
     now_calls := now_calls s;
     observed := observed s ++ [analysis_job s] |}.

(** The session after a commit the database refuses *)
Definition refused (s : Session) : Session :=
  {| database := database s;
     analysis_job := analysis_job s;
     added := added s;
     now_calls := now_calls s;
     observed := observed s ++ [analysis_job s] |}.

Definition before_running (s : Session) : Session :=
  with_job (running_job s) (N.succ (now_calls s)) s.

Definition before_succeeded (analysis_result : CrossDocumentAnalysisResult)
    (s : Session) : Session :=
  with_job (succeeded_job analysis_result s) (N.succ (N.succ (now_calls s))) s.

Definition before_failed (error : PyExc) (s : Session) : Session :=
  with_job (failed_job error s) (N.succ (N.succ (now_calls s))) s.

(** The dicts [handle] returns *)
Definition succeeded_report (job_id : uuid) (d : AnalysisDecision) : gmap str json :=
  <[py "job_id" := JStr job_id]>
    (<[py "status" := JStr (py "SUCCEEDED")]>
       (<[py "decision" := JStr (AnalysisDecision_value d)]> ∅)).

Definition failed_report (job_id : uuid) (error : PyExc) : gmap str json :=
  <[py "job_id" := JStr job_id]>
    (<[py "status" := JStr (py "FAILED")]>
       (<[py "error" := JStr (exc_str error)]> ∅)).

(** The row [_persist_inconsistencies] adds for a finding *)
Definition inconsistency_row (job_id : uuid) (extraction_results : ExtractionResults)
    (inc : Inconsistency) : Inc.AnalysisInconsistency :=
  {| Inc.job_id := job_id;
     Inc.document_id :=
       match documents inc with
       | doc_type_str :: _ => document_id_of extraction_results doc_type_str
       | [] => None
       end;
     Inc.code := code inc;
     Inc.severity := severity inc;
     Inc.message := message inc;
     Inc.pointers := {| Inc.field := field inc;
                        Inc.documents := documents inc;
                        Inc.values := values inc |} |}.

(** The arguments [_run_cross_document_analysis] passes on *)
Definition analysis_of (extraction_results : ExtractionResults)
    : PyResult CrossDocumentAnalysisResult :=
  analyze_documents env
    (option_map (fun e => Extracted (fst e)) (contrato_entry extraction_results))
    (option_map (fun e => Extracted (fst e)) (cartao_entry extraction_results))
    (option_map (fun e => Extracted (fst e)) (certidao_entry extraction_results))
    None.

Lemma commit_cases s :
  commit env s
  = match commit_error env (analysis_job s) with
    | Some (cls, message) => (refused s, Raise (OtherError cls message))
    | None => (committed s, Return tt)
    end.
Proof.
  unfold commit. by destruct (commit_error env (analysis_job s)) as [[cls message]|].
Qed.

Lemma mark_job_running_unfold s :
  _mark_job_running env s = commit env (before_running s).
Proof. reflexivity. Qed.

Lemma mark_job_succeeded_unfold analysis_result s :
  _mark_job_succeeded env analysis_result s
  = match commit_error env (succeeded_job analysis_result s) with
    | Some (cls, message) =>
        (refused (before_succeeded analysis_result s), Raise (OtherError cls message))
    | None =>
        (committed (before_succeeded analysis_result s),
         Return (succeeded_report (Job.id (analysis_job s))
                   (res_decision analysis_result)))
    end.
Proof.
  change (_mark_job_succeeded env analysis_result s)
    with (match commit env (before_succeeded analysis_result s) with
          | (s', Return _) =>
              (s', Return
                     (<[py "job_id" := JStr (Job.id (analysis_job s'))]>
                      (<[py "status" :=
                           JStr (AnalysisStatus_value (Job.status (analysis_job s')))]>
                       (<[py "decision" :=
                            match Job.decision (analysis_job s') with
                            | Some d => JStr (AnalysisDecision_value d)
                            | None => JNull
                            end]> (∅ : gmap str json)))))
          | (s', Raise e) => (s', Raise e)
          end).
  rewrite commit_cases. cbn [before_succeeded with_job analysis_job].
  by destruct (commit_error env (succeeded_job analysis_result s))
    as [[cls message]|].
Qed.

Lemma mark_job_failed_unfold error s :
  _mark_job_failed env error s
  = match commit_error env (failed_job error s) with
    | Some (cls, message) =>
        (refused (before_failed error s), Raise (OtherError cls message))
    | None =>
        (committed (before_failed error s),
         Return (failed_report (Job.id (analysis_job s)) error))
    end.
Proof.
  transitivity
    (match commit env (before_failed error s) with
     | (s', Return _) =>
         (s', Return
                (<[py "job_id" := JStr (Job.id (analysis_job s'))]>
                 (<[py "status" :=
                      JStr (AnalysisStatus_value (Job.status (analysis_job s')))]>
                  (<[py "error" := JStr (exc_str error)]> (∅ : gmap str json)))))
     | (s', Raise e) => (s', Raise e)
     end).
  { by destruct error. }
  rewrite commit_cases. cbn [before_failed with_job analysis_job].
  by destruct (commit_error env (failed_job error s)) as [[cls message]|].
Qed.

Lemma persist_each_adds job_id extraction_results l :
  forall s,
    persist_each job_id l extraction_results s
    = (with_added (added s ++ map (inconsistency_row job_id extraction_results) l) s,
       Return tt).
Proof.
  induction l as [|inc rest IH]; intros s.
  - destruct s. unfold with_added. cbn. by rewrite app_nil_r.
  - cbn [persist_each]. rewrite bind_unfold. cbn [session_add].
    rewrite IH. unfold with_added. cbn. by rewrite <- app_assoc.
Qed.

Lemma persist_inconsistencies_adds analysis_result extraction_results s :
  _persist_inconsistencies analysis_result extraction_results s
  = (with_added
       (added s ++ map (inconsistency_row (Job.id (analysis_job s)) extraction_results)
                       (res_inconsistencies analysis_result)) s,
     Return tt).
Proof. apply persist_each_adds. Qed.

(** *** The ways the body of the [try] can end *)

Inductive TryOutcome (s0 s : Session) (r : PyResult (gmap str json)) : Prop :=
| running_refused (cls message : str) :
    commit_error env (running_job s0) = Some (cls, message) ->
    s = refused (before_running s0) ->
    r = Raise (OtherError cls message) ->
    TryOutcome s0 s r
| analysis_raised (e : PyExc) :
    commit_error env (running_job s0) = None ->
    undisturbed (committed (before_running s0)) s ->
    plain e ->
    r = Raise e ->
    TryOutcome s0 s r
| success_attempted (extraction_results : ExtractionResults)
    (analysis_result : CrossDocumentAnalysisResult) (s2 : Session) :
    commit_error env (running_job s0) = None ->
    undisturbed (committed (before_running s0)) s2 ->
    _process_all_documents env (committed (before_running s0))
    = (s2, Return extraction_results) ->
    analysis_of extraction_results = Return analysis_result ->
    (s, r)
    = _mark_job_succeeded env analysis_result
        (with_added
           (added s2 ++ map (inconsistency_row (Job.id (analysis_job s2))
                               extraction_results)
                            (res_inconsistencies analysis_result)) s2) ->
    TryOutcome s0 s r.

Lemma handle_try_outcome s0 :
  TryOutcome s0 (handle_try env s0).1 (handle_try env s0).2.
Proof.
  unfold handle_try. rewrite bind_unfold, mark_job_running_unfold, commit_cases.
  change (analysis_job (before_running s0)) with (running_job s0).
  destruct (commit_error env (running_job s0)) as [[cls message]|] eqn:E1.
  { by eapply running_refused. }
  rewrite bind_unfold.
  destruct (quiet_process_all_documents (committed (before_running s0)))
    as [Hu2 Hp2].
  destruct (_process_all_documents env (committed (before_running s0)))
    as [s2 [extraction_results|e2]] eqn:E2; cbn [fst snd] in *.
  2:{ by eapply analysis_raised. }
  rewrite bind_unfold.
  pose proof (plain_analyze_documents
                (option_map (fun e => Extracted (fst e))
                   (contrato_entry extraction_results))
                (option_map (fun e => Extracted (fst e))
                   (cartao_entry extraction_results))
                (option_map (fun e => Extracted (fst e))
                   (certidao_entry extraction_results)) None) as Hp3.
  unfold _run_cross_document_analysis, lift. cbv zeta.
  fold (analysis_of extraction_results) in Hp3 |- *.
  destruct (analysis_of extraction_results) as [analysis_result|e3] eqn:E3.
  2:{ by eapply analysis_raised. }
  rewrite bind_unfold, persist_inconsistencies_adds.
  eapply success_attempted; [done..|].
  by destruct (_mark_job_succeeded _ _ _).
Qed.

Lemma try_outcome_plain s0 s r : TryOutcome s0 s r -> plain_result r.
Proof.
  intros [cls message _ _ ->|e _ _ Hp ->|er ar s2 _ _ _ _ Hm]; [done..|].
  rewrite mark_job_succeeded_unfold in Hm.
  destruct (commit_error env _) as [[cls message]|]; by injection Hm as -> ->.
Qed.

Lemma try_outcome_id s0 s r :
  TryOutcome s0 s r -> Job.id (analysis_job s) = Job.id (analysis_job s0).
Proof.
  intros [cls message _ -> _|e _ (Hc & _) _ _|er ar s2 _ (Hc & _) _ _ Hm].
  - done.
  - by injection Hc.
  - rewrite mark_job_succeeded_unfold in Hm.
    destruct (commit_error env _) as [[cls message]|]; injection Hm as -> _;
      cbn; by injection Hc.
Qed.

Lemma handle_found db job_id job :
  jobs db !! job_id = Some job ->
  handle env db job_id
  = let '(s, r) := try_except (handle_try env) (_mark_job_failed env)
                     (loaded db job) in
    (database s, observed s, r).
Proof. intros H. unfold handle, _load_analysis_job. by rewrite H. Qed.

Lemma error_details_recorded error :
  plain error ->
  let details :=
    match error with
    | ApplicationError _ _ _ details => details
    | OtherError _ _ => ∅
    end ∪
    <[py "error_type" := JStr (exc_cls error)]>
      (<[py "error_code" := JStr (declared_code error)]> ∅) in
  details !! py "error_code" = Some (JStr (declared_code error))
  /\ details !! py "error_type" = Some (JStr (exc_cls error)).
Proof.
  intros Hp details.
  assert (Hu : unreserved match error with
                          | ApplicationError _ _ _ details => details
                          | OtherError _ _ => ∅
                          end).
  { destruct error; [exact Hp|apply unreserved_empty]. }
  destruct Hu as [Hc Ht]. unfold details. split.
  - rewrite lookup_union_r by done.
    rewrite lookup_insert_ne by py_neq. apply lookup_insert_eq.
  - rewrite lookup_union_r by done. apply lookup_insert_eq.
Qed.

(** X8. [handle] on an id no job has: [AnalysisJobNotFoundError] reaches
    the caller, with the code [analysis_job_not_found], the default message
    and, in its details, the resource type and the id asked for; no row is
    changed and nothing is committed. *)
Theorem handle_job_not_found (db : Database) (job_id : uuid) :
  jobs db !! job_id = None ->
  job_id <> [] ->
  exists details,
    handle env db job_id
    = (db, [],
       Raise (ApplicationError (py "AnalysisJobNotFoundError")
                (py "analysis_job_not_found") (py "Analysis job not found")
                details))
    /\ details !! py "resource_type" = Some (JStr (py "AnalysisJob"))
    /\ details !! py "resource_id" = Some (JStr job_id).
Proof.
  intros Hn Hne. unfold handle, _load_analysis_job. rewrite Hn.
  eexists. split; [reflexivity|].
  destruct job_id as [|c job_id]; [done|]. cbn [set_if].
  split.
  - rewrite lookup_insert_ne by py_neq. apply lookup_insert_eq.
  - apply lookup_insert_eq.
Qed.

(** X9. Every exception the body of the [try] raises, from the RUNNING
    transition onward, is recorded when the commit of the FAILED job goes
    through: the call returns the failure report instead of raising, and
    the stored job is FAILED, with the exception's text as error message,
    error details whose error code is the exception's declared code when
    it is an [ApplicationError] and its class name otherwise, and
    [finished_at] set. *)
Theorem handle_records_failure (db : Database) (job_id : uuid)
    (job : Job.AnalysisJob) (s : Session) (e : PyExc) :
  jobs db !! job_id = Some job ->
  Job.id job = job_id ->
  handle_try env (loaded db job) = (s, Raise e) ->
  (forall j, Job.status j = FAILED -> commit_error env j = None) ->
  exists db' obs failed details,
    handle env db job_id = (db', obs, Return (failed_report job_id e))
    /\ jobs db' !! job_id = Some failed
    /\ Job.status failed = FAILED
    /\ Job.error_message failed = Some (exc_str e)
    /\ Job.error_details failed = Some details
    /\ details !! py "error_code" = Some (JStr (declared_code e))
    /\ details !! py "error_type" = Some (JStr (exc_cls e))
    /\ is_Some (Job.finished_at failed).
Proof.
  intros Hjob Hid Htry Hcommit.
  pose proof (handle_try_outcome (loaded db job)) as Ht.
  rewrite Htry in Ht. cbn [fst snd] in Ht.
  pose proof (try_outcome_plain _ _ _ Ht) as Hp.
  apply try_outcome_id in Ht. cbn [loaded analysis_job] in Ht.
  rewrite (handle_found _ _ _ Hjob). unfold try_except. rewrite Htry.
  rewrite mark_job_failed_unfold, (Hcommit (failed_job e s) eq_refl).
  assert (Hidf : Job.id (failed_job e s) = job_id) by (by rewrite <- Hid, <- Ht).
  exists (database (committed (before_failed e s))),
         (observed (committed (before_failed e s))), (failed_job e s).
  eexists. split; [by rewrite Ht, Hid|].
  split; [cbn [committed database jobs before_failed with_job analysis_job];
          by rewrite Hidf, lookup_insert_eq|].
  split; [done|]. split; [done|]. split; [reflexivity|].
  destruct (error_details_recorded e Hp) as [Hc Hty].
  split; [exact Hc|]. split; [exact Hty|]. by eexists.
Qed.

(** X10. The failure handler does not guard its own commit: when the
    commit of the FAILED job raises, that exception reaches the caller,
    and the stored job is the one last committed, as loaded or RUNNING,
    not FAILED. *)
Theorem handle_failure_commit_refused (db : Database) (job_id : uuid)
    (job : Job.AnalysisJob) (s : Session) (e : PyExc) (cls message : str) :
  jobs db !! job_id = Some job ->
  Job.id job = job_id ->
  handle_try env (loaded db job) = (s, Raise e) ->
  commit_error env (failed_job e s) = Some (cls, message) ->
  (handle env db job_id).2 = Raise (OtherError cls message)
  /\ exists stored,
       jobs (handle env db job_id).1.1 !! job_id = Some stored
       /\ Job.decision stored = Job.decision job
       /\ Job.error_message stored = Job.error_message job
       /\ Job.error_details stored = Job.error_details job
       /\ (Job.status stored = Job.status job \/ Job.status stored = RUNNING).
Proof.
  intros Hjob Hid Htry Hcommit.
  pose proof (handle_try_outcome (loaded db job)) as Ht.
  rewrite Htry in Ht. cbn [fst snd] in Ht.
  rewrite (handle_found _ _ _ Hjob). unfold try_except. rewrite Htry.
  rewrite mark_job_failed_unfold, Hcommit. cbn [fst snd refused database].
  split; [done|].
  change (database (before_failed e s)) with (database s).
  destruct Ht as [cls' message' _ -> _|e' _ (_ & Hd & _) _ _|er ar s2 _ (_ & Hd & _) _ _ Hm].
  - exists job. cbn. rewrite Hjob. tauto.
  - rewrite Hd. exists (running_job (loaded db job)).
    cbn [committed database jobs before_running with_job analysis_job].
    change (Job.id (running_job (loaded db job))) with (Job.id job).
    rewrite Hid, lookup_insert_eq. cbn. tauto.
  - rewrite mark_job_succeeded_unfold in Hm.
    destruct (commit_error env (succeeded_job _ _)) as [[cls' message']|]; [|done].
    injection Hm as -> _. cbn [refused database before_succeeded with_job with_added].
    rewrite Hd. exists (running_job (loaded db job)).
    cbn [committed database jobs before_running with_job analysis_job].
    change (Job.id (running_job (loaded db job))) with (Job.id job).
    rewrite Hid, lookup_insert_eq. cbn. tauto.
Qed.

Lemma succeeded_job_with_added analysis_result rows s :
  succeeded_job analysis_result (with_added rows s) = succeeded_job analysis_result s.
Proof. reflexivity. Qed.

Lemma try_outcome_raised s0 s e :
  TryOutcome s0 s (Raise e) ->
  (forall j, Job.status j = SUCCEEDED -> commit_error env j = None) ->
  core (analysis_job s) = core (running_job s0)
  /\ observed s = observed s0 ++ [running_job s0]
  /\ (jobs (database s) = jobs (database s0)
      \/ jobs (database s)
         = <[Job.id (running_job s0) := running_job s0]> (jobs (database s0))).
Proof.
  intros [cls message _ -> _|e' _ (Hc & Hd & _ & Ho) _ _|er ar s2 _ _ _ _ Hm] Hok.
  - split; [done|]. split; [done|]. by left.
  - split; [exact Hc|]. split; [exact Ho|]. right. by rewrite Hd.
  - rewrite mark_job_succeeded_unfold, (Hok (succeeded_job _ _) eq_refl) in Hm.
    done.
Qed.

Lemma try_outcome_returned s0 s d :
  TryOutcome s0 s (Return d) ->
  exists extraction_results analysis_result s2,
    commit_error env (running_job s0) = None
    /\ undisturbed (committed (before_running s0)) s2
    /\ _process_all_documents env (committed (before_running s0))
       = (s2, Return extraction_results)
    /\ analysis_of extraction_results = Return analysis_result
    /\ commit_error env (succeeded_job analysis_result s2) = None
    /\ s = committed
             (before_succeeded analysis_result
                (with_added
                   (added s2
                    ++ map (inconsistency_row (Job.id (analysis_job s2))
                              extraction_results)
                           (res_inconsistencies analysis_result)) s2))
    /\ d = succeeded_report (Job.id (analysis_job s2))
             (res_decision analysis_result).
Proof.
  intros [cls message _ _ ?|e' _ _ _ ?|er ar s2 H1 Hu Hp Ha Hm]; [done..|].
  rewrite mark_job_succeeded_unfold in Hm.
  change (analysis_job (with_added _ s2)) with (analysis_job s2) in Hm.
  change (succeeded_job ar (with_added _ s2)) with (succeeded_job ar s2) in Hm.
  destruct (commit_error env (succeeded_job ar s2)) as [[cls message]|] eqn:E;
    [done|].
  injection Hm as -> ->. by exists er, ar, s2.
Qed.

Lemma fresh_run_observed (db : Database) (job_id : uuid)
    (job : Job.AnalysisJob) :
  jobs db !! job_id = Some job ->
  Job.id job = job_id ->
  Job.status job = PENDING ->
  Job.decision job = None ->
  Job.error_message job = None ->
  Job.error_details job = None ->
  (forall j, Job.status j = SUCCEEDED -> commit_error env j = None) ->
  let db' := (handle env db job_id).1.1 in
  let obs := (handle env db job_id).1.2 in
  (map Job.status obs = [PENDING; RUNNING; SUCCEEDED]
   \/ map Job.status obs = [PENDING; RUNNING; FAILED])
  /\ monotonic (map Job.status obs) = true
  /\ Forall (fun j => consistent j = true) obs
  /\ exists stored, jobs db' !! job_id = Some stored /\ In stored obs.
Proof.
  intros Hjob Hid Hst Hde Hem Hed Hok db' obs. subst db' obs.
  rewrite (handle_found _ _ _ Hjob). unfold try_except.
  pose proof (handle_try_outcome (loaded db job)) as Ht.
  destruct (handle_try env (loaded db job)) as [s r]. cbn [fst snd] in Ht.
  set (running := running_job (loaded db job)).
  assert (Hrun : consistent running = true).
  { unfold consistent. cbn. by rewrite Hde, Hem, Hed. }
  assert (Hjc : consistent job = true).
  { unfold consistent. by rewrite Hst, Hde, Hem, Hed. }
  assert (Hrid : Job.id running = job_id) by exact Hid.
  assert (Hrst : Job.status running = RUNNING) by done.
  destruct r as [d|e].
  - apply try_outcome_returned in Ht
      as (er & ar & s2 & _ & (Hc & Hd & Ha & Ho) & _ & _ & _ & -> & _).
    injection Hc as Hc1 Hc2 Hc3 Hc4 Hc5. cbn in Hc1, Hc2, Hc3, Hc4, Hc5.
    cbn [fst snd committed before_succeeded with_job observed database
         analysis_job jobs].
    rewrite !succeeded_job_with_added. cbn [with_added observed database].
    rewrite Ho. cbn [committed before_running with_job observed loaded analysis_job].
    fold running.
    assert (Hcons : consistent (succeeded_job ar s2) = true).
    { unfold consistent. cbn. by rewrite Hc4, Hc5, Hem, Hed. }
    assert (Hsid : Job.id (succeeded_job ar s2) = job_id).
    { cbn. by rewrite Hc1. }
    split; [left; cbn; by rewrite Hst|].
    split; [cbn; by rewrite Hst|].
    split; [by repeat constructor|].
    exists (succeeded_job ar s2). rewrite Hsid, lookup_insert_eq.
    split; [done|]. cbn. tauto.
  - destruct (try_outcome_raised _ _ _ Ht Hok) as (Hc & Ho & Hdb).
    injection Hc as Hc1 Hc2 Hc3 Hc4 Hc5. cbn in Hc1, Hc2, Hc3, Hc4, Hc5.
    fold running in Ho, Hdb. rewrite Hrid in Hdb.
    rewrite mark_job_failed_unfold.
    assert (Hfid : Job.id (failed_job e s) = job_id) by (by rewrite <- Hid).
    assert (Hcons : consistent (failed_job e s) = true).
    { unfold consistent. cbn. by rewrite Hc3, Hde. }
    assert (Hobs : observed s ++ [failed_job e s] = [job; running; failed_job e s]).
    { by rewrite Ho. }
    destruct (commit_error env (failed_job e s)) as [[cls message]|];
      cbn [fst snd committed refused before_failed with_job observed database
           analysis_job jobs]; rewrite Hobs.
    + split; [right; cbn; by rewrite Hst|].
      split; [cbn; by rewrite Hst|].
      split; [by repeat constructor|].
      destruct Hdb as [-> | ->].
      * exists job. split; [done|]. cbn. tauto.
      * exists running. rewrite lookup_insert_eq. split; [done|]. cbn. tauto.
    + split; [right; cbn; by rewrite Hst|].
      split; [cbn; by rewrite Hst|].
      split; [by repeat constructor|].
      exists (failed_job e s). rewrite Hfid, lookup_insert_eq.
      split; [done|]. cbn. tauto.
Qed.

(** X11. A run on a job that is PENDING with no decision and no error
    fields, in which the commit of the SUCCEEDED job does not raise: the
    job is seen, when loaded and at each commit, PENDING, then RUNNING,
    then SUCCEEDED or FAILED, so each step is an allowed transition and
    none leaves a terminal state; at each of these moments the decision is
    present exactly when the status is SUCCEEDED and the error fields
    exactly when it is FAILED; and the stored job is one of these states. *)
Theorem fresh_run_status_monotonic (db : Database) (job_id : uuid)
    (job : Job.AnalysisJob) :
  jobs db !! job_id = Some job ->
  Job.id job = job_id ->
  Job.status job = PENDING ->
  Job.decision job = None ->
  Job.error_message job = None ->
  Job.error_details job = None ->
  (forall j, Job.status j = SUCCEEDED -> commit_error env j = None) ->
  let db' := (handle env db job_id).1.1 in
  let obs := (handle env db job_id).1.2 in
  (map Job.status obs = [PENDING; RUNNING; SUCCEEDED]
   \/ map Job.status obs = [PENDING; RUNNING; FAILED])
  /\ monotonic (map Job.status obs) = true
  /\ Forall (fun j => consistent j = true) obs
  /\ exists stored, jobs db' !! job_id = Some stored /\ In stored obs.
Proof. exact (fresh_run_observed db job_id job). Qed.

(** X12. [handle] does not look at the status of the job it loads: whatever
    that status is, it changes it to RUNNING and commits, keeping the
    decision, the error fields and [finished_at] the job had, so a job that
    had SUCCEEDED or FAILED is taken out of its terminal state; a commit of
    a terminal state follows. *)
Theorem handle_ignores_status (db : Database) (job_id : uuid)
    (job : Job.AnalysisJob) :
  jobs db !! job_id = Some job ->
  exists running rest,
    (handle env db job_id).1.2 = job :: running :: rest
    /\ Job.status running = RUNNING
    /\ Job.decision running = Job.decision job
    /\ Job.error_message running = Job.error_message job
    /\ Job.error_details running = Job.error_details job
    /\ Job.finished_at running = Job.finished_at job
    /\ exists final,
         last rest = Some final
         /\ (Job.status final = SUCCEEDED \/ Job.status final = FAILED).
Proof.
  intros Hjob. rewrite (handle_found _ _ _ Hjob). unfold try_except.
  pose proof (handle_try_outcome (loaded db job)) as Ht.
  destruct (handle_try env (loaded db job)) as [s r]. cbn [fst snd] in Ht.
  exists (running_job (loaded db job)).
  assert (Hobs : exists mid, observed s = job :: running_job (loaded db job) :: mid
                 /\ forall d, r = Return d ->
                      exists final, last mid = Some final
                                    /\ Job.status final = SUCCEEDED).
  { destruct Ht as [cls message _ -> ->|e _ (_ & _ & _ & Ho) _ ->|er ar s2 _ (_ & _ & _ & Ho) _ _ Hm].
    - exists []. by split.
    - exists []. rewrite Ho. by split.
    - rewrite mark_job_succeeded_unfold in Hm.
      destruct (commit_error env _) as [[cls message]|]; injection Hm as -> ->.
      + eexists. cbn [refused before_succeeded with_job with_added observed].
        rewrite Ho. split; [reflexivity|]. done.
      + eexists. cbn [committed before_succeeded with_job with_added observed].
        rewrite Ho. split; [reflexivity|].
        intros d _. by eexists. }
  destruct Hobs as (mid & Ho & Hret).
  destruct r as [d|e].
  - exists mid. cbn [fst snd]. split; [exact Ho|]. repeat split.
    destruct (Hret d eq_refl) as (final & Hl & Hs). exists final. tauto.
  - rewrite mark_job_failed_unfold.
    exists (mid ++ [failed_job e s]).
    assert (Hl : last (mid ++ [failed_job e s]) = Some (failed_job e s))
      by apply last_snoc.
    destruct (commit_error env (failed_job e s)) as [[cls message]|];
      cbn [fst snd committed refused before_failed with_job observed analysis_job];
      rewrite Ho; (split; [done|]); repeat split;
      exists (failed_job e s); (split; [exact Hl|by right]).
Qed.

Lemma handle_success_stored (db : Database) (job_id : uuid) (job : Job.AnalysisJob)
    (s : Session) (d : gmap str json) :
  jobs db !! job_id = Some job ->
  Job.id job = job_id ->
  handle_try env (loaded db job) = (s, Return d) ->
  exists extraction_results analysis_result stored rows,
    analysis_of extraction_results = Return analysis_result
    /\ (handle env db job_id).2
       = Return (succeeded_report job_id (res_decision analysis_result))
    /\ jobs (handle env db job_id).1.1 !! job_id = Some stored
    /\ Job.status stored = SUCCEEDED
    /\ Job.decision stored = Some (res_decision analysis_result)
    /\ is_Some (Job.finished_at stored)
    /\ inconsistency_rows (handle env db job_id).1.1
       = inconsistency_rows db ++ rows
    /\ rows = map (inconsistency_row job_id extraction_results)
                  (res_inconsistencies analysis_result)
    /\ (Job.decision stored = Some REPROVADO
        <-> exists row, In row rows /\ Inc.severity row = BLOCKER).
Proof.
  intros Hjob Hid Htry.
  pose proof (handle_try_outcome (loaded db job)) as Ht.
  rewrite Htry in Ht. cbn [fst snd] in Ht.
  apply try_outcome_returned in Ht
    as (er & ar & s2 & _ & (Hc & Hd & Ha & Ho) & _ & Han & _ & -> & ->).
  injection Hc as Hc1 _ _ _ _. cbn in Hc1.
  rewrite (handle_found _ _ _ Hjob). unfold try_except. rewrite Htry.
  cbn [fst snd committed before_succeeded with_job observed database
       analysis_job jobs inconsistency_rows added].
  rewrite !succeeded_job_with_added.
  cbn [with_added observed database added].
  rewrite Hd, Ha.
  cbn [committed before_running with_job loaded database inconsistency_rows added
       analysis_job].
  exists er, ar, (succeeded_job ar s2),
         (map (inconsistency_row job_id er) (res_inconsistencies ar)).
  assert (Hsid : Job.id (succeeded_job ar s2) = job_id).
  { cbn. by rewrite Hc1. }
  split; [exact Han|]. split; [by rewrite Hc1, Hid|].
  split; [by rewrite Hsid, lookup_insert_eq|].
  split; [done|]. split; [done|]. split; [by eexists|].
  split; [by rewrite Hc1, Hid, !app_nil_r|]. split; [done|].
  cbn [succeeded_job set_updated_at set_finished_at set_status set_job_decision
       Job.decision].
  rewrite (analyze_documents_decision env _ _ _ _ _ Han).
  pose proof (has_blocker_spec (res_inconsistencies ar)) as Hb.
  destruct (has_blocker (res_inconsistencies ar)).
  - split; [|done]. intros _. destruct (proj1 Hb eq_refl) as (f & Hin & Hf).
    exists (inconsistency_row job_id er f). split; [|exact Hf].
    apply in_map_iff. by exists f.
  - split; [done|]. intros (row & Hin & Hr).
    apply in_map_iff in Hin as (f & <- & Hin).
    assert (false = true) as Hc; [|done]. apply Hb. by exists f.
Qed.

(** X13. When the body of the [try] returns, the run has succeeded: the
    call returns the job id, SUCCEEDED and the decision of the
    cross-document analysis; the stored job is SUCCEEDED with that decision
    and [finished_at] set; one inconsistency row per finding of the
    analysis has been stored after the rows there were, in the order of the
    findings, each with the job's id and the finding's code, severity,
    message, field, documents and values; and the stored decision is
    REPROVADO exactly when one of these rows is a BLOCKER. *)
Theorem handle_success (db : Database) (job_id : uuid) (job : Job.AnalysisJob)
    (s : Session) (d : gmap str json) :
  jobs db !! job_id = Some job ->
  Job.id job = job_id ->
  handle_try env (loaded db job) = (s, Return d) ->
  exists extraction_results analysis_result stored rows,
    analysis_of extraction_results = Return analysis_result
    /\ (handle env db job_id).2
       = Return (succeeded_report job_id (res_decision analysis_result))
    /\ jobs (handle env db job_id).1.1 !! job_id = Some stored
    /\ Job.status stored = SUCCEEDED
    /\ Job.decision stored = Some (res_decision analysis_result)
    /\ is_Some (Job.finished_at stored)
    /\ inconsistency_rows (handle env db job_id).1.1
       = inconsistency_rows db ++ rows
    /\ rows = map (inconsistency_row job_id extraction_results)
                  (res_inconsistencies analysis_result)
    /\ (Job.decision stored = Some REPROVADO
        <-> exists row, In row rows /\ Inc.severity row = BLOCKER).
Proof. exact (handle_success_stored db job_id job s d). Qed.

End UseCaseFacts.

(** *** The example job, run *)

(** The example job after a run that succeeded *)
Definition finished_job : Job.AnalysisJob :=
  set_finished_at (Some 50%N)
    (set_status SUCCEEDED (set_job_decision (Some APROVADO) example_job)).

Definition finished_db : Database :=
  {| jobs := {[ py "job-1" := finished_job ]}; inconsistency_rows := [] |}.

(** What [extract_text_from_pdf] raises for the example document when its
    file is missing and PyMuPDF raises its own exception *)
Definition missing_file_error : PyExc :=
  PDFExtractionError
    (Some (py "Failed to extract text from PDF: /data/job-1/CONTRATO_SOCIAL/contrato.pdf"))
    (Some (py "/data/job-1/CONTRATO_SOCIAL/contrato.pdf"))
    (Some (OtherError (py "FileNotFoundError") (py "no such file")))
    None.

Definition connection_lost : PyExc :=
  OtherError (py "OperationalError") (py "connection lost").

Example example_runs :
  map Job.status
    (handle (R := latin1) (example_env readable database_up) example_db
       (py "job-1")).1.2
  = [PENDING; RUNNING; SUCCEEDED]
  /\ map Job.status
       (handle (R := latin1) (example_env unreadable database_up) example_db
          (py "job-1")).1.2
     = [PENDING; RUNNING; FAILED]
  /\ map (fun j => (Job.status j, Job.decision j))
       (handle (R := latin1) (example_env readable database_up) finished_db
          (py "job-1")).1.2
     = [(SUCCEEDED, Some APROVADO); (RUNNING, Some APROVADO);
        (SUCCEEDED, Some APROVADO)]
  /\ (handle (R := latin1) (example_env readable database_down) example_db
        (py "job-1")).2
     = Raise connection_lost.
Proof. repeat split; vm_compute; reflexivity. Qed.

Lemma handle_job_not_found_witness :
  exists details,
    handle (R := latin1) (example_env readable database_up) example_db (py "job-2")
    = (example_db, [],
       Raise (ApplicationError (py "AnalysisJobNotFoundError")
                (py "analysis_job_not_found") (py "Analysis job not found")
                details))
    /\ details !! py "resource_type" = Some (JStr (py "AnalysisJob"))
    /\ details !! py "resource_id" = Some (JStr (py "job-2")).
Proof.
  apply (handle_job_not_found (R := latin1) (example_env readable database_up)
           example_db (py "job-2")).
  - vm_compute; reflexivity.
  - intros H; vm_compute in H; discriminate H.
Defined.

Lemma handle_records_failure_witness :
  exists db' obs failed details,
    handle (R := latin1) (example_env unreadable database_up) example_db (py "job-1")
    = (db', obs, Return (failed_report (py "job-1") missing_file_error))
    /\ jobs db' !! py "job-1" = Some failed
    /\ Job.status failed = FAILED
    /\ Job.error_message failed = Some (exc_str missing_file_error)
    /\ Job.error_details failed = Some details
    /\ details !! py "error_code" = Some (JStr (declared_code missing_file_error))
    /\ details !! py "error_type" = Some (JStr (exc_cls missing_file_error))
    /\ is_Some (Job.finished_at failed).
Proof.
  apply (handle_records_failure (R := latin1) (example_env unreadable database_up)
           example_db (py "job-1") example_job
           (handle_try (R := latin1) (example_env unreadable database_up)
              (loaded example_db example_job)).1
           missing_file_error).
  - vm_compute; reflexivity.
  - reflexivity.
  - vm_compute; reflexivity.
  - intros j _. reflexivity.
Defined.

Lemma handle_failure_commit_refused_witness :
  (handle (R := latin1) (example_env readable database_down) example_db
     (py "job-1")).2
  = Raise (OtherError (py "OperationalError") (py "connection lost"))
  /\ exists stored,
       jobs (handle (R := latin1) (example_env readable database_down) example_db
               (py "job-1")).1.1 !! py "job-1" = Some stored
       /\ Job.decision stored = Job.decision example_job
       /\ Job.error_message stored = Job.error_message example_job
       /\ Job.error_details stored = Job.error_details example_job
       /\ (Job.status stored = Job.status example_job
           \/ Job.status stored = RUNNING).
Proof.
  apply (handle_failure_commit_refused (R := latin1)
           (example_env readable database_down)
           example_db (py "job-1") example_job
           (handle_try (R := latin1) (example_env readable database_down)
              (loaded example_db example_job)).1
           connection_lost).
  - vm_compute; reflexivity.
  - reflexivity.
  - vm_compute; reflexivity.
  - reflexivity.
Defined.

Lemma fresh_run_status_monotonic_witness :
  let db' := (handle (R := latin1) (example_env readable database_up) example_db
                (py "job-1")).1.1 in
  let obs := (handle (R := latin1) (example_env readable database_up) example_db
                (py "job-1")).1.2 in
  (map Job.status obs = [PENDING; RUNNING; SUCCEEDED]
   \/ map Job.status obs = [PENDING; RUNNING; FAILED])
  /\ monotonic (map Job.status obs) = true
  /\ Forall (fun j => consistent j = true) obs
  /\ exists stored, jobs db' !! py "job-1" = Some stored /\ In stored obs.
Proof.
  apply (fresh_run_status_monotonic (R := latin1)
           (example_env readable database_up) example_db (py "job-1") example_job).
  - vm_compute; reflexivity.
  - reflexivity.
  - reflexivity.
  - reflexivity.
  - reflexivity.
  - reflexivity.
  - intros j _. reflexivity.
Defined.

Lemma handle_ignores_status_witness :
  exists running rest,
    (handle (R := latin1) (example_env readable database_up) finished_db
       (py "job-1")).1.2
    = finished_job :: running :: rest
    /\ Job.status running = RUNNING
    /\ Job.decision running = Job.decision finished_job
    /\ Job.error_message running = Job.error_message finished_job
    /\ Job.error_details running = Job.error_details finished_job
    /\ Job.finished_at running = Job.finished_at finished_job
    /\ exists final,
         last rest = Some final
         /\ (Job.status final = SUCCEEDED \/ Job.status final = FAILED).
Proof.
  apply (handle_ignores_status (R := latin1) (example_env readable database_up)
           finished_db (py "job-1") finished_job).
  vm_compute; reflexivity.
Defined.

Lemma handle_success_witness :
  exists extraction_results analysis_result stored rows,
    analysis_of (R := latin1) (example_env readable database_up) extraction_results
    = Return analysis_result
    /\ (handle (R := latin1) (example_env readable database_up) example_db
          (py "job-1")).2
       = Return (succeeded_report (py "job-1") (res_decision analysis_result))
    /\ jobs (handle (R := latin1) (example_env readable database_up) example_db
               (py "job-1")).1.1 !! py "job-1" = Some stored
    /\ Job.status stored = SUCCEEDED
    /\ Job.decision stored = Some (res_decision analysis_result)
    /\ is_Some (Job.finished_at stored)
    /\ inconsistency_rows
         (handle (R := latin1) (example_env readable database_up) example_db
            (py "job-1")).1.1
       = inconsistency_rows example_db ++ rows
    /\ rows = map (inconsistency_row (py "job-1") extraction_results)
                  (res_inconsistencies analysis_result)
    /\ (Job.decision stored = Some REPROVADO
        <-> exists row, In row rows /\ Inc.severity row = BLOCKER).
Proof.
  apply (handle_success (R := latin1) (example_env readable database_up)
           example_db (py "job-1") example_job
           (handle_try (R := latin1) (example_env readable database_up)
              (loaded example_db example_job)).1
           (succeeded_report (py "job-1") APROVADO)).
  - vm_compute; reflexivity.
  - reflexivity.
  - vm_compute; reflexivity.
Defined.

(** ** Reading and extracting the documents *)

(** The columns of a document that say which document it is *)
Definition same_document (d d' : Doc.Document) : Prop :=
  Doc.id d' = Doc.id d
  /\ Doc.job_id d' = Doc.job_id d
  /\ Doc.document_type d' = Doc.document_type d
  /\ Doc.filename d' = Doc.filename d
  /\ Doc.content_type d' = Doc.content_type d
  /\ Doc.object_key d' = Doc.object_key d.

(** The document type whose extractor produced the data *)
Definition data_type (data : ExtractedData) : DocumentType :=
  match data with
  | ContratoSocialJSON _ => CONTRATO_SOCIAL
  | CartaoCNPJJSON _ => CARTAO_CNPJ
  | CertidaoNegativaJSON _ => CERTIDAO_NEGATIVA
  end.

(** A document after its text and data were extracted *)
Definition processed (d d' : Doc.Document) : Prop :=
  same_document d d'
  /\ is_Some (Doc.extracted_text d')
  /\ exists data,
       Doc.extracted_data d' = Some data
       /\ data_type data = Doc.document_type d.

Lemma same_document_refl d : same_document d d.
Proof. by repeat split. Qed.

Lemma same_document_trans d1 d2 d3 :
  same_document d1 d2 -> same_document d2 d3 -> same_document d1 d3.
Proof.
  intros (?&?&?&?&?&?) (?&?&?&?&?&?). repeat split; congruence.
Qed.

Section DocumentFacts.
Context {R : PyStrRuntime} (env : Env).

Lemma or_default_app (a b d : str) : a <> [] -> or_default (Some (a ++ b)) d = a ++ b.
Proof. by destruct a. Qed.

(** X14. [extract_text_from_pdf] returns the text PyMuPDF read, whatever its
    length and whether or not the OCR fallback is asked for, the fallback
    never producing text.  When PyMuPDF raises, it raises
    [PDFExtractionError] with the code [pdf_extraction_error], a message
    that ends with the path, and details that hold the path and the text
    and class name of the exception underneath.  The message says
    [PDF file not found] only for an instance of the builtin
    [FileNotFoundError]; any other exception, whatever the name of its
    class, gives [Failed to extract text from PDF]. *)
Theorem extract_text_from_pdf_outcome (pdf_path : str) (use_ocr_fallback : bool)
    (read : Foreign str) :
  pymupdf_text env pdf_path = read ->
  match read with
  | Returns extracted_text =>
      extract_text_from_pdf env pdf_path use_ocr_fallback = Return extracted_text
  | Fails cls message =>
      exists details,
        extract_text_from_pdf env pdf_path use_ocr_fallback
        = Raise (ApplicationError (py "PDFExtractionError")
                   (py "pdf_extraction_error")
                   ((if pymupdf_file_not_found env pdf_path
                     then py "PDF file not found: "
                     else py "Failed to extract text from PDF: ") ++ pdf_path)
                   details)
        /\ (pdf_path <> [] -> details !! py "file_path" = Some (JStr pdf_path))
        /\ details !! py "original_error" = Some (JStr message)
        /\ details !! py "original_error_type" = Some (JStr cls)
  end.
Proof.
  intros <-. unfold extract_text_from_pdf.
  destruct (pymupdf_text env pdf_path) as [text|cls message].
  - assert (Hocr : nonempty (strip (_extract_text_with_ocr_fallback pdf_path))
                   = false) by reflexivity.
    by rewrite Hocr, andb_false_r.
  - assert (Hd : forall m, m <> [] ->
               exists details,
                 PDFExtractionError (Some (m ++ pdf_path)) (Some pdf_path)
                   (Some (OtherError cls message)) None
                 = ApplicationError (py "PDFExtractionError")
                     (py "pdf_extraction_error") (m ++ pdf_path) details
                 /\ (pdf_path <> []
                     -> details !! py "file_path" = Some (JStr pdf_path))
                 /\ details !! py "original_error" = Some (JStr message)
                 /\ details !! py "original_error_type" = Some (JStr cls)).
    { intros m Hm. unfold PDFExtractionError. cbv zeta.
      rewrite (or_default_app _ _ _ Hm). eexists. split; [reflexivity|].
      cbn [set_original_error exc_cls exc_str]. split; [|split].
      - intros Hp. rewrite !lookup_insert_ne by py_neq.
        destruct pdf_path as [|c p]; [done|]. cbn [set_if]. apply lookup_insert_eq.
      - rewrite lookup_insert_ne by py_neq. apply lookup_insert_eq.
      - apply lookup_insert_eq. }
    destruct (pymupdf_file_not_found env pdf_path).
    + destruct (Hd (py "PDF file not found: ")) as (d & -> & Hrest);
        [py_neq|]. by exists d.
    + destruct (Hd (py "Failed to extract text from PDF: ")) as (d & -> & Hrest);
        [py_neq|]. by exists d.
Qed.

Definition documents_of (s : Session) : list Doc.Document :=
  Job.documents (analysis_job s).

(** What a successful [_process_document] does to the documents of the job:
    it changes the one at its position, into a processed one. *)
Lemma process_document_effect i document s s' r :
  _process_document env i document s = (s', Return r) ->
  exists g,
    documents_of s' = alter g i (documents_of s)
    /\ forall d, Doc.document_type d = Doc.document_type document -> processed d (g d).
Proof.
  unfold _process_document. rewrite bind_unfold. unfold lift at 1.
  destruct (_get_file_path env document) as [file_path|e]; [|done].
  rewrite bind_unfold. unfold lift at 1.
  destruct (extract_text_from_pdf env file_path true) as [text|e]; [|done].
  rewrite bind_unfold. cbn [update_document update_job].
  rewrite bind_unfold. unfold _extract_document_data.
  destruct (Doc.document_type document) eqn:Et.
  - rewrite bind_unfold. unfold lift at 1.
    destruct (extract_contrato_social env text) as [x|e]; [|done].
    intros [= <- <-].
    exists (fun d => set_doc_updated_at
                       (clock env (now_calls s))
                       (set_extracted_data (Some (ContratoSocialJSON (data x)))
                          (set_extracted_text (Some text) d))).
    split.
    + unfold documents_of. cbn. by rewrite !list_alter_alter_eq.
    + intros d Hd. split; [by repeat split|]. split; [by eexists|].
      eexists. split; [reflexivity|]. by rewrite Hd.
  - rewrite bind_unfold. unfold lift at 1.
    destruct (extract_cartao_cnpj env text) as [x|e]; [|done].
    intros [= <- <-].
    exists (fun d => set_doc_updated_at
                       (clock env (now_calls s))
                       (set_extracted_data (Some (CartaoCNPJJSON (data x)))
                          (set_extracted_text (Some text) d))).
    split.
    + unfold documents_of. cbn. by rewrite !list_alter_alter_eq.
    + intros d Hd. split; [by repeat split|]. split; [by eexists|].
      eexists. split; [reflexivity|]. by rewrite Hd.
  - rewrite bind_unfold. unfold lift at 1.
    destruct (extract_certidao_negativa_federal env text) as [x|e]; [|done].
    intros [= <- <-].
    exists (fun d => set_doc_updated_at
                       (clock env (now_calls s))
                       (set_extracted_data (Some (CertidaoNegativaJSON (data x)))
                          (set_extracted_text (Some text) d))).
    split.
    + unfold documents_of. cbn. by rewrite !list_alter_alter_eq.
    + intros d Hd. split; [by repeat split|]. split; [by eexists|].
      eexists. split; [reflexivity|]. by rewrite Hd.
Qed.

Lemma process_documents_from_effect rest :
  forall i pre extraction_results s s' extraction_results',
    documents_of s = pre ++ rest ->
    length pre = i ->
    process_documents_from env i rest extraction_results s
    = (s', Return extraction_results') ->
    exists rest', documents_of s' = pre ++ rest' /\ Forall2 processed rest rest'.
Proof.
  induction rest as [|document rest IH];
    intros i pre er s s' er' Hdocs Hlen Hrun.
  - injection Hrun as <- _. exists []. by split.
  - cbn [process_documents_from] in Hrun. rewrite bind_unfold in Hrun.
    destruct (_process_document env i document s) as [s1 [r|e]] eqn:E; [|done].
    apply process_document_effect in E as (g & Hg & Hproc).
    rewrite Hdocs in Hg.
    replace i with (length pre + 0)%nat in Hg by lia.
    rewrite alter_app_r in Hg. cbn [alter list_alter] in Hg.
    destruct (IH (S i) (pre ++ [g document]) _ _ _ _
                 ltac:(by rewrite Hg, <- app_assoc)
                 ltac:(rewrite length_app; cbn; lia) Hrun)
      as (rest' & Hdocs' & Hall).
    exists (g document :: rest'). split.
    + by rewrite Hdocs', <- app_assoc.
    + constructor; [by apply Hproc|exact Hall].
Qed.

(** X15. When [_process_all_documents] returns, the job has the documents it
    had, in the same order and with the same id, type, file name and
    object key, and each of them now holds its extracted text and the data
    extracted by the extractor of its own type. *)
Theorem process_all_documents_processed (s s' : Session)
    (extraction_results : ExtractionResults) :
  _process_all_documents env s = (s', Return extraction_results) ->
  Forall2 processed (Job.documents (analysis_job s))
                    (Job.documents (analysis_job s')).
Proof.
  unfold _process_all_documents. rewrite bind_unfold. cbn [get_job].
  intros Hrun.
  destruct (process_documents_from_effect _ 0%nat [] _ s s' _ eq_refl eq_refl Hrun)
    as (rest' & Hdocs & Hall).
  unfold documents_of in Hdocs. by rewrite Hdocs.
Qed.

(** *** The documents of the job stay the same documents *)

(** A change of a job that keeps its id and its documents' identity *)
Definition job_step (j j' : Job.AnalysisJob) : Prop :=
  Job.id j' = Job.id j
  /\ Forall2 same_document (Job.documents j) (Job.documents j').

(** A property of the job object and the stored rows that no such change
    and no commit of the job breaks *)
Record Steady (Q : Job.AnalysisJob -> Database -> Prop) : Prop := {
  steady_step : forall j j' db, job_step j j' -> Q j db -> Q j' db;
  steady_commit :
    forall j db rows,
      Q j db ->
      Q j {| jobs := <[Job.id j := j]> (jobs db); inconsistency_rows := rows |};
}.

Definition steady {A} (m : M A) : Prop :=
  forall Q, Steady Q ->
    forall s, Q (analysis_job s) (database s) ->
              Q (analysis_job (m s).1) (database (m s).1).

Lemma same_documents_refl (l : list Doc.Document) : Forall2 same_document l l.
Proof. induction l; constructor; [apply same_document_refl|done]. Qed.

Lemma same_documents_trans (l1 l2 l3 : list Doc.Document) :
  Forall2 same_document l1 l2 -> Forall2 same_document l2 l3 ->
  Forall2 same_document l1 l3.
Proof.
  intros H12. revert l3. induction H12 as [|d1 d2 l1 l2 Hd _ IH]; intros l3 H23.
  - by inversion H23.
  - inversion H23 as [|? d3 ? l3' Hd' Hl']; subst. constructor.
    + by eapply same_document_trans.
    + by apply IH.
Qed.

Lemma same_documents_alter f i (l : list Doc.Document) :
  (forall d, same_document d (f d)) -> Forall2 same_document l (alter f i l).
Proof.
  intros Hf. revert i. induction l as [|d l IH]; intros [|i]; cbn.
  - constructor.
  - constructor.
  - constructor; [apply Hf|apply same_documents_refl].
  - constructor; [apply same_document_refl|apply IH].
Qed.

Lemma job_step_refl j : job_step j j.
Proof. split; [done|apply same_documents_refl]. Qed.

Lemma job_step_trans j1 j2 j3 : job_step j1 j2 -> job_step j2 j3 -> job_step j1 j3.
Proof.
  intros [H1 H2] [H1' H2']. split; [congruence|by eapply same_documents_trans].
Qed.

Lemma steady_ret {A} (a : A) : steady (mret a).
Proof. by intros Q HQ s. Qed.

Lemma steady_bind {A B} (m : M A) (k : A -> M B) :
  steady m -> (forall a, steady (k a)) -> steady (m ≫= k).
Proof.
  intros Hm Hk Q HQ s Hs. rewrite bind_unfold. specialize (Hm Q HQ s Hs).
  destruct (m s) as [s' [a|e]]; cbn [fst] in *; [|done]. by apply Hk.
Qed.

Lemma steady_lift {A} (r : PyResult A) : steady (lift r).
Proof. by intros Q HQ s. Qed.

Lemma steady_now : steady (now env).
Proof. by intros Q HQ s. Qed.

Lemma steady_get_job : steady get_job.
Proof. by intros Q HQ s. Qed.

Lemma steady_session_add row : steady (session_add row).
Proof. by intros Q HQ s. Qed.

Lemma steady_commit_step : steady (commit env).
Proof.
  intros Q HQ s Hs. unfold commit.
  destruct (commit_error env (analysis_job s)) as [[cls message]|]; [done|].
  cbn [fst analysis_job database]. by apply (steady_commit Q HQ).
Qed.

Lemma steady_update_job f :
  (forall j, job_step j (f j)) -> steady (update_job f).
Proof. intros Hf Q HQ s Hs. cbn. by eapply (steady_step Q HQ). Qed.

Lemma steady_update_document i f :
  (forall d, same_document d (f d)) -> steady (update_document i f).
Proof.
  intros Hf. apply steady_update_job. intros j. split; [done|].
  cbn. by apply same_documents_alter.
Qed.

Lemma steady_extract_document_data i document extracted_text :
  steady (_extract_document_data env i document extracted_text).
Proof.
  unfold _extract_document_data.
  destruct (Doc.document_type document);
    (apply steady_bind; [apply steady_lift|]; intros r;
     apply steady_bind; [by apply steady_update_document|]; intros _;
     apply steady_ret).
Qed.

Lemma steady_process_document i document :
  steady (_process_document env i document).
Proof.
  unfold _process_document.
  apply steady_bind; [apply steady_lift|]; intros file_path.
  apply steady_bind; [apply steady_lift|]; intros extracted_text.
  apply steady_bind; [by apply steady_update_document|]; intros _.
  apply steady_bind; [apply steady_extract_document_data|]; intros r.
  apply steady_bind; [apply steady_now|]; intros t.
  apply steady_bind; [by apply steady_update_document|]; intros _.
  apply steady_ret.
Qed.

Lemma steady_process_documents_from documents :
  forall i extraction_results,
    steady (process_documents_from env i documents extraction_results).
Proof.
  induction documents as [|document rest IH]; intros i er; cbn.
  - apply steady_ret.
  - apply steady_bind; [apply steady_process_document|]. intros r. apply IH.
Qed.

Lemma steady_persist_each job_id l extraction_results :
  steady (persist_each job_id l extraction_results).
Proof.
  induction l as [|inc rest IH]; cbn.
  - apply steady_ret.
  - apply steady_bind; [apply steady_session_add|]. by intros _.
Qed.

Local Ltac field_step :=
  apply steady_bind;
    [apply steady_update_job; intros j;
     split; [reflexivity|apply same_documents_refl]|]; intros _.

Lemma steady_handle_try : steady (handle_try env).
Proof.
  unfold handle_try.
  apply steady_bind.
  { unfold _mark_job_running. field_step.
    apply steady_bind; [apply steady_now|]; intros t. field_step.
    apply steady_commit_step. }
  intros _. apply steady_bind.
  { unfold _process_all_documents.
    apply steady_bind; [apply steady_get_job|]. intros j.
    apply steady_process_documents_from. }
  intros er. apply steady_bind; [apply steady_lift|]. intros ar.
  apply steady_bind.
  { unfold _persist_inconsistencies.
    apply steady_bind; [apply steady_get_job|]. intros j.
    apply steady_persist_each. }
  intros _. unfold _mark_job_succeeded. field_step. field_step.
  apply steady_bind; [apply steady_now|]; intros t. field_step.
  apply steady_bind; [apply steady_now|]; intros t'. field_step.
  apply steady_bind; [apply steady_commit_step|]; intros _.
  apply steady_bind; [apply steady_get_job|]; intros j. apply steady_ret.
Qed.

Lemma steady_mark_job_failed error : steady (_mark_job_failed env error).
Proof.
  unfold _mark_job_failed. cbv zeta. field_step. field_step. field_step.
  apply steady_bind; [apply steady_now|]; intros t. field_step.
  apply steady_bind; [apply steady_now|]; intros t'. field_step.
  apply steady_bind; [apply steady_commit_step|]; intros _.
  apply steady_bind; [apply steady_get_job|]; intros j. apply steady_ret.
Qed.

Lemma handle_stored_documents (db : Database) (job_id : uuid)
    (job : Job.AnalysisJob) :
  jobs db !! job_id = Some job ->
  Job.id job = job_id ->
  exists stored,
    jobs (handle env db job_id).1.1 !! job_id = Some stored
    /\ Job.id stored = job_id
    /\ Forall2 same_document (Job.documents job) (Job.documents stored).
Proof.
  intros Hjob Hid. rewrite (handle_found _ _ _ _ Hjob). unfold try_except.
  set (Q := fun (j : Job.AnalysisJob) (d : Database) =>
              job_step job j
              /\ exists stored, jobs d !! job_id = Some stored /\ job_step job stored).
  assert (HQ : Steady Q).
  { split.
    - intros j j' d Hstep [Hj Hst]. split; [by eapply job_step_trans|done].
    - intros j d rows [Hj Hst]. split; [done|]. exists j. cbn [jobs].
      destruct Hj as [Hjid Hdocs]. rewrite Hjid, Hid, lookup_insert_eq.
      by repeat split. }
  assert (H0 : Q (analysis_job (loaded db job)) (database (loaded db job))).
  { split; [apply job_step_refl|]. exists job. split; [done|apply job_step_refl]. }
  pose proof (steady_handle_try Q HQ _ H0) as H1.
  destruct (handle_try env (loaded db job)) as [s [d|e]]; cbn [fst snd] in *.
  - destruct H1 as [_ (stored & Hst & Hid' & Hdocs)].
    exists stored. by rewrite <- Hid at 2.
  - pose proof (steady_mark_job_failed e Q HQ _ H1) as H2.
    destruct (_mark_job_failed env e s) as [s' r]. cbn [fst snd] in *.
    destruct H2 as [_ (stored & Hst & Hid' & Hdocs)].
    exists stored. by rewrite <- Hid at 2.
Qed.

(** X16. A run never adds, drops or reorders the documents of a job, and
    never changes the id, job, type, file name, content type or object key
    of one: however the run ends, the job it leaves stored has the id and
    the documents the loaded job had. *)
Theorem handle_keeps_documents (db : Database) (job_id : uuid)
    (job : Job.AnalysisJob) :
  jobs db !! job_id = Some job ->
  Job.id job = job_id ->
  exists stored,
    jobs (handle env db job_id).1.1 !! job_id = Some stored
    /\ Job.id stored = job_id
    /\ Forall2 same_document (Job.documents job) (Job.documents stored).
Proof. exact (handle_stored_documents db job_id job). Qed.

End DocumentFacts.

(** PyMuPDF's own [FileNotFoundError] for the file of the example document *)
Lemma extract_text_from_pdf_outcome_witness :
  let env := example_env unreadable database_up in
  let pdf_path := py "/data/job-1/CONTRATO_SOCIAL/contrato.pdf" in
  exists details,
    extract_text_from_pdf (R := latin1) env pdf_path true
    = Raise (ApplicationError (py "PDFExtractionError")
               (py "pdf_extraction_error")
               ((if pymupdf_file_not_found env pdf_path
                 then py "PDF file not found: "
                 else py "Failed to extract text from PDF: ") ++ pdf_path)
               details)
    /\ (pdf_path <> [] -> details !! py "file_path" = Some (JStr pdf_path))
    /\ details !! py "original_error" = Some (JStr (py "no such file"))
    /\ details !! py "original_error_type" = Some (JStr (py "FileNotFoundError")).
Proof.
  intros env pdf_path.
  apply (extract_text_from_pdf_outcome (R := latin1) env pdf_path true unreadable).
  reflexivity.
Defined.

Lemma process_all_documents_processed_witness :
  let env := example_env readable database_up in
  let s := loaded example_db example_job in
  Forall2 processed
    (Job.documents (analysis_job s))
    (Job.documents
       (analysis_job (_process_all_documents (R := latin1) env s).1)).
Proof.
  intros env s.
  apply (process_all_documents_processed (R := latin1) env s
           (_process_all_documents (R := latin1) env s).1
           {| contrato_entry :=
                Some ({| data := contrato_with articles_fernanda;
                         extraction_confidence := 1%float |},
                      example_document);
              cartao_entry := None;
              certidao_entry := None |}).
  vm_compute; reflexivity.
Defined.

Lemma handle_keeps_documents_witness :
  exists stored,
    jobs (handle (R := latin1) (example_env unreadable database_up) example_db
            (py "job-1")).1.1 !! py "job-1" = Some stored
    /\ Job.id stored = py "job-1"
    /\ Forall2 same_document (Job.documents example_job) (Job.documents stored).
Proof.
  apply (handle_keeps_documents (R := latin1) (example_env unreadable database_up)
           example_db (py "job-1") example_job).
  - vm_compute; reflexivity.
  - reflexivity.
Defined.

(** ** Creating a job from the uploads *)

(** The uploads a request supplies, with their document types, in the
    order of [_get_document_mapping] *)
Definition supplied (mapping : list (DocumentType * option Schemas.UploadFile))
    : list (DocumentType * Schemas.UploadFile) :=
  omap (fun entry : DocumentType * option Schemas.UploadFile =>
          pair entry.1 <$> entry.2) mapping.

Definition uploads (data : Schemas.AnalysisCreateInput)
    : list (DocumentType * Schemas.UploadFile) :=
  supplied [ (CONTRATO_SOCIAL, Schemas.contrato_social data);
             (CARTAO_CNPJ, Schemas.cartao_cnpj data);
             (CERTIDAO_NEGATIVA, Schemas.certidao_negativa data) ].

(** The key an upload is stored under *)
Definition key_of (job_id : uuid) (upload : DocumentType * Schemas.UploadFile) : str :=
  job_id ++ py "/" ++ DocumentType_value upload.1 ++ py "/"
  ++ default (py "None") (Schemas.filename upload.2).

(** The document row of an upload *)
Definition created_from (job_id : uuid) (upload : DocumentType * Schemas.UploadFile)
    (d : Doc.Document) : Prop :=
  Doc.job_id d = job_id
  /\ Doc.document_type d = upload.1
  /\ Doc.object_key d = key_of job_id upload
  /\ Doc.filename d <> []
  /\ (forall name, Schemas.filename upload.2 = Some name -> name <> [] ->
        Doc.filename d = name)
  /\ Doc.content_type d <> []
  /\ Doc.extracted_text d = None
  /\ Doc.extracted_data d = None.

(** The columns of a document row that a run of the analysis keeps *)
Definition filed_as (job_id : uuid) (upload : DocumentType * Schemas.UploadFile)
    (d : Doc.Document) : Prop :=
  Doc.job_id d = job_id
  /\ Doc.document_type d = upload.1
  /\ Doc.object_key d = key_of job_id upload
  /\ Doc.filename d <> [].

Section CreateFacts.
Context (cenv : CreateEnv).

Lemma or_default_nonempty (o : option str) (d : str) :
  d <> [] -> or_default o d <> [].
Proof. by destruct o as [[|c s]|]. Qed.

Lemma or_default_given (name d : str) :
  name <> [] -> or_default (Some name) d = name.
Proof. by destruct name. Qed.

(** What [_process_documents] does on the part of the mapping it still has
    to read: it fails at the first upload the storage refuses, and
    otherwise makes one document per supplied upload. *)
Lemma process_documents_cases (analysis_job : Job.AnalysisJob)
    (mapping : list (DocumentType * option Schemas.UploadFile)) :
  match _process_documents cenv analysis_job mapping with
  | Return documents =>
      Forall2 (created_from (Job.id analysis_job)) (supplied mapping) documents
      /\ Forall (fun upload =>
                   storage_save cenv (Schemas.content upload.2)
                     (key_of (Job.id analysis_job) upload) = None)
                (supplied mapping)
  | Raise e =>
      exists before upload after cls message,
        supplied mapping = before ++ upload :: after
        /\ Forall (fun upload =>
                     storage_save cenv (Schemas.content upload.2)
                       (key_of (Job.id analysis_job) upload) = None) before
        /\ storage_save cenv (Schemas.content upload.2)
             (key_of (Job.id analysis_job) upload) = Some (cls, message)
        /\ e = OtherError cls message
  end.
Proof.
  induction mapping as [|[document_type [upload_file|]] rest IH].
  - cbn. by split.
  - change (supplied ((document_type, Some upload_file) :: rest))
      with ((document_type, upload_file) :: supplied rest).
    cbn [_process_documents].
    unfold _store_and_create_document at 1. cbv zeta.
    change (Job.id analysis_job ++ py "/" ++ DocumentType_value document_type
            ++ py "/" ++ default (py "None") (Schemas.filename upload_file))
      with (key_of (Job.id analysis_job) (document_type, upload_file)).
    destruct (storage_save cenv (Schemas.content upload_file)
                (key_of (Job.id analysis_job) (document_type, upload_file)))
      as [[cls message]|] eqn:Hsave.
    + cbn. exists [], (document_type, upload_file), (supplied rest), cls, message.
      by repeat split.
    + destruct (_process_documents cenv analysis_job rest) as [documents|e].
      * destruct IH as [Hdocs Hsaves]. cbn. split.
        -- constructor; [|exact Hdocs]. unfold created_from. cbn.
           repeat split; try done.
           ++ apply or_default_nonempty. py_neq.
           ++ intros name -> Hname. by apply or_default_given.
           ++ apply or_default_nonempty. py_neq.
        -- by constructor.
      * destruct IH as (before & upload & after & cls & message
                        & -> & Hbefore & Hfail & ->).
        cbn. exists ((document_type, upload_file) :: before), upload, after,
               cls, message.
        repeat split; try done. by constructor.
  - exact IH.
Qed.

Lemma create_handle_cases (svc : Service) (data : Schemas.AnalysisCreateInput) :
  match create_handle cenv svc data with
  | (svc', Return (job_id, status)) =>
      job_id = new_job_id cenv
      /\ status = PENDING
      /\ task_queue svc' = task_queue svc ++ [job_id]
      /\ inconsistency_rows (service_db svc') = inconsistency_rows (service_db svc)
      /\ exists job,
           jobs (service_db svc') = <[job_id := job]> (jobs (service_db svc))
           /\ Job.id job = job_id
           /\ Job.status job = PENDING
           /\ Job.company_name job = Some (Schemas.company_name data)
           /\ Job.decision job = None
           /\ Job.error_message job = None
           /\ Job.error_details job = None
           /\ Job.finished_at job = None
           /\ Forall2 (created_from job_id) (uploads data) (Job.documents job)
           /\ Forall (fun upload =>
                        storage_save cenv (Schemas.content upload.2)
                          (key_of job_id upload) = None) (uploads data)
  | (svc', Raise e) =>
      svc' = svc
      /\ exists before upload after cls message,
           uploads data = before ++ upload :: after
           /\ Forall (fun upload =>
                        storage_save cenv (Schemas.content upload.2)
                          (key_of (new_job_id cenv) upload) = None) before
           /\ storage_save cenv (Schemas.content upload.2)
                (key_of (new_job_id cenv) upload) = Some (cls, message)
           /\ e = OtherError cls message
  end.
Proof.
  unfold create_handle. cbv zeta.
  pose proof (process_documents_cases (_create_analysis_job cenv data)
                (_get_document_mapping data)) as H.
  change (supplied (_get_document_mapping data)) with (uploads data) in H.
  change (Job.id (_create_analysis_job cenv data)) with (new_job_id cenv) in H.
  destruct (_process_documents cenv (_create_analysis_job cenv data)
              (_get_document_mapping data)) as [documents|e].
  - destruct H as [Hdocs Hsaves]. cbn.
    repeat split; try done.
    eexists. split; [reflexivity|]. cbn. by repeat split.
  - by split.
Qed.

(** X17. When [CreateDocumentAnalysisJob.handle] returns, it returns the new
    job's id and PENDING; the job is stored under that id, PENDING, with
    the company name of the request and no decision, error or finish time;
    it has one document per upload the request supplies, in the order
    contrato social, cartao CNPJ, certidao negativa, each with the job's
    id, the type of its form field, the key [job/TYPE/filename] it was
    stored under, a file name and a content type that are never empty, and
    no extracted text or data; every one of these uploads was saved; the
    job's id is added at the end of the task queue; and no other job and
    no inconsistency row is touched. *)
Theorem create_handle_stores_uploads (svc svc' : Service)
    (data : Schemas.AnalysisCreateInput) (job_id : uuid) (status : AnalysisStatus) :
  create_handle cenv svc data = (svc', Return (job_id, status)) ->
  job_id = new_job_id cenv
  /\ status = PENDING
  /\ task_queue svc' = task_queue svc ++ [job_id]
  /\ inconsistency_rows (service_db svc') = inconsistency_rows (service_db svc)
  /\ (forall other, other <> job_id ->
        jobs (service_db svc') !! other = jobs (service_db svc) !! other)
  /\ exists job,
       jobs (service_db svc') !! job_id = Some job
       /\ Job.id job = job_id
       /\ Job.status job = PENDING
       /\ Job.company_name job = Some (Schemas.company_name data)
       /\ Job.decision job = None
       /\ Job.finished_at job = None
       /\ Forall2 (created_from job_id) (uploads data) (Job.documents job)
       /\ Forall (fun upload =>
                    storage_save cenv (Schemas.content upload.2)
                      (key_of job_id upload) = None) (uploads data).
Proof.
  intros Hrun. pose proof (create_handle_cases svc data) as H.
  rewrite Hrun in H.
  destruct H as (Hid & Hst & Hq & Hrows & job & Hjobs & Hjid & Hjst & Hname
                 & Hdec & _ & _ & Hfin & Hdocs & Hsaves).
  repeat split; try done.
  - intros other Hother. rewrite Hjobs. by apply lookup_insert_ne.
  - exists job. rewrite Hjobs, lookup_insert_eq. by repeat split.
Qed.


End CreateFacts.

Section CreateThenAnalyze.
Context {R : PyStrRuntime} (cenv : CreateEnv) (env : Env).

Lemma filed_as_same_document job_id upload d d' :
  created_from job_id upload d -> same_document d d' -> filed_as job_id upload d'.
Proof.
  intros (Hj & Ht & Hk & Hf & _) (_ & Hj' & Ht' & Hf' & _ & Hk').
  unfold filed_as. rewrite Hj', Ht', Hk', Hf'. by repeat split.
Qed.

Lemma filed_as_documents job_id supplied documents documents' :
  Forall2 (created_from job_id) supplied documents ->
  Forall2 same_document documents documents' ->
  Forall2 (filed_as job_id) supplied documents'.
Proof.
  intros H. revert documents'.
  induction H as [|upload d supplied documents Hd _ IH]; intros documents' H'.
  - apply Forall2_nil_inv_l in H' as ->. constructor.
  - apply Forall2_cons_inv_l in H' as (d' & rest & Hd' & Hrest & ->).
    constructor; [by eapply filed_as_same_document|by apply IH].
Qed.

(** X19. The worker's run on the job id that a creation queued finds the job
    the creation stored: it does not raise [AnalysisJobNotFoundError].
    When the commit of the SUCCEEDED job does not raise, the job is seen
    PENDING, then RUNNING, then SUCCEEDED or FAILED; and whatever happens
    in the run, the job stored under that id afterwards still has one
    document per upload of the request, in their order, with the job's
    id, the upload's type and the key the upload was saved under. *)
Theorem create_then_analyze (svc svc' : Service)
    (data : Schemas.AnalysisCreateInput) (job_id : uuid) (status : AnalysisStatus) :
  create_handle cenv svc data = (svc', Return (job_id, status)) ->
  (forall j, Job.status j = SUCCEEDED -> commit_error env j = None) ->
  let run := handle env (service_db svc') job_id in
  last (task_queue svc') = Some job_id
  /\ (forall cls code message details,
        run.2 <> Raise (ApplicationError cls code message details))
  /\ (map Job.status run.1.2 = [PENDING; RUNNING; SUCCEEDED]
      \/ map Job.status run.1.2 = [PENDING; RUNNING; FAILED])
  /\ exists stored,
       jobs run.1.1 !! job_id = Some stored
       /\ Job.id stored = job_id
       /\ Forall2 (filed_as job_id) (uploads data) (Job.documents stored).
Proof.
  intros Hcreate Hok run. subst run.
  pose proof (create_handle_cases cenv svc data) as H. rewrite Hcreate in H.
  destruct H as (_ & _ & Hq & _ & job & Hjobs & Hjid & Hjst & _
                 & Hdec & Hem & Hed & _ & Hdocs & _).
  assert (Hjob : jobs (service_db svc') !! job_id = Some job).
  { rewrite Hjobs. apply lookup_insert_eq. }
  split; [rewrite Hq; apply last_snoc|].
  split.
  { intros cls code message details.
    rewrite (handle_found _ _ _ _ Hjob). unfold try_except.
    destruct (handle_try env (loaded (service_db svc') job)) as [s [d|e]];
      cbn [fst snd]; [done|].
    rewrite (mark_job_failed_unfold env).
    by destruct (commit_error env (failed_job env e s)) as [[c m]|]. }
  split.
  { by destruct (fresh_run_observed env (service_db svc') job_id job
                   Hjob Hjid Hjst Hdec Hem Hed Hok) as [Hobs _]. }
  destruct (handle_stored_documents env (service_db svc') job_id job Hjob Hjid)
    as (stored & Hst & Hsid & Hsame).
  exists stored. split; [done|]. split; [done|].
  by eapply filed_as_documents.
Qed.

End CreateThenAnalyze.

(** *** A request with two uploads *)

Definition contrato_upload : Schemas.UploadFile :=
  {| Schemas.filename := Some (py "contrato.pdf");
     Schemas.content_type := Some (py "application/pdf");
     Schemas.content := [37; 80; 68; 70]%N |}.

(** An upload that arrives without a file name and a content type *)
Definition unnamed_upload : Schemas.UploadFile :=
  {| Schemas.filename := None;
     Schemas.content_type := None;
     Schemas.content := [37; 80; 68; 70]%N |}.

Definition two_uploads : Schemas.AnalysisCreateInput :=
  {| Schemas.company_name := py "Acme Ltda";
     Schemas.contrato_social := Some contrato_upload;
     Schemas.cartao_cnpj := None;
     Schemas.certidao_negativa := Some unnamed_upload |}.



(** The upload without a file name is stored under a key that ends in
    [None], and its document is called [unknown.pdf]. *)
Example unnamed_upload_document :
  option_map (fun job => map (fun d => (Doc.object_key d, Doc.filename d))
                             (Job.documents job))
    (jobs (service_db (create_handle example_create_env empty_service two_uploads).1)
       !! py "job-1")
  = Some [ (py "job-1/CONTRATO_SOCIAL/contrato.pdf", py "contrato.pdf");
           (py "job-1/CERTIDAO_NEGATIVA/None", py "unknown.pdf") ].
Proof. vm_compute; reflexivity. Qed.

Lemma create_handle_stores_uploads_witness :
  let svc' := (create_handle example_create_env empty_service two_uploads).1 in
  py "job-1" = new_job_id example_create_env
  /\ PENDING = PENDING
  /\ task_queue svc' = task_queue empty_service ++ [py "job-1"]
  /\ inconsistency_rows (service_db svc')
     = inconsistency_rows (service_db empty_service)
  /\ (forall other, other <> py "job-1" ->
        jobs (service_db svc') !! other = jobs (service_db empty_service) !! other)
  /\ exists job,
       jobs (service_db svc') !! py "job-1" = Some job
       /\ Job.id job = py "job-1"
       /\ Job.status job = PENDING
       /\ Job.company_name job = Some (Schemas.company_name two_uploads)
       /\ Job.decision job = None
       /\ Job.finished_at job = None
       /\ Forall2 (created_from (py "job-1")) (uploads two_uploads)
                  (Job.documents job)
       /\ Forall (fun upload =>
                    storage_save example_create_env (Schemas.content upload.2)
                      (key_of (py "job-1") upload) = None) (uploads two_uploads).
Proof.
  intros svc'.
  apply (create_handle_stores_uploads example_create_env empty_service svc'
           two_uploads (py "job-1") PENDING).
  vm_compute; reflexivity.
Defined.


Lemma create_then_analyze_witness :
  let svc' := (create_handle example_create_env empty_service two_uploads).1 in
  let run := handle (R := latin1) (example_env readable database_up)
               (service_db svc') (py "job-1") in
  last (task_queue svc') = Some (py "job-1")
  /\ (forall cls code message details,
        run.2 <> Raise (ApplicationError cls code message details))
  /\ (map Job.status run.1.2 = [PENDING; RUNNING; SUCCEEDED]
      \/ map Job.status run.1.2 = [PENDING; RUNNING; FAILED])
  /\ exists stored,
       jobs run.1.1 !! py "job-1" = Some stored
       /\ Job.id stored = py "job-1"
       /\ Forall2 (filed_as (py "job-1")) (uploads two_uploads)
                  (Job.documents stored).
Proof.
  intros svc'.
  apply (create_then_analyze (R := latin1) example_create_env
           (example_env readable database_up) empty_service svc' two_uploads
           (py "job-1") PENDING).
  - vm_compute; reflexivity.
  - intros j _. reflexivity.
Defined.

(** ** Reading a job back *)

(** The inconsistencies a job shows, none when it is not there *)
Definition shown (db : Database) (job_id : uuid) : list IncOut.Inconsistency :=
  match get_handle db job_id with
  | Return out => JobOut.inconsistencies out
  | Raise _ => []
  end.

(** A finding as [GetDocumentAnalysisJob] shows it, but for the document
    it points at *)
Definition shows_finding (f : Inconsistency) (out : IncOut.Inconsistency) : Prop :=
  IncOut.code out = code f
  /\ IncOut.severity out = severity f
  /\ IncOut.message out = message f
  /\ Inc.field (IncOut.pointers out) = field f
  /\ Inc.documents (IncOut.pointers out) = documents f
  /\ Inc.values (IncOut.pointers out) = values f.

(** The document of an upload as [GetDocumentAnalysisJob] shows it *)
Definition shows_upload (job_id : uuid) (upload : DocumentType * Schemas.UploadFile)
    (out : DocOut.Document) : Prop :=
  DocOut.document_type out = upload.1
  /\ DocOut.object_key out = key_of job_id upload
  /\ DocOut.filename out <> []
  /\ DocOut.extracted_text out = None
  /\ DocOut.extracted_data out = None.

Lemma filter_job_rows (job_id : uuid) (rows : list Inc.AnalysisInconsistency) :
  Forall (fun row => Inc.job_id row = job_id) rows ->
  filter (fun inc => Inc.job_id inc = job_id) rows = rows.
Proof.
  induction 1 as [|row rows Hrow _ IH]; [done|].
  rewrite filter_cons, decide_True by done. by rewrite IH.
Qed.

Lemma filter_other_rows (job_id : uuid) (rows : list Inc.AnalysisInconsistency) :
  Forall (fun row => Inc.job_id row <> job_id) rows ->
  filter (fun inc => Inc.job_id inc = job_id) rows = [].
Proof.
  induction 1 as [|row rows Hrow _ IH]; [done|].
  by rewrite filter_cons, decide_False.
Qed.

(** X20. [GetDocumentAnalysisJob.handle] returns exactly when a job is stored
    under the id, and then what it returns has that job's id, status,
    decision and error fields.  For an id no job has it raises
    [AnalysisJobNotFoundError] with the code [analysis_job_not_found], the
    default message and, in its details, the resource type and the id
    asked for. *)
Theorem get_job_not_found (db : Database) (job_id : uuid) :
  job_id <> [] ->
  match jobs db !! job_id with
  | Some job =>
      exists out,
        get_handle db job_id = Return out
        /\ JobOut.id out = Job.id job
        /\ JobOut.status out = Job.status job
        /\ JobOut.decision out = Job.decision job
        /\ JobOut.error_message out = Job.error_message job
        /\ JobOut.error_details out = Job.error_details job
        /\ length (JobOut.documents out) = length (Job.documents job)
  | None =>
      exists details,
        get_handle db job_id
        = Raise (ApplicationError (py "AnalysisJobNotFoundError")
                   (py "analysis_job_not_found") (py "Analysis job not found")
                   details)
        /\ details !! py "resource_type" = Some (JStr (py "AnalysisJob"))
        /\ details !! py "resource_id" = Some (JStr job_id)
  end.
Proof.
  intros Hne. unfold get_handle.
  destruct (jobs db !! job_id) as [job|].
  - eexists. split; [reflexivity|]. cbn. by rewrite length_map.
  - eexists. split; [reflexivity|].
    destruct job_id as [|c job_id]; [done|]. cbn [set_if].
    split.
    + rewrite lookup_insert_ne by py_neq. apply lookup_insert_eq.
    + apply lookup_insert_eq.
Qed.

Lemma shows_upload_documents job_id ups (ds : list Doc.Document) :
  Forall2 (created_from job_id) ups ds ->
  Forall2 (shows_upload job_id) ups (map document_out ds).
Proof.
  induction 1 as [|upload d ups ds Hd _ IH]; cbn [map].
  - constructor.
  - constructor; [|exact IH].
    destruct Hd as (_ & Ht & Hk & Hf & _ & _ & Hx & Hy).
    by repeat split.
Qed.

Section ReadBack.
Context {R : PyStrRuntime} (cenv : CreateEnv) (env : Env).

(** X21. Reading back a job that was just created: [GetDocumentAnalysisJob]
    finds it and shows the id and the status the creation returned, the
    company name of the request, no decision, error or finish time, one
    document per upload of the request, in their order, each with the
    upload's type and storage key and no extracted text or data, and, when
    no inconsistency row had this id before, no inconsistency. *)
Theorem get_after_create (svc svc' : Service) (data : Schemas.AnalysisCreateInput)
    (job_id : uuid) (status : AnalysisStatus) :
  create_handle cenv svc data = (svc', Return (job_id, status)) ->
  exists out,
    get_handle (service_db svc') job_id = Return out
    /\ JobOut.id out = job_id
    /\ JobOut.status out = status
    /\ JobOut.company_name out = Some (Schemas.company_name data)
    /\ JobOut.decision out = None
    /\ JobOut.error_message out = None
    /\ JobOut.error_details out = None
    /\ JobOut.finished_at out = None
    /\ Forall2 (shows_upload job_id) (uploads data) (JobOut.documents out)
    /\ (Forall (fun row => Inc.job_id row <> job_id)
          (inconsistency_rows (service_db svc)) ->
        JobOut.inconsistencies out = []).
Proof.
  intros Hcreate.
  pose proof (create_handle_cases cenv svc data) as H. rewrite Hcreate in H.
  destruct H as (_ & -> & _ & Hrows & job & Hjobs & Hjid & Hjst & Hname
                 & Hdec & Hem & Hed & Hfin & Hdocs & _).
  unfold get_handle. rewrite Hjobs, lookup_insert_eq.
  eexists. split; [reflexivity|].
  cbn [JobOut.id JobOut.status JobOut.company_name JobOut.decision
       JobOut.error_message JobOut.error_details JobOut.finished_at
       JobOut.documents JobOut.inconsistencies].
  repeat split; try done.
  - by apply shows_upload_documents.
  - intros Hfresh. unfold inconsistencies_of. cbn [inconsistency_rows].
    rewrite Hrows, Hjid. by rewrite filter_other_rows.
Qed.

(** X22. Reading back a job after a run that succeeded: [GetDocumentAnalysisJob]
    shows it SUCCEEDED with the decision of the cross-document analysis
    and a finish time, with as many documents as the job had, and its
    inconsistencies are those it showed before the run followed by one
    per finding of the analysis, in the order of the findings, with the
    finding's code, severity, message, field, documents and values.  The
    rows of an earlier run are not removed: a second run shows the
    findings twice. *)
Theorem get_after_success (db : Database) (job_id : uuid) (job : Job.AnalysisJob)
    (s : Session) (d : gmap str json) :
  jobs db !! job_id = Some job ->
  Job.id job = job_id ->
  handle_try env (loaded db job) = (s, Return d) ->
  exists out extraction_results analysis_result found,
    get_handle (handle env db job_id).1.1 job_id = Return out
    /\ analysis_of env extraction_results = Return analysis_result
    /\ JobOut.id out = job_id
    /\ JobOut.status out = SUCCEEDED
    /\ JobOut.decision out = Some (res_decision analysis_result)
    /\ is_Some (JobOut.finished_at out)
    /\ length (JobOut.documents out) = length (Job.documents job)
    /\ JobOut.inconsistencies out = shown db job_id ++ found
    /\ Forall2 shows_finding (res_inconsistencies analysis_result) found.
Proof.
  intros Hjob Hid Htry.
  destruct (handle_success_stored env db job_id job s d Hjob Hid Htry)
    as (er & ar & stored & rows & Han & _ & Hst & Hss & Hsd & Hsf & Hrows & -> & _).
  destruct (handle_stored_documents env db job_id job Hjob Hid)
    as (stored' & Hst' & Hsid & Hdocs).
  rewrite Hst in Hst'. injection Hst' as <-.
  unfold get_handle at 1. rewrite Hst.
  eexists. exists er, ar, (map inconsistency_out
                             (map (inconsistency_row job_id er)
                                  (res_inconsistencies ar))).
  split; [reflexivity|]. cbn.
  split; [exact Han|]. split; [exact Hsid|]. split; [exact Hss|].
  split; [exact Hsd|]. split; [exact Hsf|].
  split; [rewrite length_map; symmetry; by eapply Forall2_length|].
  split.
  - unfold shown, get_handle, inconsistencies_of. rewrite Hjob. cbn.
    rewrite Hrows, Hsid, Hid, filter_app, map_app. f_equal. f_equal.
    apply filter_job_rows, List.Forall_forall. intros row Hin.
    apply in_map_iff in Hin as (f & <- & _). done.
  - clear. induction (res_inconsistencies ar) as [|f l IH]; cbn.
    + constructor.
    + constructor; [by repeat split|exact IH].
Qed.

End ReadBack.

Lemma get_job_not_found_witness :
  match jobs example_db !! py "job-2" with
  | Some job =>
      exists out,
        get_handle example_db (py "job-2") = Return out
        /\ JobOut.id out = Job.id job
        /\ JobOut.status out = Job.status job
        /\ JobOut.decision out = Job.decision job
        /\ JobOut.error_message out = Job.error_message job
        /\ JobOut.error_details out = Job.error_details job
        /\ length (JobOut.documents out) = length (Job.documents job)
  | None =>
      exists details,
        get_handle example_db (py "job-2")
        = Raise (ApplicationError (py "AnalysisJobNotFoundError")
                   (py "analysis_job_not_found") (py "Analysis job not found")
                   details)
        /\ details !! py "resource_type" = Some (JStr (py "AnalysisJob"))
        /\ details !! py "resource_id" = Some (JStr (py "job-2"))
  end.
Proof.
  apply (get_job_not_found example_db (py "job-2")).
  intros H; vm_compute in H; discriminate H.
Defined.

Lemma get_after_create_witness :
  let svc' := (create_handle example_create_env empty_service two_uploads).1 in
  exists out,
    get_handle (service_db svc') (py "job-1") = Return out
    /\ JobOut.id out = py "job-1"
    /\ JobOut.status out = PENDING
    /\ JobOut.company_name out = Some (Schemas.company_name two_uploads)
    /\ JobOut.decision out = None
    /\ JobOut.error_message out = None
    /\ JobOut.error_details out = None
    /\ JobOut.finished_at out = None
    /\ Forall2 (shows_upload (py "job-1")) (uploads two_uploads)
               (JobOut.documents out)
    /\ (Forall (fun row => Inc.job_id row <> py "job-1")
          (inconsistency_rows (service_db empty_service)) ->
        JobOut.inconsistencies out = []).
Proof.
  intros svc'.
  apply (get_after_create example_create_env empty_service svc' two_uploads
           (py "job-1") PENDING).
  vm_compute; reflexivity.
Defined.

Lemma get_after_success_witness :
  let env := example_env readable database_up in
  exists out extraction_results analysis_result found,
    get_handle (handle (R := latin1) env example_db (py "job-1")).1.1 (py "job-1")
    = Return out
    /\ analysis_of (R := latin1) env extraction_results = Return analysis_result
    /\ JobOut.id out = py "job-1"
    /\ JobOut.status out = SUCCEEDED
    /\ JobOut.decision out = Some (res_decision analysis_result)
    /\ is_Some (JobOut.finished_at out)
    /\ length (JobOut.documents out) = length (Job.documents example_job)
    /\ JobOut.inconsistencies out = shown example_db (py "job-1") ++ found
    /\ Forall2 shows_finding (res_inconsistencies analysis_result) found.
Proof.
  intros env.
  apply (get_after_success (R := latin1) env example_db (py "job-1") example_job
           (handle_try (R := latin1) env (loaded example_db example_job)).1
           (succeeded_report (py "job-1") APROVADO)).
  - vm_compute; reflexivity.
  - reflexivity.
  - vm_compute; reflexivity.
Defined.

(** ** Text limits and what the normalizers compare by *)

Section TextLimitFacts.
Context {R : PyStrRuntime}.

Lemma lstrip_head (s : str) (c : N) (rest : str) :
  lstrip s = c :: rest -> isspace c = false.
Proof.
  induction s as [|a s IH]; cbn; [done|].
  destruct (isspace a) eqn:Ea; [exact IH|].
  intros H. injection H as <- _. exact Ea.
Qed.

Lemma lstrip_snoc (s : str) (c : N) :
  isspace c = false -> exists kept, lstrip (s ++ [c]) = kept ++ [c].
Proof.
  intros Hc. induction s as [|a s IH]; cbn.
  - rewrite Hc. by exists [].
  - destruct (isspace a); [exact IH|]. by exists (a :: s).
Qed.

Lemma strip_head (s : str) (c : N) (rest : str) :
  strip s = c :: rest -> isspace c = false.
Proof.
  unfold strip. destruct (lstrip s) as [|a u] eqn:E.
  - done.
  - pose proof (lstrip_head _ _ _ E) as Ha.
    cbn [rev]. destruct (lstrip_snoc (rev u) a Ha) as (kept & ->).
    rewrite rev_app_distr. cbn. intros H. by injection H as <- _.
Qed.

(** X23. [truncate_text] returns a prefix of the stripped text ([None]
    counting as the empty text).  With a limit that is not negative the
    prefix has the length of the stripped text or the limit, whichever is
    smaller; with a negative limit its last [-max_chars] characters are
    dropped, so that the result is empty exactly when the stripped text
    has no more characters than that.  What is returned never starts with
    white space. *)
Theorem truncate_text_prefix (text : option str) (max_chars : Z) :
  let stripped := strip (default [] text) in
  exists dropped,
    stripped = truncate_text text max_chars ++ dropped
    /\ (0 <= max_chars ->
        length (truncate_text text max_chars)
        = Nat.min (length stripped) (Z.to_nat max_chars))
    /\ (max_chars < 0 ->
        length dropped = Nat.min (length stripped) (Z.to_nat (- max_chars))
        /\ (truncate_text text max_chars = []
            <-> Z.of_nat (length stripped) <= - max_chars))
    /\ (forall c rest, truncate_text text max_chars = c :: rest ->
          isspace c = false).
Proof.
  intros stripped. unfold truncate_text. fold stripped.
  assert (Hhead : forall n c rest, take n stripped = c :: rest -> isspace c = false).
  { intros n c rest H. destruct stripped as [|a u] eqn:E; [by destruct n|].
    destruct n as [|n]; [done|]. cbn in H. injection H as <- _.
    by apply (strip_head (default [] text) a u). }
  destruct (Z.leb_spec (Z.of_nat (length stripped)) max_chars) as [Hle|Hgt].
  - exists []. rewrite app_nil_r. split; [done|]. split; [lia|]. split; [lia|].
    intros c rest H. apply (Hhead (length stripped) c rest).
    by rewrite firstn_all.
  - unfold slice_to. destruct (Z.ltb_spec max_chars 0) as [Hneg|Hpos].
    + exists (drop (length stripped - Z.to_nat (- max_chars)) stripped).
      split; [by rewrite take_drop|]. split; [lia|].
      split.
      { intros _. split; [rewrite length_drop; lia|].
        split; intros H.
        - apply (f_equal length) in H. rewrite length_take in H.
          cbn [length] in H. lia.
        - apply length_zero_iff_nil. rewrite length_take. lia. }
      intros c rest. apply Hhead.
    + exists (drop (Z.to_nat max_chars) stripped).
      split; [by rewrite take_drop|].
      split; [intros _; rewrite length_take; lia|]. split; [lia|].
      intros c rest. apply Hhead.
Qed.

End TextLimitFacts.

Section NormalizerWords.
Context {R : PyStrRuntime} {L : PyStrLaws R}.

Lemma lower_nil : lower [] = [].
Proof. by apply lower_stable_id. Qed.

(** The words a text is compared by *)
Definition words_of (text : option str) : list str :=
  split (lower (default [] text)).

Lemma normalize_text_words (text : option str) :
  _normalize_text text = join [32%N] (words_of text).
Proof.
  unfold words_of, _normalize_text.
  destruct text as [[|c s]|]; cbn [default from_option]; unfold id;
    rewrite ?lower_nil; done.
Qed.

Lemma words_of_normalized (text : option str) :
  split (_normalize_text text) = words_of text.
Proof.
  rewrite normalize_text_words.
  apply split_join; [apply isspace_space|apply split_words].
Qed.

Lemma transliterated_words (ws : list str) :
  Forall word ws -> Forall word (map (map (transliterate replacements)) ws).
Proof.
  intros Hws. apply Forall_map. eapply Forall_impl; [exact Hws|].
  intros w. apply transliterated_word.
Qed.

Lemma normalize_name_words (name : option str) :
  _normalize_name name
  = join [32%N] (map (map (transliterate replacements)) (words_of name)).
Proof.
  rewrite normalize_name_transliterates, normalize_text_words.
  apply map_join.
Qed.

Lemma filter_isdigit_insert (s1 s2 : str) (c : N) :
  isdigit c = false ->
  List.filter isdigit (s1 ++ c :: s2) = List.filter isdigit (s1 ++ s2).
Proof.
  intros Hc. rewrite !List.filter_app. cbn. by rewrite Hc.
Qed.

Lemma normalize_cnpj_filter (cnpj : option str) :
  _normalize_cnpj cnpj = List.filter isdigit (default [] cnpj).
Proof. by destruct cnpj as [[|c s]|]. Qed.

End NormalizerWords.

(** X24. What the normalizers compare by.  [_normalize_text] gives two texts
    the same value exactly when, in lower case, they have the same words
    in the same order, however the words are spaced, and [None], the
    empty text and a text of white space alone are all the empty value;
    [_normalize_name] gives two names the same value exactly when these
    words are the same after the accented letters of its table are
    replaced; [_normalize_cnpj] keeps digits only, so a character that is
    not a digit, wherever it is put in, changes nothing. *)
Theorem normalizers_compare (R : PyStrRuntime) (L : PyStrLaws R)
    (a b : option str) :
  (_normalize_text a = _normalize_text b <-> words_of a = words_of b)
  /\ (_normalize_text a = [] <-> words_of a = [])
  /\ (_normalize_name a = _normalize_name b
      <-> map (map (transliterate replacements)) (words_of a)
          = map (map (transliterate replacements)) (words_of b))
  /\ Forall (fun c => isdigit c = true) (_normalize_cnpj a)
  /\ (forall s1 s2 c, isdigit c = false ->
        _normalize_cnpj (Some (s1 ++ c :: s2)) = _normalize_cnpj (Some (s1 ++ s2))).
Proof.
  split; [|split; [|split; [|split]]].
  - split.
    + intros H. by rewrite <- !words_of_normalized, H.
    + intros H. by rewrite !normalize_text_words, H.
  - rewrite normalize_text_words. split.
    + apply join_nil_iff. apply split_words.
    + by intros ->.
  - rewrite !normalize_name_words. split.
    + intros H.
      rewrite <- (split_join (map (map (transliterate replacements)) (words_of a)));
        [|apply isspace_space|apply transliterated_words, split_words].
      rewrite H.
      apply split_join; [apply isspace_space|].
      apply transliterated_words, split_words.
    + by intros ->.
  - rewrite normalize_cnpj_filter. apply List.Forall_forall.
    intros c Hc. by apply List.filter_In in Hc as [_ Hc].
  - intros s1 s2 c Hc. rewrite !normalize_cnpj_filter. cbn [default].
    by apply filter_isdigit_insert.
Qed.

Example truncate_text_examples :
  truncate_text (R := latin1) (Some (py "  contrato social  ")) 8 = py "contrato"
  /\ truncate_text (R := latin1) (Some (py "  contrato social  ")) 9 = py "contrato "
  /\ truncate_text (R := latin1) (Some (py "  contrato social  ")) (-7) = py "contrato"
  /\ truncate_text (R := latin1) (Some (py "  contrato social  ")) (-100) = []
  /\ truncate_text (R := latin1) None 6000 = [].
Proof. repeat split; vm_compute; reflexivity. Qed.

Lemma normalizers_compare_witness :
  let a := Some (py "  ACME   Comércio Ltda ") in
  let b := Some (py "Acme comércio LTDA") in
  (_normalize_text a = _normalize_text b <-> words_of a = words_of b)
  /\ (_normalize_text a = [] <-> words_of a = [])
  /\ (_normalize_name a = _normalize_name b
      <-> map (map (transliterate replacements)) (words_of a)
          = map (map (transliterate replacements)) (words_of b))
  /\ Forall (fun c => isdigit c = true) (_normalize_cnpj a)
  /\ (forall s1 s2 c, isdigit c = false ->
        _normalize_cnpj (Some (s1 ++ c :: s2)) = _normalize_cnpj (Some (s1 ++ s2))).
Proof.
  exact (normalizers_compare latin1 latin1_laws
           (Some (py "  ACME   Comércio Ltda ")) (Some (py "Acme comércio LTDA"))).
Defined.
